(** * gpt-pilot core: the command-line session driver and two agents

    A shallow embedding of

    - [core/cli/main.py]        ([run_project], [llm_api_check],
                                 [start_new_project], [run_pythagora_session],
                                 [async_main], [run_pythagora]),
    - [core/agents/code_monkey.py] ([CodeMonkey]),
    - [core/agents/architect.py]   ([Architect]),

    followed by the properties of the specification that concern them.

    The Python code is asynchronous but runs on one logical thread: every
    [await] is a point where the program hands control to a collaborator (the
    language model, the user interface, the process manager, the state manager)
    and resumes with its answer.  The embedding is therefore a state-and-
    exception monad over a [World] that holds the two project-state snapshots
    and the chronological log of every interaction with a collaborator.  The
    collaborators are not part of these three files; their answers come from an
    environment [Env] whose functions see the whole log so far, which makes
    them arbitrary deterministic, history-dependent respondents. *)

From Stdlib Require Import ZArith String Ascii List.
From stdpp Require Import base option list gmap strings.

Open Scope string_scope.

(** ** Python values used by the code *)

(** The exceptions the code can meet.  [KeyboardInterrupt] derives from
    [BaseException]; [UIClosedError], [APIError] and the built-in [KeyError],
    [TypeError] and [AttributeError] derive from [Exception].  [KeyError] is
    what a failed dictionary subscript raises, [TypeError] what iterating
    over [None] raises, [AttributeError] what a method call on [None] raises.
    [OtherException] stands for any further subclass of [Exception], and
    [OtherBaseException] for any further exception that is not one
    ([asyncio.CancelledError], [SystemExit], [GeneratorExit]): an
    [except Exception] clause does not catch these. *)
Inductive exn : Type :=
| KeyboardInterrupt
| UIClosedError
| APIError (message : string)
| KeyError (key : string)
| TypeError (message : string)
| AttributeError (message : string)
| OtherException (repr : string)
| OtherBaseException (repr : string).

(** [isinstance(e, Exception)] *)
Definition is_Exception (e : exn) : bool :=
  match e with
  | KeyboardInterrupt | OtherBaseException _ => false
  | _ => true
  end.

(** [str(e)] / [err.message], as used in messages. *)
Definition exn_str (e : exn) : string :=
  match e with
  | KeyboardInterrupt => "KeyboardInterrupt"
  | UIClosedError => "UIClosedError"
  | APIError m => m
  | KeyError k => k
  | TypeError m => m
  | AttributeError m => m
  | OtherException r => r
  | OtherBaseException r => r
  end.

(** Truthiness of a string and of an optional string ([None] and [""] are
    falsy). *)
Definition str_truthy (s : string) : bool :=
  match s with
  | EmptyString => false
  | String _ _ => true
  end.

Definition opt_str_truthy (o : option string) : bool :=
  match o with
  | None => false
  | Some s => str_truthy s
  end.

(** Truthiness of an optional boolean ([None] is falsy). *)
Definition opt_bool_truthy (o : option bool) : bool :=
  match o with
  | None => false
  | Some b => b
  end.

(** An optional string inside an f-string: [None] is formatted as the text
    [None]. *)
Definition format_str (o : option string) : string :=
  match o with
  | None => "None"
  | Some s => s
  end.

(** A Python [str] is kept as the bytes of its UTF-8 encoding: it consists of
    ASCII characters when every byte is below 128. *)
Definition is_ascii (s : string) : bool :=
  forallb (λ c, (nat_of_ascii c <? 128)%nat) (list_ascii_of_string s).

(** [str.lower()] on a string of ASCII characters: the letters [A]..[Z] are
    mapped to [a]..[z], every other character is kept.  (On other strings
    [str.lower()] follows the Unicode tables, see [str_lower] below.) *)
Definition ascii_lower (c : ascii) : ascii :=
  let n := nat_of_ascii c in
  if (65 <=? n)%nat && (n <=? 90)%nat then ascii_of_nat (n + 32) else c.

Fixpoint lower (s : string) : string :=
  match s with
  | EmptyString => EmptyString
  | String c rest => String (ascii_lower c) (lower rest)
  end.

(** [os.path.basename]: what follows the last ["/"]. *)
Fixpoint basename (p : string) : string :=
  match p with
  | EmptyString => EmptyString
  | String c rest =>
      if Ascii.eqb c "/" then basename rest
      else if bool_decide ("/" ∈ list_ascii_of_string rest)%char then basename rest
      else p
  end.

(** [sep.join(parts)] *)
Definition join (sep : string) (parts : list string) : string :=
  String.concat sep parts.

(** ** Data model *)

(** Values stored in a file's [meta] dictionary (JSON data). *)
Inductive MetaValue : Type :=
| MNone
| MBool (b : bool)
| MInt (z : Z)
| MStr (s : string)
| MList (l : list string).

(** Python truthiness of an optional dictionary entry, as in
    [file.meta.get("description")]. *)
Definition meta_truthy (v : option MetaValue) : bool :=
  match v with
  | None | Some MNone => false
  | Some (MBool b) => b
  | Some (MInt z) => negb (Z.eqb z 0)
  | Some (MStr s) => str_truthy s
  | Some (MList l) => match l with [] => false | _ => true end
  end.

(** A File Record.  [content] is [file.content.content]. *)
Module File.
Record t : Type := mk {
  path : string;
  content : string;
  meta : gmap string MetaValue;
}.
Definition set_meta (m : gmap string MetaValue) (f : t) : t :=
  {| path := path f; content := content f; meta := m |}.
End File.

(** Pydantic model [FileDescription]. *)
Module FileDescription.
Record t : Type := mk {
  summary : string;
  references : list string;
}.
End FileDescription.

(** Pydantic model [SystemDependency].  Every field is declared with
    [Field(None, ...)]: a reply of the model that leaves a field out still
    parses, and the field is then [None]. *)
Module SystemDependency.
Record t : Type := mk {
  name : option string;
  description : option string;
  test : option string;
  required_locally : option bool;
}.
End SystemDependency.

(** Pydantic model [PackageDependency]; its fields default to [None] too. *)
Module PackageDependency.
Record t : Type := mk {
  name : option string;
  description : option string;
}.
End PackageDependency.

(** [ProjectTemplateEnum] (declared in [core/templates/registry.py]); only its
    [.value] is read. *)
Module ProjectTemplateEnum.
Record t : Type := mk { value : string }.
End ProjectTemplateEnum.

(** Pydantic model [Architecture]; every field defaults to [None], the two
    lists included. *)
Module Architecture.
Record t : Type := mk {
  architecture : option string;
  system_dependencies : option (list SystemDependency.t);
  package_dependencies : option (list PackageDependency.t);
  template : option ProjectTemplateEnum.t;
}.
End Architecture.

(** A system dependency as stored in the specification: the dictionary
    [SystemDependency.model_dump()] produces, to which
    [check_system_dependencies] adds the key ["installed"] ([None] here means
    the key is absent). *)
Module SysDep.
Record t : Type := mk {
  name : option string;
  description : option string;
  test : option string;
  required_locally : option bool;
  installed : option bool;
}.
Definition set_installed (b : bool) (d : t) : t :=
  {| name := name d; description := description d; test := test d;
     required_locally := required_locally d; installed := Some b |}.
End SysDep.

(** A package dependency as stored in the specification. *)
Module PkgDep.
Record t : Type := mk {
  name : option string;
  description : option string;
}.
End PkgDep.

(** [d.model_dump()] *)
Definition model_dump_system (d : SystemDependency.t) : SysDep.t :=
  {| SysDep.name := SystemDependency.name d;
     SysDep.description := SystemDependency.description d;
     SysDep.test := SystemDependency.test d;
     SysDep.required_locally := SystemDependency.required_locally d;
     SysDep.installed := None |}.

Definition model_dump_package (d : PackageDependency.t) : PkgDep.t :=
  {| PkgDep.name := PackageDependency.name d;
     PkgDep.description := PackageDependency.description d |}.

(** The ["architecture"] entry of an element of [EXAMPLE_PROJECTS]. *)
Module ExampleArchitecture.
Record t : Type := mk {
  architecture : option string;
  system_dependencies : list SysDep.t;
  package_dependencies : list PkgDep.t;
  template : option string;
}.
End ExampleArchitecture.

(** [Specification] (declared in [core/db/models]): the fields the code reads
    and writes. *)
Module Specification.
Record t : Type := mk {
  description : string;
  architecture : option string;
  system_dependencies : list SysDep.t;
  package_dependencies : list PkgDep.t;
  template : option string;
  example_project : option string;
}.
End Specification.

(** An element of [current_state.iterations]. *)
Module Iteration.
Record t : Type := mk {
  user_feedback : option string;
  user_feedback_qa : option string;
  description : string;
}.
End Iteration.

(** [current_state.current_task] *)
Module Task.
Record t : Type := mk { instructions : string }.
End Task.

(** A project-state snapshot: the fields the code reads and writes. *)
Module ProjectState.
Record t : Type := mk {
  specification : Specification.t;
  files : list File.t;
  current_task : Task.t;
  iterations : list Iteration.t;
  action : string;
}.
Definition set_action (a : string) (s : t) : t :=
  {| specification := specification s; files := files s;
     current_task := current_task s; iterations := iterations s; action := a |}.
Definition set_specification (sp : Specification.t) (s : t) : t :=
  {| specification := sp; files := files s;
     current_task := current_task s; iterations := iterations s;
     action := action s |}.
Definition set_files (fs : list File.t) (s : t) : t :=
  {| specification := specification s; files := fs;
     current_task := current_task s; iterations := iterations s;
     action := action s |}.
End ProjectState.

(** Modelled from the spec: [AgentResponse] and [ResponseType]
    ([core/agents/response.py] is not among the sources).  Section 3 describes
    it as a tagged union whose payload depends on the tag; the payloads below
    are the arguments [CodeMonkey] passes to [AgentResponse.code_review] and the
    keys it reads from a [CODE_REVIEW_FEEDBACK] response.  [OtherResponse]
    stands for every tag these files neither build nor inspect. *)
Inductive AgentResponse : Type :=
| Done
| DescribeFiles
| CodeReview (path instructions old_content new_content : string) (attempt : Z)
| CodeReviewFeedback (new_content approved_content feedback : string)
    (attempt : Z)
| OtherResponse (tag : string).

(** [UserInput] (declared in [core/ui/base.py]). *)
Module UserInput.
Record t : Type := mk {
  button : option string;
  text : string;
  cancelled : bool;
}.
End UserInput.

(** The arguments of an [ask_question] call. *)
Module Question.
Record t : Type := mk {
  question : string;
  buttons : list (string * string);
  buttons_only : bool;
  default : option string;
  allow_empty : bool;
}.
End Question.

#[global] Instance question_eq_dec : EqDecision Question.t.
Proof. solve_decision. Defined.

(** [ProjectStage] (declared in [core/ui/base.py]); one member is used. *)
Inductive ProjectStage : Type := ARCHITECTURE.

(** Conversations are kept symbolic: prompt rendering is not part of these
    files.  A conversation is the list of builder calls made on [AgentConvo]. *)
Inductive TemplateArg : Type :=
| ArgStr (s : string)
| ArgOpt (o : option string)
| ArgProjectTemplates.

Inductive ConvoItem : Type :=
| ConvoTemplate (name : string) (args : list (string * TemplateArg))
| ConvoAssistant (text : string)
| ConvoRequireSchema (schema : string).

Definition AgentConvo : Type := list ConvoItem.

(** What a call raises or returns. *)
Inductive Outcome (A : Type) : Type :=
| Return (a : A)
| Raise (e : exn).
Arguments Return {A} a.
Arguments Raise {A} e.

(** The parsed result of a model call, by parser. *)
Inductive LLMResult : Type :=
| CodeBlock (text : string)
| Described (fd : FileDescription.t)
| Planned (arch : Architecture.t).

(** Values handed to [telemetry.set]. *)
Inductive TelemetryValue : Type :=
| TelStr (s : string)
| TelOptStr (o : option string)
| TelBool (b : bool)
| TelArchitecture (description : option string)
    (system_dependencies : list SysDep.t)
    (package_dependencies : list PkgDep.t).

(** Command-line arguments read by [run_pythagora_session].  Project and
    branch identifiers are objects (always truthy when present); the step is an
    integer index. *)
Module Args.
Record t : Type := mk {
  project : option string;
  branch : option string;
  step : option Z;
}.
End Args.

(** One interaction with a collaborator, with the answer it gave. *)
Inductive Event : Type :=
| EvSendProjectStage (stage : ProjectStage)
| EvSendMessage (message : string)
| EvAskQuestion (q : Question.t) (reply : Outcome UserInput.t)
| EvLLM (agent_name : option string) (convo : AgentConvo)
    (reply : Outcome LLMResult)
| EvRunCommand (command : option string) (status_code : Outcome Z)
| EvTelemetrySet (key : string) (value : TelemetryValue)
| EvRecordCrash (e : exn)
| EvApiCheck (provider : string) (reply : Outcome bool)
| EvOrchestratorRun
| EvRollback
| EvLoadProject (project branch : option string) (step : option Z)
    (found : Outcome bool)
| EvCreateProject (name : string) (created : bool).

(** The state the code runs in: the log of interactions (oldest first), and
    the State Manager's committed ([current_state]) and working
    ([next_state]) snapshots. *)
Record World : Type := mkWorld {
  trace : list Event;
  project_id : string;
  current_state : ProjectState.t;
  next_state : ProjectState.t;
}.

Definition log_event (e : Event) (w : World) : World :=
  {| trace := trace w ++ [e]; project_id := project_id w;
     current_state := current_state w; next_state := next_state w |}.

Definition with_next_state (s : ProjectState.t) (w : World) : World :=
  {| trace := trace w; project_id := project_id w;
     current_state := current_state w; next_state := s |}.

Definition with_states (c n : ProjectState.t) (w : World) : World :=
  {| trace := trace w; project_id := project_id w;
     current_state := c; next_state := n |}.

(** The collaborators.  Each answer may depend on everything that happened
    before (the log).  [orchestrator_run] is [Orchestrator(sm, ui).run()],
    whose code is not among the sources: any transformer of the world that
    returns a boolean or raises.  [unicode_lower] is [str.lower()] on the
    strings that have a character outside ASCII, where it follows the
    Unicode tables of the interpreter. *)
Record Env : Type := mkEnv {
  llm_code : list Event → AgentConvo → Outcome string;
  llm_file_description : list Event → AgentConvo → Outcome FileDescription.t;
  llm_architecture : list Event → AgentConvo → Outcome Architecture.t;
  ui_ask_question : list Event → Question.t → Outcome UserInput.t;
  process_run_command : list Event → option string → Outcome Z;
  llm_api_probe : list Event → string → Outcome bool;
  config_all_llms : list string;
  orchestrator_run : World → Outcome bool * World;
  stored_project :
    option string → option string → option Z
    → Outcome (option ProjectState.t);
  created_project : string → option ProjectState.t;
  crash_stack_trace : exn → string;
  DESCRIBE_FILES_AGENT_NAME : string;
  EXAMPLE_PROJECTS : gmap string ExampleArchitecture.t;
  unicode_lower : string → string;
}.

(** What [BaseAgent] gives an agent and [CodeMonkey] reads: the previous
    response, and the path of the file the current step saves
    ([self.step["save_file"]["path"]]). *)
Module Agent.
Record t : Type := mk {
  prev_response : option AgentResponse;
  step_save_file_path : string;
}.
End Agent.

(** ** The monad *)

Definition M (A : Type) : Type := World → Outcome A * World.

Definition ret {A} (a : A) : M A := λ w, (Return a, w).

Definition raise {A} (e : exn) : M A := λ w, (Raise e, w).

Definition bind {A B} (c : M A) (k : A → M B) : M B :=
  λ w, match c w with
       | (Return a, w') => k a w'
       | (Raise e, w') => (Raise e, w')
       end.

(** [try: c except ...: h e] *)
Definition try_except {A} (c : M A) (h : exn → M A) : M A :=
  λ w, match c w with
       | (Return a, w') => (Return a, w')
       | (Raise e, w') => h e w'
       end.

Definition get_world : M World := λ w, (Return w, w).

Definition emit (e : Event) : M unit := λ w, (Return tt, log_event e w).

Definition lift_outcome {A} (o : Outcome A) : M A :=
  match o with
  | Return a => ret a
  | Raise e => raise e
  end.

Notation "'let*' x ':=' c 'in' k" := (bind c (λ x, k))
  (at level 10, x pattern, c at level 99, k at level 200).
Notation "c ;;; k" := (bind c (λ _, k))
  (at level 100, right associativity).

Section Program.

Variable env : Env.

(** ** Collaborator calls *)

(** Modelled from the spec: [send_message(text)] is a one-way notification
    (section 6); it is logged and returns. *)
Definition send_message (message : string) : M unit :=
  emit (EvSendMessage message).

Definition send_project_stage (stage : ProjectStage) : M unit :=
  emit (EvSendProjectStage stage).

(** Modelled from the spec: [ask_question(prompt, options) -> UserInput],
    which may signal cancellation (section 6): the reply is the environment's
    and may be an exception. *)
Definition ask_question (q : Question.t) : M UserInput.t :=
  λ w, let reply := ui_ask_question env (trace w) q in
       lift_outcome reply (log_event (EvAskQuestion q reply) w).

(** [telemetry.set(key, value)] *)
Definition telemetry_set (key : string) (value : TelemetryValue) : M unit :=
  emit (EvTelemetrySet key value).

(** [llm(convo, temperature=0, parser=OptionalCodeBlockParser())] *)
Definition llm_call_code (agent_name : option string) (convo : AgentConvo)
  : M string :=
  λ w, let reply := llm_code env (trace w) convo in
       let logged :=
         match reply with
         | Return s => Return (CodeBlock s)
         | Raise e => Raise e
         end in
       lift_outcome reply (log_event (EvLLM agent_name convo logged) w).

(** [llm(convo, parser=JSONParser(spec=FileDescription))] *)
Definition llm_call_file_description (agent_name : option string)
  (convo : AgentConvo) : M FileDescription.t :=
  λ w, let reply := llm_file_description env (trace w) convo in
       let logged :=
         match reply with
         | Return fd => Return (Described fd)
         | Raise e => Raise e
         end in
       lift_outcome reply (log_event (EvLLM agent_name convo logged) w).

(** [llm(convo, parser=JSONParser(Architecture))] *)
Definition llm_call_architecture (agent_name : option string)
  (convo : AgentConvo) : M Architecture.t :=
  λ w, let reply := llm_architecture env (trace w) convo in
       let logged :=
         match reply with
         | Return a => Return (Planned a)
         | Raise e => Raise e
         end in
       lift_outcome reply (log_event (EvLLM agent_name convo logged) w).

(** Modelled from the spec: [run_command(command) -> (exit_code, stdout,
    stderr)] (section 6); only the exit code is read.  Awaiting the exit
    status is a suspension point (section 5): the call may raise instead of
    returning. *)
Definition run_command (command : option string) : M Z :=
  λ w, let reply := process_run_command env (trace w) command in
       lift_outcome reply (log_event (EvRunCommand command reply) w).

(** Modelled from the spec: [StateManager.rollback()] discards the uncommitted
    working snapshot and leaves the last committed snapshot as current
    (section 4.1); [core/state/state_manager.py] is not among the sources. *)
Definition rollback : M unit :=
  λ w, (Return tt,
        log_event EvRollback (with_next_state (current_state w) w)).

(** Modelled from the spec: [load_project(sm, project, branch, step)]
    ([core/cli/helpers.py], not among the sources) makes the stored snapshot
    at these coordinates the current one and reports whether it exists
    ([resume], section 4.1); it may also fail, with a
    [CheckpointNotFoundError] or a [PersistenceError] (section 7). *)
Definition load_project (project branch : option string) (step : option Z)
  : M bool :=
  λ w, match stored_project env project branch step with
       | Return (Some s) =>
           (Return true,
            log_event (EvLoadProject project branch step (Return true))
              (with_states s s w))
       | Return None =>
           (Return false,
            log_event (EvLoadProject project branch step (Return false)) w)
       | Raise e =>
           (Raise e, log_event (EvLoadProject project branch step (Raise e)) w)
       end.

(** Modelled from the spec: [StateManager.create_project(name)] creates the
    initial snapshot of a new project and returns it, or [None]. *)
Definition create_project (name : string) : M (option ProjectState.t) :=
  λ w, match created_project env name with
       | Some s =>
           (Return (Some s),
            log_event (EvCreateProject name true) (with_states s s w))
       | None => (Return None, log_event (EvCreateProject name false) w)
       end.

(** [self.next_state.action = label] *)
Definition set_next_action (label : string) : M unit :=
  λ w, (Return tt,
        with_next_state (ProjectState.set_action label (next_state w)) w).

(** [self.next_state.specification = spec] *)
Definition set_next_specification (spec : Specification.t) : M unit :=
  λ w, (Return tt,
        with_next_state
          (ProjectState.set_specification spec (next_state w)) w).

(** [telemetry.record_crash(err)]: records the crash and returns the stack
    trace as text. *)
Definition record_crash (err : exn) : M string :=
  emit (EvRecordCrash err) ;;; ret (crash_stack_trace env err).

(** ** [core/cli/main.py] *)

(** [await orca.run()]: the call is logged, then the orchestrator acts on the
    world. *)
Definition orca_run : M bool :=
  emit EvOrchestratorRun ;;; orchestrator_run env.

Definition newline : string := String (ascii_of_nat 10) EmptyString.

(** [run_project(sm, ui)] *)
Definition run_project : M bool :=
  let* w := get_world in
  telemetry_set "app_id" (TelStr (project_id w)) ;;;
  telemetry_set "initial_prompt"
    (TelStr (Specification.description
               (ProjectState.specification (current_state w)))) ;;;
  try_except
    (let* success := orca_run in
     telemetry_set "end_result"
       (TelStr (if success : bool then "success:exit"
                else "failure:api-error")) ;;;
     ret success)
    (λ err,
       match err with
       | KeyboardInterrupt | UIClosedError =>
           telemetry_set "end_result" (TelStr "interrupt") ;;;
           rollback ;;;
           ret false
       | APIError message =>
           send_message
             ("Stopping Pythagora due to an error while calling the LLM API: "
              +:+ message) ;;;
           telemetry_set "end_result" (TelStr "failure:api-error") ;;;
           rollback ;;;
           ret false
       | _ =>
           if is_Exception err then
             let* stack_trace := record_crash err in
             rollback ;;;
             send_message
               ("Stopping Pythagora due to error:" +:+ newline +:+ newline
                +:+ stack_trace) ;;;
             ret false
           else raise err
       end).

(** [await llm_client.api_check()] for the client of one provider. *)
Definition api_check (provider : string) : M bool :=
  λ w, let reply := llm_api_probe env (trace w) provider in
       lift_outcome reply (log_event (EvApiCheck provider reply) w).

(** The loop of [llm_api_check] over [config.all_llms()].  The source never
    adds to [checked_llms], so the set it tests stays as it was created. *)
Fixpoint llm_api_check_loop (llms : list string) (checked_llms : gset string)
  (success : bool) : M bool :=
  match llms with
  | [] => ret success
  | provider :: rest =>
      if bool_decide (provider ∈ checked_llms)
      then llm_api_check_loop rest checked_llms success
      else
        let* success' :=
          try_except
            (let* resp := api_check provider in
             ret (if resp : bool then success else false))
            (λ err,
               match err with
               | APIError _ =>
                   send_message
                     ("API check for " +:+ provider +:+ " failed with: "
                      +:+ exn_str err) ;;;
                   ret false
               | _ => raise err
               end) in
        llm_api_check_loop rest checked_llms success'
  end.

(** [llm_api_check(ui)] *)
Definition llm_api_check : M bool :=
  let* success := llm_api_check_loop (config_all_llms env) ∅ true in
  (if success then ret tt
   else telemetry_set "end_result" (TelStr "failure:api-error")) ;;;
  ret success.

Definition project_name_question : Question.t :=
  {| Question.question := "What is the project name?";
     Question.buttons := [];
     Question.buttons_only := false;
     Question.default := None;
     Question.allow_empty := false |}.

(** [start_new_project(sm, ui)].  The [try] covers the question only; its
    handler returns [False] at once, which is the [None] below. *)
Definition start_new_project : M bool :=
  let* asked :=
    try_except
      (let* user_input := ask_question project_name_question in
       ret (Some user_input))
      (λ err,
         match err with
         | KeyboardInterrupt | UIClosedError => ret None
         | _ => raise err
         end) in
  match asked with
  | None => ret false
  | Some user_input =>
      if UserInput.cancelled user_input then ret false
      else
        let* project_state := create_project (UserInput.text user_input) in
        ret (bool_decide (is_Some project_state))
  end.

(** Truthiness of [args.project or args.branch or args.step]: an identifier
    object is truthy whenever it is present, the integer step is truthy when it
    is present and not zero. *)
Definition args_name_a_checkpoint (args : Args.t) : bool :=
  bool_decide (is_Some (Args.project args))
  || bool_decide (is_Some (Args.branch args))
  || match Args.step args with
     | Some z => negb (Z.eqb z 0)
     | None => false
     end.

(** [run_pythagora_session(sm, ui, args)] *)
Definition run_pythagora_session (args : Args.t) : M bool :=
  let* reachable := llm_api_check in
  if negb reachable then
    send_message
      "Pythagora cannot start because the LLM API is not reachable." ;;;
    ret false
  else if args_name_a_checkpoint args then
    telemetry_set "is_continuation" (TelBool true) ;;;
    let* success :=
      load_project (Args.project args) (Args.branch args) (Args.step args) in
    if negb success then ret false else run_project
  else
    let* success := start_new_project in
    if negb success then ret false else run_project.

(** ** [core/agents/code_monkey.py] *)

(** Modelled from the spec: [StateManager.get_file_by_path(path)], the File
    Record of the committed snapshot with this path, if any. *)
Definition get_file_by_path (file_name : string) : M (option File.t) :=
  λ w, (Return
          (List.find (λ f, bool_decide (File.path f = file_name))
             (ProjectState.files (current_state w))), w).

(** [CodeMonkey.handle_previous_response] *)
Definition handle_previous_response (self : Agent.t)
  (file_name file_content : string) : M (Z * option string) :=
  match Agent.prev_response self with
  | Some (CodeReviewFeedback _ _ prev_feedback prev_attempt) =>
      let attempt := (prev_attempt + 1)%Z in
      let feedback := prev_feedback in
      send_message ("Reworking changes I made to " +:+ file_name +:+ " ...") ;;;
      ret (attempt, Some feedback)
  | _ =>
      send_message
        ((if str_truthy file_content then "Updating existing"
          else "Creating new") +:+ " file " +:+ file_name +:+ " ...") ;;;
      set_next_action
        (if str_truthy file_content
         then "Update file " +:+ String (ascii_of_nat 34) (basename file_name)
              +:+ String (ascii_of_nat 34) EmptyString
         else "Create file " +:+ String (ascii_of_nat 34) (basename file_name)
              +:+ String (ascii_of_nat 34) EmptyString) ;;;
      ret (1%Z, None)
  end.

(** [CodeMonkey.extract_iteration_data] *)
Definition extract_iteration_data (current_task : Task.t)
  (iterations : list Iteration.t) : option string * option string * string :=
  match last iterations with
  | Some latest_iteration =>
      (Iteration.user_feedback latest_iteration,
       Iteration.user_feedback_qa latest_iteration,
       Iteration.description latest_iteration)
  | None => (None, None, Task.instructions current_task)
  end.

Definition code_fence : string := "```".

(** [CodeMonkey.prepare_conversation].  A truthy [feedback] only arises from a
    [CODE_REVIEW_FEEDBACK] previous response, whose data the second part
    reads. *)
Definition prepare_conversation (self : Agent.t)
  (file_name file_content instructions : string)
  (user_feedback user_feedback_qa feedback : option string) : AgentConvo :=
  let convo :=
    [ConvoTemplate "implement_changes"
       [("file_name", ArgStr file_name);
        ("file_content", ArgStr file_content);
        ("instructions", ArgStr instructions);
        ("user_feedback", ArgOpt user_feedback);
        ("user_feedback_qa", ArgOpt user_feedback_qa)]] in
  match feedback, Agent.prev_response self with
  | Some rework_feedback, Some (CodeReviewFeedback new_content approved _ _) =>
      if str_truthy rework_feedback then
        (convo ++
         [ConvoAssistant
            (code_fence +:+ newline +:+ new_content +:+ newline +:+ code_fence
             +:+ newline);
          ConvoTemplate "review_feedback"
            [("content", ArgStr approved);
             ("original_content", ArgStr file_content);
             ("rework_feedback", ArgStr rework_feedback)]])%list
      else convo
  | _, _ => convo
  end.

(** [CodeMonkey.implement_changes] *)
Definition implement_changes (self : Agent.t) : M AgentResponse :=
  let file_name := Agent.step_save_file_path self in
  let* current_file := get_file_by_path file_name in
  let file_content :=
    match current_file with
    | Some f => File.content f
    | None => ""
    end in
  let* w := get_world in
  let task := ProjectState.current_task (current_state w) in
  let* (attempt, feedback) :=
    handle_previous_response self file_name file_content in
  let iterations := ProjectState.iterations (current_state w) in
  let '(user_feedback, user_feedback_qa, instructions) :=
    extract_iteration_data task iterations in
  let convo :=
    prepare_conversation self file_name file_content instructions
      user_feedback user_feedback_qa feedback in
  let* response := llm_call_code None convo in
  ret (CodeReview file_name (Task.instructions task) file_content response
         attempt).

(** The dictionary comprehension at the head of [describe_files]: path to
    content of every file of the committed snapshot whose description is
    missing or falsy.  A later file with the same path overwrites an earlier
    one. *)
Definition lacks_description (f : File.t) : bool :=
  negb (meta_truthy (File.meta f !! "description")).

Definition to_describe (files : list File.t) : gmap string string :=
  foldl (λ d f, if lacks_description f
                then <[File.path f := File.content f]> d else d)
        ∅ files.

(** [file.meta = new_meta] for the file at position [i] of
    [next_state.files]. *)
Definition set_next_file_meta (i : nat) (new_meta : gmap string MetaValue)
  : M unit :=
  λ w, (Return tt,
        with_next_state
          (ProjectState.set_files
             (alter (File.set_meta new_meta) i
                (ProjectState.files (next_state w)))
             (next_state w)) w).

(** [{**file.meta, "description": d, "references": r}] *)
Definition described_meta (m : gmap string MetaValue) (d : string)
  (r : list string) : gmap string MetaValue :=
  <["references" := MList r]> (<["description" := MStr d]> m).

Definition describe_file_convo (path content : string) : AgentConvo :=
  [ConvoTemplate "describe_file"
     [("path", ArgStr path); ("content", ArgStr content)];
   ConvoRequireSchema "FileDescription"].

(** One turn of the [for file in self.next_state.files] loop, for the file at
    position [i]. *)
Definition describe_one (described : gmap string string) (i : nat)
  (file : File.t) : M unit :=
  match described !! File.path file with
  | None => ret tt
  | Some content =>
      if bool_decide (content = "") then
        set_next_file_meta i (described_meta (File.meta file) "Empty file" [])
      else
        send_message ("Describing file " +:+ File.path file +:+ " ...") ;;;
        let* llm_response :=
          llm_call_file_description (Some (DESCRIBE_FILES_AGENT_NAME env))
            (describe_file_convo (File.path file) content) in
        set_next_file_meta i
          (described_meta (File.meta file)
             (FileDescription.summary llm_response)
             (FileDescription.references llm_response))
  end.

Fixpoint describe_loop (described : gmap string string) (i : nat)
  (files : list File.t) : M unit :=
  match files with
  | [] => ret tt
  | file :: rest =>
      describe_one described i file ;;;
      describe_loop described (S i) rest
  end.

(** [CodeMonkey.describe_files] *)
Definition describe_files (self : Agent.t) : M AgentResponse :=
  let* w := get_world in
  let described := to_describe (ProjectState.files (current_state w)) in
  describe_loop described 0 (ProjectState.files (next_state w)) ;;;
  ret Done.

(** [CodeMonkey.run] *)
Definition code_monkey_run (self : Agent.t) : M AgentResponse :=
  match Agent.prev_response self with
  | Some DescribeFiles => describe_files self
  | _ => implement_changes self
  end.

(** ** [core/agents/architect.py] *)

Definition ARCHITECTURE_STEP_NAME : string := "Project architecture".
Definition WARN_SYSTEM_DEPS : list string :=
  ["docker"; "kubernetes"; "microservices"].
Definition WARN_FRAMEWORKS : list string :=
  ["next.js"; "vue"; "vue.js"; "svelte"; "angular"].
Definition WARN_FRAMEWORKS_URL : string :=
  "https://github.com/Pythagora-io/gpt-pilot/wiki/Using-GPT-Pilot-with-frontend-frameworks".

Definition continue_question (message : string) : Question.t :=
  {| Question.question := message;
     Question.buttons := [("continue", "Continue")];
     Question.buttons_only := true;
     Question.default := Some "continue";
     Question.allow_empty := false |}.

(** The text [warn_about_dependencies] builds. *)
Definition warning_message (deps : list string) (url : option string)
  : string :=
  let message :=
    "Warning: GPT Pilot doesn't officially support " +:+ join ", " deps
    +:+ ". " in
  let message :=
    message +:+ "You can try to use "
    +:+ (if Nat.eqb (length deps) 1 then "it" else "them")
    +:+ ", but you may run into problems." in
  match url with
  | Some u =>
      if str_truthy u
      then message +:+ " Visit " +:+ u +:+ " for more information."
      else message
  | None => message
  end.

(** [Architect.warn_about_dependencies] *)
Definition warn_about_dependencies (deps : list string) (dep_type : string)
  (url : option string) : M unit :=
  ask_question (continue_question (warning_message deps url)) ;;;
  ret tt.

(** [name.lower()] *)
Definition str_lower (name : string) : string :=
  if is_ascii name then lower name else unicode_lower env name.

(** [[dep.name for dep in deps if dep.name.lower() in denylist]]: a
    dependency whose name is [None] stops the comprehension with an
    [AttributeError]. *)
Fixpoint names_to_warn {D} (name : D → option string)
  (denylist : list string) (deps : list D) : Outcome (list string) :=
  match deps with
  | [] => Return []
  | dep :: rest =>
      match name dep with
      | None =>
          Raise (AttributeError "'NoneType' object has no attribute 'lower'")
      | Some n =>
          match names_to_warn name denylist rest with
          | Return names =>
              Return (if bool_decide (str_lower n ∈ denylist)
                      then n :: names else names)
          | Raise e => Raise e
          end
      end
  end.

(** The two list comprehensions of [check_compatibility]; a list that is
    [None] cannot be iterated over. *)
Definition warn_system_deps (arch : Architecture.t)
  : Outcome (list string) :=
  match Architecture.system_dependencies arch with
  | None => Raise (TypeError "'NoneType' object is not iterable")
  | Some deps => names_to_warn SystemDependency.name WARN_SYSTEM_DEPS deps
  end.

Definition warn_package_deps (arch : Architecture.t)
  : Outcome (list string) :=
  match Architecture.package_dependencies arch with
  | None => Raise (TypeError "'NoneType' object is not iterable")
  | Some deps => names_to_warn PackageDependency.name WARN_FRAMEWORKS deps
  end.

(** [Architect.check_compatibility]: both lists are built before anything is
    shown. *)
Definition check_compatibility (arch : Architecture.t) : M bool :=
  let* system_names := lift_outcome (warn_system_deps arch) in
  let* package_names := lift_outcome (warn_package_deps arch) in
  (match system_names with
   | [] => ret tt
   | _ :: _ =>
       warn_about_dependencies system_names "system dependencies" None
   end) ;;;
  (match package_names with
   | [] => ret tt
   | _ :: _ =>
       warn_about_dependencies package_names "frameworks"
         (Some WARN_FRAMEWORKS_URL)
   end) ;;;
  ret true.

Definition technologies_convo : AgentConvo :=
  [ConvoTemplate "technologies" [("templates", ArgProjectTemplates)];
   ConvoRequireSchema "Architecture"].

(** [[d.model_dump() for d in deps]] *)
Definition dump_all {D E} (dump : D → E) (deps : option (list D))
  : M (list E) :=
  match deps with
  | None => raise (TypeError "'NoneType' object is not iterable")
  | Some l => ret (dump <$> l)
  end.

(** The specification after the four assignments that end
    [plan_architecture]. *)
Definition spec_of_architecture (spec : Specification.t)
  (arch : Architecture.t) (system_dependencies : list SysDep.t)
  (package_dependencies : list PkgDep.t) : Specification.t :=
  {| Specification.description := Specification.description spec;
     Specification.architecture := Architecture.architecture arch;
     Specification.system_dependencies := system_dependencies;
     Specification.package_dependencies := package_dependencies;
     Specification.template :=
       ProjectTemplateEnum.value <$> Architecture.template arch;
     Specification.example_project := Specification.example_project spec |}.

(** [Architect.plan_architecture]; the updated [spec] is returned. *)
Definition plan_architecture (spec : Specification.t) : M Specification.t :=
  send_message "Planning project architecture ..." ;;;
  let* arch := llm_call_architecture None technologies_convo in
  check_compatibility arch ;;;
  let* system_dependencies :=
    dump_all model_dump_system (Architecture.system_dependencies arch) in
  let* package_dependencies :=
    dump_all model_dump_package (Architecture.package_dependencies arch) in
  ret (spec_of_architecture spec arch system_dependencies
         package_dependencies).

(** The four assignments of [prepare_example_project]. *)
Definition spec_of_example (spec : Specification.t)
  (arch : ExampleArchitecture.t) : Specification.t :=
  {| Specification.description := Specification.description spec;
     Specification.architecture := ExampleArchitecture.architecture arch;
     Specification.system_dependencies :=
       ExampleArchitecture.system_dependencies arch;
     Specification.package_dependencies :=
       ExampleArchitecture.package_dependencies arch;
     Specification.template := ExampleArchitecture.template arch;
     Specification.example_project := Specification.example_project spec |}.

(** [Architect.prepare_example_project]; a key that is not in
    [EXAMPLE_PROJECTS] raises [KeyError]. *)
Definition prepare_example_project (spec : Specification.t)
  : M Specification.t :=
  match Specification.example_project spec with
  | None => raise (KeyError "None")
  | Some key =>
      match EXAMPLE_PROJECTS env !! key with
      | None => raise (KeyError key)
      | Some arch =>
          let spec' := spec_of_example spec arch in
          telemetry_set "template" (TelOptStr (Specification.template spec')) ;;;
          ret spec'
      end
  end.

(** The prompt shown when a dependency's test command fails. *)
Definition install_question (dep : SysDep.t) : Question.t :=
  continue_question
    ("Once you have installed " +:+ format_str (SysDep.name dep)
     +:+ ", please press Continue.").

(** The body of the loop of [check_system_dependencies] for one dependency;
    the dictionary with its ["installed"] entry written is returned. *)
Definition check_one_dependency (dep : SysDep.t) : M SysDep.t :=
  let* status_code := run_command (SysDep.test dep) in
  let dep' := SysDep.set_installed (Z.eqb status_code 0) dep in
  (if negb (Z.eqb status_code 0) then
     let remedy :=
       if opt_bool_truthy (SysDep.required_locally dep)
       then "Please install it before proceeding."
       else "If you would like to use it locally, please install it before proceeding." in
     send_message
       ("❌ " +:+ format_str (SysDep.name dep) +:+ " is not available. "
        +:+ remedy) ;;;
     ask_question (install_question dep) ;;;
     ret tt
   else
     send_message
       ("✅ " +:+ format_str (SysDep.name dep) +:+ " is available.")) ;;;
  ret dep'.

Fixpoint check_dependencies_loop (deps : list SysDep.t)
  : M (list SysDep.t) :=
  match deps with
  | [] => ret []
  | dep :: rest =>
      let* dep' := check_one_dependency dep in
      let* rest' := check_dependencies_loop rest in
      ret (dep' :: rest')
  end.

Definition with_system_dependencies (deps : list SysDep.t)
  (spec : Specification.t) : Specification.t :=
  {| Specification.description := Specification.description spec;
     Specification.architecture := Specification.architecture spec;
     Specification.system_dependencies := deps;
     Specification.package_dependencies :=
       Specification.package_dependencies spec;
     Specification.template := Specification.template spec;
     Specification.example_project := Specification.example_project spec |}.

(** [Architect.check_system_dependencies]; the updated [spec] is returned. *)
Definition check_system_dependencies (spec : Specification.t)
  : M Specification.t :=
  let* deps := check_dependencies_loop (Specification.system_dependencies spec) in
  telemetry_set "architecture"
    (TelArchitecture (Specification.architecture spec) deps
       (Specification.package_dependencies spec)) ;;;
  ret (with_system_dependencies deps spec).

(** The [if spec.example_project: ... else: ...] of [Architect.run]. *)
Definition obtain_architecture (spec : Specification.t) : M Specification.t :=
  if opt_str_truthy (Specification.example_project spec)
  then prepare_example_project spec
  else plan_architecture spec.

(** [Architect.run] *)
Definition architect_run (self : Agent.t) : M AgentResponse :=
  send_project_stage ARCHITECTURE ;;;
  let* w := get_world in
  let spec := ProjectState.specification (current_state w) in
  let* spec := obtain_architecture spec in
  let* spec := check_system_dependencies spec in
  set_next_specification spec ;;;
  telemetry_set "template" (TelOptStr (Specification.template spec)) ;;;
  set_next_action ARCHITECTURE_STEP_NAME ;;;
  ret Done.

End Program.

(** ** Reading the log *)

(** What a run added to the log. *)
Definition events_since (w w' : World) : list Event :=
  drop (length (trace w)) (trace w').

Definition is_rollback (e : Event) : bool :=
  match e with EvRollback => true | _ => false end.

Definition is_llm_call (e : Event) : bool :=
  match e with EvLLM _ _ _ => true | _ => false end.

Definition is_orchestrator_run (e : Event) : bool :=
  match e with EvOrchestratorRun => true | _ => false end.

Definition is_load_project (e : Event) : bool :=
  match e with EvLoadProject _ _ _ _ => true | _ => false end.

Definition is_create_project (e : Event) : bool :=
  match e with EvCreateProject _ _ => true | _ => false end.

(** How many times [rollback()] was called. *)
Definition count_rollbacks (evs : list Event) : nat :=
  length (List.filter is_rollback evs).

(** How many times the model was invoked. *)
Definition count_llm_calls (evs : list Event) : nat :=
  length (List.filter is_llm_call evs).

Definition count_orchestrator_runs (evs : list Event) : nat :=
  length (List.filter is_orchestrator_run evs).

(** The questions put to the operator, in order. *)
Definition questions_asked (evs : list Event) : list Question.t :=
  omap (λ e, match e with EvAskQuestion q _ => Some q | _ => None end) evs.

(** The commands started, each with its exit status or with what awaiting it
    raised, in order. *)
Definition commands_run (evs : list Event)
  : list (option string * Outcome Z) :=
  omap (λ e, match e with
             | EvRunCommand c s => Some (c, s)
             | _ => None
             end) evs.

(** The value of the string argument [key] of a template call. *)
Fixpoint template_arg (key : string) (args : list (string * TemplateArg))
  : option string :=
  match args with
  | [] => None
  | (k, v) :: rest =>
      if bool_decide (k = key)
      then match v with ArgStr s => Some s | _ => None end
      else template_arg key rest
  end.

(** The replies to the model calls that describe the file at [path]. *)
Definition describe_replies (path : string) (evs : list Event)
  : list (Outcome LLMResult) :=
  omap (λ e, match e with
             | EvLLM _ (ConvoTemplate name args :: _) reply =>
                 if bool_decide (name = "describe_file")
                    && bool_decide (template_arg "path" args = Some path)
                 then Some reply else None
             | _ => None
             end) evs.

(** The attempt counter a response carries, if its tag has one. *)
Definition attempt_of (r : AgentResponse) : option Z :=
  match r with
  | CodeReview _ _ _ _ a => Some a
  | CodeReviewFeedback _ _ _ a => Some a
  | _ => None
  end.

Definition is_code_review_feedback (r : option AgentResponse) : bool :=
  match r with
  | Some (CodeReviewFeedback _ _ _ _) => true
  | _ => false
  end.

(** Whether some of the three resumption arguments was given on the command
    line. *)
Definition args_supplied (args : Args.t) : bool :=
  bool_decide (is_Some (Args.project args))
  || bool_decide (is_Some (Args.branch args))
  || bool_decide (is_Some (Args.step args)).

(** Whether a run loaded an existing project, and whether it asked for the
    name of a new one. *)
Definition project_loaded (evs : list Event) : bool :=
  existsb is_load_project evs.

Definition new_project_started (evs : list Event) : bool :=
  bool_decide (project_name_question ∈ questions_asked evs).

(** The world in which [run_project] calls the orchestrator: two telemetry
    values have been set and the call is logged. *)
Definition orchestrator_entry (w : World) : World :=
  log_event EvOrchestratorRun
    (log_event
       (EvTelemetrySet "initial_prompt"
          (TelStr (Specification.description
                     (ProjectState.specification (current_state w)))))
       (log_event (EvTelemetrySet "app_id" (TelStr (project_id w))) w)).

(** The rework loop as the orchestrator drives it for one file: the agent is
    invoked, and for every round of review feedback it is invoked again with a
    [CODE_REVIEW_FEEDBACK] response as its previous response.  Modelled from
    the spec: that response carries the proposal under review and its attempt
    counter (section 3); the reviewer's notes are the [rounds].  The result is
    the list of attempt counters of the successive proposals. *)
Fixpoint rework_loop (env : Env) (self : Agent.t)
  (rounds : list (string * string)) : M (list Z) :=
  let* response := implement_changes env self in
  match response with
  | CodeReview _ _ _ new_content attempt =>
      match rounds with
      | [] => ret [attempt]
      | (approved_content, feedback) :: rest =>
          let* later :=
            rework_loop env
              {| Agent.prev_response :=
                   Some (CodeReviewFeedback new_content approved_content
                           feedback attempt);
                 Agent.step_save_file_path := Agent.step_save_file_path self |}
              rest in
          ret (attempt :: later)
      end
  | _ => ret []
  end.

(** The counters 1, 2, ..., n from [first] on. *)
Definition counters_from (first : Z) (n : nat) : list Z :=
  (λ k, (first + Z.of_nat k)%Z) <$> seq 0 n.

(** [self.next_state.files] *)
Definition next_files (w : World) : list File.t :=
  ProjectState.files (next_state w).

Definition current_files (w : World) : list File.t :=
  ProjectState.files (current_state w).

Definition describing_message (f : File.t) : Event :=
  EvSendMessage ("Describing file " +:+ File.path f +:+ " ...").

(** What a completed pass of the description loop over [files] leaves: the
    files as they are afterwards, and the events logged, file by file. *)
Inductive described (agent_name : string) (todo : gmap string string)
  : list File.t → list File.t → list Event → Prop :=
| described_nil : described agent_name todo [] [] []
| described_skip f fs fs' evs :
    todo !! File.path f = None →
    described agent_name todo fs fs' evs →
    described agent_name todo (f :: fs) (f :: fs') evs
| described_empty f fs fs' evs :
    todo !! File.path f = Some "" →
    described agent_name todo fs fs' evs →
    described agent_name todo (f :: fs)
      (File.set_meta (described_meta (File.meta f) "Empty file" []) f :: fs')
      evs
| described_llm f fs fs' evs content fd :
    todo !! File.path f = Some content →
    content ≠ "" →
    described agent_name todo fs fs' evs →
    described agent_name todo (f :: fs)
      (File.set_meta
         (described_meta (File.meta f) (FileDescription.summary fd)
            (FileDescription.references fd)) f :: fs')
      (describing_message f
       :: EvLLM (Some agent_name)
            (describe_file_convo (File.path f) content)
            (Return (Described fd))
       :: evs).

(** A file for which the model has to be asked: no description yet, and
    something to describe. *)
Definition needs_model (f : File.t) : bool :=
  lacks_description f && str_truthy (File.content f).

(** The operator lets the step run: every prompt is answered (the button is
    pressed) rather than the interface closed, and no test command is
    interrupted while its exit status is awaited. *)
Definition acknowledges (env : Env) : Prop :=
  (∀ (history : list Event) (q : Question.t),
     ∃ answer, ui_ask_question env history q = Return answer)
  ∧ (∀ (history : list Event) (command : option string),
       ∃ status, process_run_command env history command = Return status).

(** The dependencies with the outcome of their test commands recorded. *)
Definition record_installed (deps : list SysDep.t) (statuses : list Z)
  : list SysDep.t :=
  zip_with (λ dep status, SysDep.set_installed (Z.eqb status 0) dep)
    deps statuses.

(** The install prompts for the dependencies whose test command failed. *)
Definition install_prompts (deps : list SysDep.t) (statuses : list Z)
  : list Question.t :=
  omap (λ '(dep, status),
          if Z.eqb status 0 then None else Some (install_question dep))
    (zip deps statuses).

(** A prompt that only asks for an acknowledgement: its one button is
    [Continue], which is also the default. *)
Definition acknowledgement_prompt (text : string) : Question.t :=
  {| Question.question := text;
     Question.buttons := [("continue", "Continue")];
     Question.buttons_only := true;
     Question.default := Some "continue";
     Question.allow_empty := false |}.

(** The prompt after a failed test command of the dependency called
    [name]. *)
Definition install_prompt (name : option string) : Question.t :=
  acknowledgement_prompt
    ("Once you have installed "
     +:+ match name with Some n => n | None => "None" end
     +:+ ", please press Continue.").

(** The install prompts a run over [deps] shows when the test commands exit
    with [statuses]: one for each status other than 0. *)
Fixpoint expected_install_prompts (deps : list SysDep.t) (statuses : list Z)
  : list Question.t :=
  match deps, statuses with
  | dep :: deps', status :: statuses' =>
      if bool_decide (status = 0%Z)
      then expected_install_prompts deps' statuses'
      else install_prompt (SysDep.name dep)
           :: expected_install_prompts deps' statuses'
  | _, _ => []
  end.

(** Whether [name] is [entry] up to the capitalisation of its letters: the
    two have the same length, and each character of [name] is the character
    of [entry] at its place or, where that is one of [a]..[z], its capital. *)
Definition capital_of (c d : ascii) : bool :=
  let n := nat_of_ascii d in
  (97 <=? n)%nat && (n <=? 122)%nat && (nat_of_ascii c =? n - 32)%nat.

Fixpoint capitalisation_of (name entry : string) : bool :=
  match name, entry with
  | EmptyString, EmptyString => true
  | String c name', String d entry' =>
      (Ascii.eqb c d || capital_of c d) && capitalisation_of name' entry'
  | _, _ => false
  end.

(** Whether a string has none of the letters [A]..[Z]. *)
Definition has_no_capital (s : string) : bool :=
  forallb (λ d, (nat_of_ascii d <? 65)%nat || (90 <? nat_of_ascii d)%nat)
    (list_ascii_of_string s).

(** Whether a dependency called [name] is on a denylist of lower-case
    entries.  A name of ASCII characters is on it when it is an entry up to
    capitalisation; a name with other characters, when what the interpreter's
    Unicode tables lower-case it to is an entry. *)
Definition denylisted (env : Env) (denylist : list string) (name : string)
  : bool :=
  if is_ascii name then existsb (capitalisation_of name) denylist
  else bool_decide (unicode_lower env name ∈ denylist).

(** The names a list of dependencies declares, when the reply carries the
    list and every dependency in it has its name. *)
Definition declared_names {D} (name : D → option string)
  (deps : option (list D)) : option (list string) :=
  deps ≫= mapM name.

(** What a reply without a list, or with a dependency without a name, makes
    the code raise. *)
Definition incomplete_reply (e : exn) : Prop :=
  ∃ message, e = TypeError message ∨ e = AttributeError message.

(** Whether a text names a dependency: the name occurs in it. *)
Definition mentions (text name : string) : Prop :=
  ∃ before after, text = before +:+ name +:+ after.

(** The advisory about the dependencies called [names]. *)
Definition advisory (names : list string) (link : string) : Question.t :=
  acknowledgement_prompt
    ("Warning: GPT Pilot doesn't officially support " +:+ join ", " names
     +:+ ". You can try to use "
     +:+ match names with [_] => "it" | _ => "them" end
     +:+ ", but you may run into problems." +:+ link).

(** The advisories for an architecture that declares system dependencies
    called [system_names] and package dependencies called [package_names]:
    one for the unsupported system tools, if any, then one for the
    unsupported frameworks, if any. *)
Definition unsupported_system (env : Env) (system_names : list string)
  : list string :=
  List.filter (denylisted env ["docker"; "kubernetes"; "microservices"])
    system_names.

Definition unsupported_frameworks (env : Env) (package_names : list string)
  : list string :=
  List.filter
    (denylisted env ["next.js"; "vue"; "vue.js"; "svelte"; "angular"])
    package_names.

Definition advisories (env : Env) (system_names package_names : list string)
  : list Question.t :=
  (match unsupported_system env system_names with
   | [] => []
   | names => [advisory names ""]
   end
   ++
   match unsupported_frameworks env package_names with
   | [] => []
   | names =>
       [advisory names
          " Visit https://github.com/Pythagora-io/gpt-pilot/wiki/Using-GPT-Pilot-with-frontend-frameworks for more information."]
   end)%list.

(** The specification [Architect.run] starts from, the world in which the
    architecture is obtained, and the log as the model sees it when it is
    asked for one. *)
Definition initial_specification (w : World) : Specification.t :=
  ProjectState.specification (current_state w).

Definition architecture_stage (w : World) : World :=
  log_event (EvSendProjectStage ARCHITECTURE) w.

Definition planning_history (w : World) : list Event :=
  trace (log_event (EvSendMessage "Planning project architecture ...")
           (architecture_stage w)).

(** A computation that only adds to the log, and never a model call. *)
Definition model_free {A} (c : M A) : Prop :=
  ∀ w : World,
    ∃ evs, trace (snd (c w)) = (trace w ++ evs)%list
           ∧ count_llm_calls evs = 0.

(** The events [llm_api_check] may log. *)
Definition is_probe_event (e : Event) : bool :=
  match e with
  | EvApiCheck _ _ | EvSendMessage _ | EvTelemetrySet _ _ => true
  | _ => false
  end.

(** What looking up the checkpoint the arguments name gives: whether the
    stored snapshot is there, or the failure of the store. *)
Definition checkpoint_exists (env : Env) (args : Args.t) : Outcome bool :=
  match stored_project env (Args.project args) (Args.branch args)
          (Args.step args) with
  | Return (Some _) => Return true
  | Return None => Return false
  | Raise e => Raise e
  end.

(** The one case in which a supplied argument does not count: a step of 0
    given without a project id and without a branch. *)
Definition step_zero_alone (args : Args.t) : bool :=
  bool_decide (Args.project args = None)
  && bool_decide (Args.branch args = None)
  && bool_decide (Args.step args = Some 0%Z).

(** ** Further readings of the log *)

(** The API probes made, each with its reply, in order. *)
Definition probe_replies (evs : list Event) : list (string * Outcome bool) :=
  omap (λ e, match e with
             | EvApiCheck provider reply => Some (provider, reply)
             | _ => None
             end) evs.

(** Whether a probe was answered with a truthy value. *)
Definition probe_passed (r : string * Outcome bool) : bool :=
  match snd r with
  | Return true => true
  | _ => false
  end.

(** The calls of [create_project], each with the name given and whether a
    project came back. *)
Definition projects_created (evs : list Event) : list (string * bool) :=
  omap (λ e, match e with
             | EvCreateProject name created => Some (name, created)
             | _ => None
             end) evs.

(** The conversations sent to the model, in order. *)
Definition llm_convos (evs : list Event) : list AgentConvo :=
  omap (λ e, match e with EvLLM _ convo _ => Some convo | _ => None end) evs.

(** The replies of the model, in order. *)
Definition llm_replies (evs : list Event) : list (Outcome LLMResult) :=
  omap (λ e, match e with EvLLM _ _ reply => Some reply | _ => None end) evs.

(** The paths of the files the model was asked to describe, in order. *)
Definition described_paths (evs : list Event) : list string :=
  omap (λ e, match e with
             | EvLLM _ (ConvoTemplate name args :: _) _ =>
                 if bool_decide (name = "describe_file")
                 then template_arg "path" args else None
             | _ => None
             end) evs.

(** Whether the entry of a file in the dictionary of [describe_files] sends
    it to the model. *)
Definition sent_to_model (todo : gmap string string) (f : File.t) : bool :=
  match todo !! File.path f with
  | Some content => str_truthy content
  | None => false
  end.

(** A computation that leaves both snapshots as they are, whatever its
    outcome. *)
Definition keeps_snapshots {A} (c : M A) : Prop :=
  ∀ w : World,
    current_state (snd (c w)) = current_state w
    ∧ next_state (snd (c w)) = next_state w.

(** The content [implement_changes] starts from: that of the committed file
    at the path of the step, or the empty string. *)
Definition committed_content (w : World) (file_name : string) : string :=
  match List.find (λ f, bool_decide (File.path f = file_name))
          (current_files w) with
  | Some f => File.content f
  | None => ""
  end.

(** The first item of every conversation [implement_changes] sends: the
    [implement_changes] template, filled from the committed snapshot -- the
    latest iteration when there is one, the task otherwise. *)
Definition implement_template (w : World) (file_name : string) : ConvoItem :=
  let latest := last (ProjectState.iterations (current_state w)) in
  ConvoTemplate "implement_changes"
    [("file_name", ArgStr file_name);
     ("file_content", ArgStr (committed_content w file_name));
     ("instructions",
      ArgStr (match latest with
              | Some it => Iteration.description it
              | None =>
                  Task.instructions
                    (ProjectState.current_task (current_state w))
              end));
     ("user_feedback", ArgOpt (latest ≫= Iteration.user_feedback));
     ("user_feedback_qa", ArgOpt (latest ≫= Iteration.user_feedback_qa))].

(** The two items a rework adds: the previous proposal as the assistant's
    turn, and the [review_feedback] template. *)
Definition review_items (w : World) (file_name new_content approved_content
  feedback : string) : list ConvoItem :=
  [ConvoAssistant
     (code_fence +:+ newline +:+ new_content +:+ newline +:+ code_fence
      +:+ newline);
   ConvoTemplate "review_feedback"
     [("content", ArgStr approved_content);
      ("original_content", ArgStr (committed_content w file_name));
      ("rework_feedback", ArgStr feedback)]].

(** ** The entry points of [core/cli/main.py] *)

(** The command-line arguments as [async_main] reads them: three flags, four
    values that are text or [None], and the three [run_pythagora_session]
    reads. *)
Module CliArgs.
Record t : Type := mk {
  list : bool;
  list_json : bool;
  show_config : bool;
  import_v0 : option string;
  delete : option string;
  email : option string;
  extension_version : option string;
  session : Args.t;
}.
End CliArgs.

(** The calls [async_main] makes outside the session. *)
Inductive CliAction : Type :=
| ListProjects
| ListProjectsJson
| ShowConfig
| ImportDatabase (path : option string)
| DeleteProject (project : option string)
| UiStart
| TelemetryStart
| TelemetrySend
| UiStop.

(** The collaborators of [async_main] and [run_pythagora], none of which is
    among the sources: every call may return or raise.  [init] gives whether
    there is a user interface, whether there is a database session, and the
    arguments. *)
Record CliEnv : Type := mkCliEnv {
  init : Outcome (bool * bool * CliArgs.t);
  list_projects : Outcome unit;
  list_projects_json : Outcome unit;
  show_config : Outcome unit;
  import_database : option string → Outcome unit;
  delete_project : option string → Outcome bool;
  ui_start : World → Outcome bool;
  telemetry_start : World → Outcome unit;
  telemetry_send : World → Outcome unit;
  ui_stop : World → Outcome unit;
}.

(** The state of the process: the calls made outside the session, each with
    the length of the session's log at the time of the call (which places it
    among the events of that log), and the world of the session. *)
Record CliWorld : Type := mkCliWorld {
  console : list (nat * CliAction);
  core : World;
}.

Definition CM (A : Type) : Type := CliWorld → Outcome A * CliWorld.

Definition cli_ret {A} (a : A) : CM A := λ cw, (Return a, cw).

Definition cli_bind {A B} (c : CM A) (k : A → CM B) : CM B :=
  λ cw, match c cw with
        | (Return a, cw') => k a cw'
        | (Raise e, cw') => (Raise e, cw')
        end.

Notation "'let+' x ':=' c 'in' k" := (cli_bind c (λ x, k))
  (at level 10, x pattern, c at level 99, k at level 200).
Notation "c ;;+ k" := (cli_bind c (λ _, k))
  (at level 100, right associativity).

(** A call outside the session: it is logged, and its outcome is the
    collaborator's. *)
Definition cli_call {A} (action : CliAction) (reply : World → Outcome A)
  : CM A :=
  λ cw, (reply (core cw),
         {| console :=
              console cw ++ [(length (trace (core cw)), action)];
            core := core cw |}).

(** A computation of the session, run on the session's world. *)
Definition in_session {A} (c : M A) : CM A :=
  λ cw, let (o, w') := c (core cw) in
        (o, {| console := console cw; core := w' |}).

Section CommandLine.

Variable cenv : CliEnv.
Variable env : Env.

(** [async_main(ui, db, args)] *)
Definition async_main (args : CliArgs.t) : CM bool :=
  if CliArgs.list args then
    cli_call ListProjects (λ _, list_projects cenv) ;;+
    cli_ret true
  else if CliArgs.list_json args then
    cli_call ListProjectsJson (λ _, list_projects_json cenv) ;;+
    cli_ret true
  else if CliArgs.show_config args then
    cli_call ShowConfig (λ _, show_config cenv) ;;+
    cli_ret true
  else if opt_str_truthy (CliArgs.import_v0 args) then
    cli_call (ImportDatabase (CliArgs.import_v0 args))
      (λ _, import_database cenv (CliArgs.import_v0 args)) ;;+
    cli_ret true
  else if opt_str_truthy (CliArgs.delete args) then
    let+ success :=
      cli_call (DeleteProject (CliArgs.delete args))
        (λ _, delete_project cenv (CliArgs.delete args)) in
    cli_ret success
  else
    in_session
      (telemetry_set "user_contact" (TelOptStr (CliArgs.email args))) ;;+
    (if opt_str_truthy (CliArgs.extension_version args) then
       in_session (telemetry_set "is_extension" (TelBool true)) ;;+
       in_session
         (telemetry_set "extension_version"
            (TelOptStr (CliArgs.extension_version args)))
     else cli_ret tt) ;;+
    let+ ui_started := cli_call UiStart (ui_start cenv) in
    if negb ui_started then cli_ret false
    else
      cli_call TelemetryStart (telemetry_start cenv) ;;+
      let+ success :=
        in_session (run_pythagora_session env (CliArgs.session args)) in
      cli_call TelemetrySend (telemetry_send cenv) ;;+
      cli_call UiStop (ui_stop cenv) ;;+
      cli_ret success.

(** [run_pythagora()]: the exit status of the process. *)
Definition run_pythagora : CM Z :=
  λ cw, match init cenv with
        | Raise e => (Raise e, cw)
        | Return (ui, db, args) =>
            if negb ui || negb db then (Return (-1)%Z, cw)
            else
              (let+ success := async_main args in
               cli_ret (if success : bool then 0%Z else (-1)%Z)) cw
        end.

End CommandLine.

(** Whether the arguments ask for one of the management actions. *)
Definition management_requested (args : CliArgs.t) : bool :=
  CliArgs.list args || CliArgs.list_json args || CliArgs.show_config args
  || opt_str_truthy (CliArgs.import_v0 args)
  || opt_str_truthy (CliArgs.delete args).

(** The calls made outside the session during a run, in order. *)
Definition actions_since (cw cw' : CliWorld) : list CliAction :=
  snd <$> drop (length (console cw)) (console cw').

(** ** Sample data *)

Definition sample_specification : Specification.t :=
  {| Specification.description := "A todo list";
     Specification.architecture := Some "";
     Specification.system_dependencies := [];
     Specification.package_dependencies := [];
     Specification.template := None;
     Specification.example_project := None |}.

Definition sample_state (files : list File.t) : ProjectState.t :=
  {| ProjectState.specification := sample_specification;
     ProjectState.files := files;
     ProjectState.current_task := {| Task.instructions := "Add the list view" |};
     ProjectState.iterations := [];
     ProjectState.action := "" |}.

Definition sample_world (files : list File.t) : World :=
  {| trace := []; project_id := "7f3c";
     current_state := sample_state files;
     next_state := sample_state files |}.

Definition continue_pressed : UserInput.t :=
  {| UserInput.button := Some "continue"; UserInput.text := "";
     UserInput.cancelled := false |}.

Definition sample_architecture : Architecture.t :=
  {| Architecture.architecture := Some "Flask app";
     Architecture.system_dependencies :=
       Some [ {| SystemDependency.name := Some "Docker";
            SystemDependency.description := Some "Containers";
            SystemDependency.test := Some "docker --version";
            SystemDependency.required_locally := Some true |};
         {| SystemDependency.name := Some "Python";
            SystemDependency.description := Some "Interpreter";
            SystemDependency.test := Some "python --version";
            SystemDependency.required_locally := Some true |} ];
     Architecture.package_dependencies :=
       Some [ {| PackageDependency.name := Some "Vue";
            PackageDependency.description := Some "Front end" |} ];
     Architecture.template := None |}.

(** What [model_dump()] makes of the dependencies of
    [sample_architecture]. *)
Definition planned_system_dependencies : list SysDep.t :=
  [ {| SysDep.name := Some "Docker";
       SysDep.description := Some "Containers";
       SysDep.test := Some "docker --version";
       SysDep.required_locally := Some true;
       SysDep.installed := None |};
    {| SysDep.name := Some "Python";
       SysDep.description := Some "Interpreter";
       SysDep.test := Some "python --version";
       SysDep.required_locally := Some true;
       SysDep.installed := None |} ].

Definition planned_package_dependencies : list PkgDep.t :=
  [ {| PkgDep.name := Some "Vue"; PkgDep.description := Some "Front end" |} ].

Definition sample_example_architecture : ExampleArchitecture.t :=
  {| ExampleArchitecture.architecture := Some "Node and Express";
     ExampleArchitecture.system_dependencies :=
       [ {| SysDep.name := Some "Docker";
            SysDep.description := Some "Containers";
            SysDep.test := Some "docker info";
            SysDep.required_locally := Some false;
            SysDep.installed := None |} ];
     ExampleArchitecture.package_dependencies :=
       [ {| PkgDep.name := Some "express";
            PkgDep.description := Some "Web server" |} ];
     ExampleArchitecture.template := Some "node_express_mongoose" |}.

(** [DOC], the Kelvin sign (U+212A, three bytes in UTF-8), [ER]: a name
    that [str.lower()] maps to [docker]. *)
Definition kelvin_docker : string :=
  "DOC" +:+ String (ascii_of_nat 226)
              (String (ascii_of_nat 132) (String (ascii_of_nat 170) "ER")).

(** An environment in which every collaborator answers, the API probe
    succeeds, and the orchestrator fails with [failure] at once. *)
Definition sample_env (failure : exn) : Env :=
  {| llm_code := λ _ _, Return "print(1)";
     llm_file_description := λ _ _,
       Return {| FileDescription.summary := "Entry point";
                 FileDescription.references := ["util.py"] |};
     llm_architecture := λ _ _, Return sample_architecture;
     ui_ask_question := λ _ _, Return continue_pressed;
     process_run_command := λ _ command,
       Return (if bool_decide (command = Some "docker --version")
               then 127%Z else 0%Z);
     llm_api_probe := λ _ _, Return true;
     config_all_llms := ["openai"];
     orchestrator_run := λ w, (Raise failure, w);
     stored_project := λ _ _ _, Return (Some (sample_state []));
     created_project := λ _, Some (sample_state []);
     crash_stack_trace := exn_str;
     DESCRIBE_FILES_AGENT_NAME := "CodeMonkey.describe_files";
     EXAMPLE_PROJECTS := {[ "example" := sample_example_architecture ]};
     unicode_lower := λ name,
       if bool_decide (name = kelvin_docker) then "docker" else name |}.

(** A project created from the example. *)
Definition example_world : World :=
  {| trace := []; project_id := "7f3c";
     current_state :=
       ProjectState.set_specification
         {| Specification.description := "The example";
            Specification.architecture := Some "";
            Specification.system_dependencies := [];
            Specification.package_dependencies := [];
            Specification.template := None;
            Specification.example_project := Some "example" |}
         (sample_state []);
     next_state := sample_state [] |}.

(** The same environment with an LLM API that answers the probe with
    [False]. *)
Definition api_down_env : Env :=
  {| llm_code := llm_code (sample_env UIClosedError);
     llm_file_description := llm_file_description (sample_env UIClosedError);
     llm_architecture := llm_architecture (sample_env UIClosedError);
     ui_ask_question := ui_ask_question (sample_env UIClosedError);
     process_run_command := process_run_command (sample_env UIClosedError);
     llm_api_probe := λ _ _, Return false;
     config_all_llms := ["openai"];
     orchestrator_run := orchestrator_run (sample_env UIClosedError);
     stored_project := stored_project (sample_env UIClosedError);
     created_project := created_project (sample_env UIClosedError);
     crash_stack_trace := exn_str;
     DESCRIBE_FILES_AGENT_NAME := "CodeMonkey.describe_files";
     EXAMPLE_PROJECTS := ∅;
     unicode_lower := unicode_lower (sample_env UIClosedError) |}.

Definition resume_args : Args.t :=
  {| Args.project := Some "0b5c7a52-3f0e-4c55-9a3e-2f1d6c0e8a11";
     Args.branch := None;
     Args.step := Some 3%Z |}.

Definition fresh_args : Args.t :=
  {| Args.project := None; Args.branch := None; Args.step := None |}.

Definition branch_step_zero_args : Args.t :=
  {| Args.project := None; Args.branch := Some "main";
     Args.step := Some 0%Z |}.

Definition first_draft_agent : Agent.t :=
  {| Agent.prev_response := None; Agent.step_save_file_path := "src/app.py" |}.

Definition two_review_rounds : list (string * string) :=
  [("", "Use a loop instead of recursion"); ("", "Rename the handler")].

Definition app_py : File.t :=
  {| File.path := "app.py"; File.content := "";
     File.meta := {[ "language" := MStr "python" ]} |}.

Definition util_py : File.t :=
  {| File.path := "util.py"; File.content := "def slug(s): return s.lower()";
     File.meta := ∅ |}.

Definition readme_md : File.t :=
  {| File.path := "README.md"; File.content := "# Todo";
     File.meta := {[ "description" := MStr "Project readme" ]} |}.

Definition describing_agent : Agent.t :=
  {| Agent.prev_response := Some DescribeFiles;
     Agent.step_save_file_path := "" |}.

Definition python_dependency : SystemDependency.t :=
  {| SystemDependency.name := Some "Python";
     SystemDependency.description := Some "Interpreter";
     SystemDependency.test := Some "python --version";
     SystemDependency.required_locally := Some true |}.

Definition kubernetes_dependency : SystemDependency.t :=
  {| SystemDependency.name := Some "KUBERNETES";
     SystemDependency.description := Some "Orchestration";
     SystemDependency.test := Some "kubectl version";
     SystemDependency.required_locally := Some false |}.


Definition flask_dependency : PackageDependency.t :=
  {| PackageDependency.name := Some "Flask";
     PackageDependency.description := Some "Web server" |}.





Definition succeeding_env : Env :=
  {| llm_code := llm_code (sample_env UIClosedError);
     llm_file_description := llm_file_description (sample_env UIClosedError);
     llm_architecture := llm_architecture (sample_env UIClosedError);
     ui_ask_question := ui_ask_question (sample_env UIClosedError);
     process_run_command := process_run_command (sample_env UIClosedError);
     llm_api_probe := llm_api_probe (sample_env UIClosedError);
     config_all_llms := ["openai"; "anthropic"; "openai"];
     orchestrator_run := λ w, (Return false, w);
     stored_project := stored_project (sample_env UIClosedError);
     created_project := created_project (sample_env UIClosedError);
     crash_stack_trace := exn_str;
     DESCRIBE_FILES_AGENT_NAME := "CodeMonkey.describe_files";
     EXAMPLE_PROJECTS := ∅;
     unicode_lower := unicode_lower (sample_env UIClosedError) |}.


Definition nested_draft_agent : Agent.t :=
  {| Agent.prev_response := Some Done;
     Agent.step_save_file_path := "src/views/list.py" |}.

(** An agent called again after the reviewer asked for changes. *)
Definition reworking_agent : Agent.t :=
  {| Agent.prev_response :=
       Some (CodeReviewFeedback "print(1)" "print(0)" "Use logging" 1);
     Agent.step_save_file_path := "util.py" |}.

Definition failing_model_env : Env :=
  {| llm_code := λ _ _, Raise (APIError "overloaded");
     llm_file_description := λ _ _, Raise (APIError "overloaded");
     llm_architecture := λ _ _, Raise (APIError "overloaded");
     ui_ask_question := ui_ask_question (sample_env UIClosedError);
     process_run_command := process_run_command (sample_env UIClosedError);
     llm_api_probe := llm_api_probe (sample_env UIClosedError);
     config_all_llms := ["openai"];
     orchestrator_run := orchestrator_run (sample_env UIClosedError);
     stored_project := stored_project (sample_env UIClosedError);
     created_project := created_project (sample_env UIClosedError);
     crash_stack_trace := exn_str;
     DESCRIBE_FILES_AGENT_NAME := "CodeMonkey.describe_files";
     EXAMPLE_PROJECTS := ∅;
     unicode_lower := unicode_lower (sample_env UIClosedError) |}.

Definition notes_txt : File.t :=
  {| File.path := "notes.txt"; File.content := "remember the tests";
     File.meta := ∅ |}.

Definition drifted_world : World :=
  {| trace := []; project_id := "7f3c";
     current_state := sample_state [readme_md];
     next_state := sample_state [readme_md; notes_txt] |}.

Definition terse_model_env : Env :=
  {| llm_code := llm_code (sample_env UIClosedError);
     llm_file_description := λ _ _,
       Return {| FileDescription.summary := "";
                 FileDescription.references := [] |};
     llm_architecture := llm_architecture (sample_env UIClosedError);
     ui_ask_question := ui_ask_question (sample_env UIClosedError);
     process_run_command := process_run_command (sample_env UIClosedError);
     llm_api_probe := llm_api_probe (sample_env UIClosedError);
     config_all_llms := ["openai"];
     orchestrator_run := orchestrator_run (sample_env UIClosedError);
     stored_project := stored_project (sample_env UIClosedError);
     created_project := created_project (sample_env UIClosedError);
     crash_stack_trace := exn_str;
     DESCRIBE_FILES_AGENT_NAME := "CodeMonkey.describe_files";
     EXAMPLE_PROJECTS := ∅;
     unicode_lower := unicode_lower (sample_env UIClosedError) |}.

Definition main_py : File.t :=
  {| File.path := "main.py"; File.content := "import util";
     File.meta := ∅ |}.

Definition docker_dependency : SystemDependency.t :=
  {| SystemDependency.name := Some "Docker";
     SystemDependency.description := Some "Containers";
     SystemDependency.test := Some "docker --version";
     SystemDependency.required_locally := Some true |}.

(** A specification whose second dependency is the one missing on the
    machine of [sample_env]. *)
Definition layered_specification : Specification.t :=
  {| Specification.description := "A todo list";
     Specification.architecture := Some "Cluster";
     Specification.system_dependencies :=
       model_dump_system
         <$> [python_dependency; docker_dependency; kubernetes_dependency];
     Specification.package_dependencies :=
       model_dump_package <$> [flask_dependency];
     Specification.template := None;
     Specification.example_project := None |}.

(** An operator who closes the interface at the first prompt. *)
Definition closing_operator_env : Env :=
  {| llm_code := llm_code (sample_env UIClosedError);
     llm_file_description := llm_file_description (sample_env UIClosedError);
     llm_architecture := llm_architecture (sample_env UIClosedError);
     ui_ask_question := λ _ _, Raise UIClosedError;
     process_run_command := process_run_command (sample_env UIClosedError);
     llm_api_probe := llm_api_probe (sample_env UIClosedError);
     config_all_llms := ["openai"];
     orchestrator_run := orchestrator_run (sample_env UIClosedError);
     stored_project := stored_project (sample_env UIClosedError);
     created_project := created_project (sample_env UIClosedError);
     crash_stack_trace := exn_str;
     DESCRIBE_FILES_AGENT_NAME := "CodeMonkey.describe_files";
     EXAMPLE_PROJECTS := ∅;
     unicode_lower := unicode_lower (sample_env UIClosedError) |}.

(** An API client that fails with an exception of its own. *)
Definition broken_client_env : Env :=
  {| llm_code := llm_code (sample_env UIClosedError);
     llm_file_description := llm_file_description (sample_env UIClosedError);
     llm_architecture := llm_architecture (sample_env UIClosedError);
     ui_ask_question := ui_ask_question (sample_env UIClosedError);
     process_run_command := process_run_command (sample_env UIClosedError);
     llm_api_probe := λ _ provider,
       if bool_decide (provider = "anthropic")
       then Raise (OtherException "ValueError('no key')")
       else Return true;
     config_all_llms := ["openai"; "anthropic"; "groq"];
     orchestrator_run := orchestrator_run (sample_env UIClosedError);
     stored_project := stored_project (sample_env UIClosedError);
     created_project := created_project (sample_env UIClosedError);
     crash_stack_trace := exn_str;
     DESCRIBE_FILES_AGENT_NAME := "CodeMonkey.describe_files";
     EXAMPLE_PROJECTS := ∅;
     unicode_lower := unicode_lower (sample_env UIClosedError) |}.

(** An orchestrator whose run is cancelled ([asyncio.CancelledError]). *)
Definition cancelled_run_env : Env :=
  {| llm_code := llm_code (sample_env UIClosedError);
     llm_file_description := llm_file_description (sample_env UIClosedError);
     llm_architecture := llm_architecture (sample_env UIClosedError);
     ui_ask_question := ui_ask_question (sample_env UIClosedError);
     process_run_command := process_run_command (sample_env UIClosedError);
     llm_api_probe := llm_api_probe (sample_env UIClosedError);
     config_all_llms := ["openai"];
     orchestrator_run := λ w,
       (Raise (OtherBaseException "CancelledError()"),
        log_event (EvSendMessage "Working ...") w);
     stored_project := stored_project (sample_env UIClosedError);
     created_project := created_project (sample_env UIClosedError);
     crash_stack_trace := exn_str;
     DESCRIBE_FILES_AGENT_NAME := "CodeMonkey.describe_files";
     EXAMPLE_PROJECTS := ∅;
     unicode_lower := unicode_lower (sample_env UIClosedError) |}.

(** An orchestrator that completes the project. *)
Definition completing_env : Env :=
  {| llm_code := llm_code (sample_env UIClosedError);
     llm_file_description := llm_file_description (sample_env UIClosedError);
     llm_architecture := llm_architecture (sample_env UIClosedError);
     ui_ask_question := ui_ask_question (sample_env UIClosedError);
     process_run_command := process_run_command (sample_env UIClosedError);
     llm_api_probe := llm_api_probe (sample_env UIClosedError);
     config_all_llms := ["openai"];
     orchestrator_run := λ w, (Return true, log_event (EvSendMessage "Done") w);
     stored_project := stored_project (sample_env UIClosedError);
     created_project := created_project (sample_env UIClosedError);
     crash_stack_trace := exn_str;
     DESCRIBE_FILES_AGENT_NAME := "CodeMonkey.describe_files";
     EXAMPLE_PROJECTS := ∅;
     unicode_lower := unicode_lower (sample_env UIClosedError) |}.

(** The world in which the user interface is started: the contact and, when
    the run comes from the extension, its version have been recorded. *)
Definition session_start (args : CliArgs.t) (w : World) : World :=
  let w1 :=
    log_event (EvTelemetrySet "user_contact" (TelOptStr (CliArgs.email args)))
      w in
  if opt_str_truthy (CliArgs.extension_version args) then
    log_event
      (EvTelemetrySet "extension_version"
         (TelOptStr (CliArgs.extension_version args)))
      (log_event (EvTelemetrySet "is_extension" (TelBool true)) w1)
  else w1.

(** The state after some calls outside the session. *)
Definition after_calls (calls : list (nat * CliAction)) (w : World)
  (cw : CliWorld) : CliWorld :=
  {| console := (console cw ++ calls)%list; core := w |}.

(** Arguments of a plain run, and a machine on which every collaborator of
    the entry points answers. *)
Definition plain_cli_args : CliArgs.t :=
  {| CliArgs.list := false; CliArgs.list_json := false;
     CliArgs.show_config := false; CliArgs.import_v0 := None;
     CliArgs.delete := None; CliArgs.email := Some "dev@example.com";
     CliArgs.extension_version := Some "0.2.1";
     CliArgs.session := resume_args |}.

Definition list_and_delete_args : CliArgs.t :=
  {| CliArgs.list := true; CliArgs.list_json := false;
     CliArgs.show_config := false; CliArgs.import_v0 := None;
     CliArgs.delete := Some "7f3c"; CliArgs.email := None;
     CliArgs.extension_version := None;
     CliArgs.session := fresh_args |}.

Definition sample_cli_env (args : CliArgs.t) : CliEnv :=
  {| init := Return (true, true, args);
     list_projects := Return tt;
     list_projects_json := Return tt;
     show_config := Return tt;
     import_database := λ _, Return tt;
     delete_project := λ _, Return false;
     ui_start := λ _, Return true;
     telemetry_start := λ _, Return tt;
     telemetry_send := λ _, Return tt;
     ui_stop := λ _, Return tt |}.

Definition sample_cli_world : CliWorld :=
  {| console := []; core := sample_world [] |}.

(** * Properties *)

Lemma events_since_app (w w' : World) (new : list Event) :
  trace w' = (trace w ++ new)%list → events_since w w' = new.
Proof.
  intros H. unfold events_since. rewrite H. by rewrite drop_app_length.
Qed.

Lemma trace_log_event (e : Event) (w : World) :
  trace (log_event e w) = (trace w ++ [e])%list.
Proof. reflexivity. Qed.

(** C1. When the orchestrator's [run()] raises -- a user interruption
    ([KeyboardInterrupt], [UIClosedError]), an LLM API error, or any other
    [Exception] -- [run_project] returns [False], has called [rollback()]
    exactly once since the failure, and leaves the committed snapshot the
    State Manager held at the failure in place, with the working snapshot
    reset to it. *)
Theorem run_project_failure_rolls_back_once (env : Env) (w w1 : World)
  (e : exn) :
  orchestrator_run env (orchestrator_entry w) = (Raise e, w1) →
  e = KeyboardInterrupt ∨ is_Exception e = true →
  ∃ w2,
    run_project env w = (Return false, w2)
    ∧ count_rollbacks (events_since w1 w2) = 1
    ∧ current_state w2 = current_state w1
    ∧ next_state w2 = current_state w1.
Proof.
  intros Hrun Hclass.
  unfold run_project, bind, try_except, orca_run, get_world, telemetry_set,
    emit, bind.
  fold (orchestrator_entry w). rewrite Hrun.
  destruct e; simpl;
    try (destruct Hclass; discriminate);
    unfold bind, telemetry_set, send_message, record_crash, rollback, emit,
      bind, ret; simpl;
    (eexists; split; [reflexivity | ]);
    (split; [ | split; reflexivity ]);
    (erewrite events_since_app;
     [ | simpl; rewrite <- ?app_assoc; reflexivity ]);
    reflexivity.
Qed.

Lemma run_project_failure_witness :
  ∃ w2,
    run_project (sample_env (APIError "rate limit")) (sample_world [])
      = (Return false, w2)
    ∧ count_rollbacks
        (events_since (orchestrator_entry (sample_world [])) w2) = 1
    ∧ current_state w2 = sample_state []
    ∧ next_state w2 = sample_state [].
Proof.
  apply (run_project_failure_rolls_back_once
           (sample_env (APIError "rate limit")) (sample_world [])
           (orchestrator_entry (sample_world [])) (APIError "rate limit")).
  - reflexivity.
  - right. reflexivity.
Defined.

(** [implement_changes] either returns a [CODE_REVIEW] response for the file of
    the step, or raises what the model call raised. *)
Lemma implement_changes_outcome (env : Env) (self : Agent.t) (w : World) :
  (∃ instructions old new a w',
      implement_changes env self w
        = (Return (CodeReview (Agent.step_save_file_path self) instructions
                     old new a), w')
      ∧ (∀ nc ac fb n,
           Agent.prev_response self = Some (CodeReviewFeedback nc ac fb n) →
           a = (n + 1)%Z)
      ∧ (is_code_review_feedback (Agent.prev_response self) = false →
         a = 1%Z))
  ∨ (∃ e w' agent_name convo,
        implement_changes env self w = (Raise e, w')
        ∧ last (trace w') = Some (EvLLM agent_name convo (Raise e))).
Proof.
  unfold implement_changes, bind, get_file_by_path, get_world.
  unfold handle_previous_response.
  destruct (extract_iteration_data _ _) as [[uf ufq] instr] eqn:Hx.
  destruct (Agent.prev_response self) as [[| |? ? ? ? ?|nc ac fb n|?]|] eqn:Hp;
    unfold bind, send_message, set_next_action, emit, ret; simpl;
    unfold llm_call_code; simpl;
    match goal with
    | |- context [llm_code env ?h ?c] =>
        destruct (llm_code env h c) as [s|e] eqn:Hl
    end; simpl;
    try (right; do 4 eexists; split; [reflexivity|];
         simpl; by rewrite last_snoc);
    left; do 5 eexists; (split; [reflexivity|]);
    split; try discriminate;
    try (intros; congruence); try done.
Qed.

Lemma counters_from_S (first : Z) (n : nat) :
  counters_from first (S n) = first :: counters_from (first + 1) n.
Proof.
  unfold counters_from. simpl. rewrite Z.add_0_r. f_equal.
  rewrite <- seq_shift, <- list_fmap_compose.
  apply list_fmap_ext. intros _ k _. simpl. lia.
Qed.

(** The counters a rework loop observes start at the counter of its first
    proposal and go up by one per round. *)
Lemma rework_loop_counters (env : Env) (rounds : list (string * string)) :
  ∀ (self : Agent.t) (w w' : World) (attempts : list Z) (first : Z),
    (∀ nc ac fb n,
       Agent.prev_response self = Some (CodeReviewFeedback nc ac fb n) →
       first = (n + 1)%Z) →
    (is_code_review_feedback (Agent.prev_response self) = false →
     first = 1%Z) →
    rework_loop env self rounds w = (Return attempts, w') →
    attempts = counters_from first (S (length rounds)).
Proof.
  induction rounds as [|[approved feedback] rest IH];
    intros self w w' attempts first Hfb Hnew Hrun.
  - simpl in Hrun. unfold bind in Hrun.
    destruct (implement_changes_outcome env self w)
      as [(i & old & new & a & w1 & Hi & Ha & Hb)
         |(e & w1 & an & c & Hi & _)]; rewrite Hi in Hrun; [|discriminate].
    injection Hrun as <- _.
    rewrite counters_from_S. f_equal.
    destruct (is_code_review_feedback (Agent.prev_response self)) eqn:Hp.
    + destruct (Agent.prev_response self) as [[| | |nc ac fb n|]|];
        try discriminate.
      rewrite (Ha _ _ _ _ eq_refl), (Hfb _ _ _ _ eq_refl). reflexivity.
    + rewrite (Hb eq_refl), (Hnew eq_refl). reflexivity.
  - simpl in Hrun. unfold bind at 1 in Hrun.
    destruct (implement_changes_outcome env self w)
      as [(i & old & new & a & w1 & Hi & Ha & Hb)
         |(e & w1 & an & c & Hi & _)]; rewrite Hi in Hrun; [|discriminate].
    unfold bind in Hrun.
    match type of Hrun with
    | context [rework_loop env ?s rest w1] =>
        destruct (rework_loop env s rest w1) as [[later|e] w2] eqn:Hl
    end; [|discriminate].
    injection Hrun as <- _.
    assert (a = first) as ->.
    { destruct (is_code_review_feedback (Agent.prev_response self)) eqn:Hp.
      - destruct (Agent.prev_response self) as [[| | |nc ac fb n|]|];
          try discriminate.
        rewrite (Ha _ _ _ _ eq_refl), (Hfb _ _ _ _ eq_refl). reflexivity.
      - rewrite (Hb eq_refl), (Hnew eq_refl). reflexivity. }
    rewrite counters_from_S. f_equal.
    eapply IH; [ | | exact Hl]; simpl.
    + intros nc ac fb n [= _ _ _ <-]. reflexivity.
    + discriminate.
Qed.

(** C2. Every response [implement_changes] returns is a [CODE_REVIEW] response
    whose attempt counter is the previous response's counter plus one when
    that response is [CODE_REVIEW_FEEDBACK], and 1 for any other or no
    previous response.  Hence a rework loop that starts a file (no feedback
    yet) and goes through any number of feedback rounds observes the counters
    1, 2, 3, ... in this order. *)
Theorem attempt_counter_increments_and_resets (env : Env) :
  (∀ (self : Agent.t) (w w' : World) (r : AgentResponse),
     implement_changes env self w = (Return r, w') →
     ∃ path instructions old new a,
       r = CodeReview path instructions old new a
       ∧ (∀ nc ac fb n,
            Agent.prev_response self = Some (CodeReviewFeedback nc ac fb n) →
            a = (n + 1)%Z)
       ∧ (is_code_review_feedback (Agent.prev_response self) = false →
          a = 1%Z))
  ∧ (∀ (self : Agent.t) (rounds : list (string * string)) (w w' : World)
       (attempts : list Z),
       is_code_review_feedback (Agent.prev_response self) = false →
       rework_loop env self rounds w = (Return attempts, w') →
       attempts = counters_from 1 (S (length rounds))).
Proof.
  split.
  - intros self w w' r Hrun.
    destruct (implement_changes_outcome env self w)
      as [(i & old & new & a & w1 & Hi & Ha & Hb)
         |(e & w1 & an & c & Hi & _)]; rewrite Hi in Hrun; [|discriminate].
    injection Hrun as <- _. eauto 10.
  - intros self rounds w w' attempts Hnew Hrun.
    eapply rework_loop_counters; [ | | exact Hrun].
    + intros nc ac fb n Hp. rewrite Hp in Hnew. discriminate.
    + reflexivity.
Qed.

Lemma attempt_counter_witness :
  fst (rework_loop (sample_env UIClosedError) first_draft_agent
         two_review_rounds (sample_world []))
    = Return [1; 2; 3]%Z
  ∧ ∃ path instructions old new,
      fst (implement_changes (sample_env UIClosedError) first_draft_agent
             (sample_world []))
        = Return (CodeReview path instructions old new 1).
Proof.
  pose proof (attempt_counter_increments_and_resets (sample_env UIClosedError))
    as [Hstep Hloop].
  split.
  - destruct (rework_loop (sample_env UIClosedError) first_draft_agent
                two_review_rounds (sample_world []))
      as [[attempts|e] w'] eqn:Hrun.
    + simpl. f_equal.
      exact (Hloop first_draft_agent two_review_rounds (sample_world []) w'
               attempts eq_refl Hrun).
    + vm_compute in Hrun. discriminate.
  - destruct (implement_changes (sample_env UIClosedError) first_draft_agent
                (sample_world [])) as [[r|e] w'] eqn:Hrun.
    + destruct (Hstep first_draft_agent (sample_world []) w' r Hrun)
        as (path & i & old & new & a & -> & _ & Ha).
      rewrite (Ha eq_refl). simpl. eauto.
    + vm_compute in Hrun. discriminate.
Defined.

(** ** The description loop *)

Lemma drop_cons_lookup {A} (l : list A) (i : nat) (x : A) (rest : list A) :
  drop i l = x :: rest → l !! i = Some x ∧ drop (S i) l = rest.
Proof.
  intros H. assert (l !! i = Some x) as Hi.
  { rewrite <- (Nat.add_0_r i), <- lookup_drop, H. reflexivity. }
  split; [exact Hi|].
  rewrite (drop_S _ _ _ Hi) in H. congruence.
Qed.

(** A pass of the loop that completes leaves the files before position [i]
    alone and rewrites the others as [described] says. *)
Lemma describe_loop_described (env : Env) (todo : gmap string string)
  (fs : list File.t) :
  ∀ (i : nat) (w w' : World),
    drop i (next_files w) = fs →
    describe_loop env todo i fs w = (Return tt, w') →
    ∃ fs' evs,
      next_files w' = (take i (next_files w) ++ fs')%list
      ∧ trace w' = (trace w ++ evs)%list
      ∧ current_state w' = current_state w
      ∧ described (DESCRIBE_FILES_AGENT_NAME env) todo fs fs' evs.
Proof.
  induction fs as [|f rest IH]; intros i w w' Hdrop Hrun.
  - simpl in Hrun. injection Hrun as <-. exists [], [].
    rewrite !app_nil_r. repeat split; [|constructor].
    rewrite <- (take_drop i (next_files w)) at 1.
    rewrite Hdrop, app_nil_r. reflexivity.
  - apply drop_cons_lookup in Hdrop as [Hi Hrest].
    simpl in Hrun. unfold bind at 1 in Hrun. unfold describe_one in Hrun.
    destruct (todo !! File.path f) as [content|] eqn:Htodo.
    + case_bool_decide as Hc.
      * (* empty content: the sentinel, no model call *)
        subst content. unfold set_next_file_meta in Hrun.
        apply IH in Hrun as (fs' & evs & Hfs & Htr & Hcur & Hd).
        2:{ unfold next_files in *. simpl. rewrite drop_alter_lt by lia.
            exact Hrest. }
        unfold next_files in *. simpl in *.
        eexists (_ :: fs'), evs. repeat split; [|done|done|].
        -- rewrite Hfs. rewrite (take_S_r _ _ (File.set_meta
              (described_meta (File.meta f) "Empty file" []) f)).
           ++ rewrite take_alter_ge by lia. by rewrite <- app_assoc.
           ++ by rewrite list_lookup_alter_eq, Hi.
        -- by apply described_empty.
      * (* the model is asked *)
        unfold bind at 1 in Hrun. unfold send_message, emit in Hrun.
        unfold bind at 1 in Hrun. unfold llm_call_file_description in Hrun.
        simpl in Hrun.
        match type of Hrun with
        | context [llm_file_description env ?h ?c] =>
            destruct (llm_file_description env h c) as [fd|e] eqn:Hl
        end; simpl in Hrun; [|discriminate].
        unfold set_next_file_meta in Hrun.
        apply IH in Hrun as (fs' & evs & Hfs & Htr & Hcur & Hd).
        2:{ unfold next_files in *. simpl. rewrite drop_alter_lt by lia.
            exact Hrest. }
        unfold next_files in *. simpl in *.
        eexists (_ :: fs'), (_ :: _ :: evs). repeat split; [| |done|].
        -- rewrite Hfs. rewrite (take_S_r _ _ (File.set_meta
              (described_meta (File.meta f) (FileDescription.summary fd)
                 (FileDescription.references fd)) f)).
           ++ rewrite take_alter_ge by lia. by rewrite <- app_assoc.
           ++ by rewrite list_lookup_alter_eq, Hi.
        -- rewrite Htr. rewrite <- !app_assoc. reflexivity.
        -- by apply described_llm.
    + (* not in the dictionary: skipped *)
      unfold ret in Hrun.
      apply IH in Hrun as (fs' & evs & Hfs & Htr & Hcur & Hd);
        [|exact Hrest].
      exists (f :: fs'), evs. repeat split; [|done|done|].
      * rewrite Hfs, (take_S_r _ _ f) by done. by rewrite <- app_assoc.
      * by apply described_skip.
Qed.

Lemma describe_replies_message (p : string) (f : File.t) (evs : list Event) :
  describe_replies p (describing_message f :: evs) = describe_replies p evs.
Proof. reflexivity. Qed.

Lemma describe_replies_llm (p p' content : string) (agent_name : option string)
  (reply : Outcome LLMResult) (evs : list Event) :
  describe_replies p
    (EvLLM agent_name (describe_file_convo p' content) reply :: evs)
  = if decide (p' = p) then reply :: describe_replies p evs
    else describe_replies p evs.
Proof.
  unfold describe_replies, describe_file_convo. cbn [omap list_omap].
  rewrite (bool_decide_eq_true_2 ("describe_file" = "describe_file"))
    by reflexivity.
  cbn [template_arg].
  rewrite (bool_decide_eq_true_2 ("path" = "path")) by reflexivity.
  cbn [andb].
  destruct (decide (p' = p)) as [->|Hne].
  - by rewrite bool_decide_eq_true_2.
  - rewrite bool_decide_eq_false_2; [done|congruence].
Qed.

(** Positions, paths and contents are kept; a file outside the dictionary is
    kept whole; a file whose entry is the empty string gets the sentinel. *)
Lemma described_lookup (agent_name : string) (todo : gmap string string)
  (fs fs' : list File.t) (evs : list Event) :
  described agent_name todo fs fs' evs →
  ∀ (j : nat) (f : File.t),
    fs !! j = Some f →
    ∃ f',
      fs' !! j = Some f'
      ∧ File.path f' = File.path f
      ∧ File.content f' = File.content f
      ∧ (todo !! File.path f = None → f' = f)
      ∧ (todo !! File.path f = Some "" →
         f' = File.set_meta
                (described_meta (File.meta f) "Empty file" []) f).
Proof.
  induction 1 as [|f0 fs fs' evs Ht _ IH|f0 fs fs' evs Ht _ IH
                 |f0 fs fs' evs c fd Ht Hc _ IH]; intros j f Hj.
  - discriminate.
  - destruct j as [|j]; [|by apply IH].
    injection Hj as <-. exists f0. repeat split; (done || congruence).
  - destruct j as [|j]; [|by apply IH].
    injection Hj as <-. eexists. repeat split; (done || congruence).
  - destruct j as [|j]; [|by apply IH].
    injection Hj as <-. eexists. repeat split; (done || congruence).
Qed.

(** No model call is logged for a path unless some file with this path has a
    non-empty entry in the dictionary. *)
Lemma described_no_reply (agent_name : string) (todo : gmap string string)
  (fs fs' : list File.t) (evs : list Event) (p : string) :
  described agent_name todo fs fs' evs →
  (∀ f, f ∈ fs → File.path f = p →
        todo !! p = None ∨ todo !! p = Some "") →
  describe_replies p evs = [].
Proof.
  induction 1 as [|f0 fs fs' evs Ht _ IH|f0 fs fs' evs Ht _ IH
                 |f0 fs fs' evs c fd Ht Hc _ IH]; intros Hq.
  - reflexivity.
  - apply IH. intros f Hf. apply Hq. by right.
  - apply IH. intros f Hf. apply Hq. by right.
  - rewrite describe_replies_message, describe_replies_llm.
    destruct (decide (File.path f0 = p)) as [Hp|Hp].
    + destruct (Hq f0 (list_elem_of_here _ _) Hp) as [Hn|Hn];
        rewrite <- Hp, Ht in Hn; congruence.
    + apply IH. intros f Hf. apply Hq. by right.
Qed.

(** With distinct paths, a file whose entry is not empty is described by
    exactly one model call, and the parsed reply is what its metadata
    receives. *)
Lemma described_llm_once (agent_name : string) (todo : gmap string string)
  (fs fs' : list File.t) (evs : list Event) :
  described agent_name todo fs fs' evs →
  NoDup (File.path <$> fs) →
  ∀ (j : nat) (f : File.t) (content : string),
    fs !! j = Some f →
    todo !! File.path f = Some content →
    content ≠ "" →
    ∃ fd,
      fs' !! j
      = Some (File.set_meta
                (described_meta (File.meta f) (FileDescription.summary fd)
                   (FileDescription.references fd)) f)
      ∧ describe_replies (File.path f) evs = [Return (Described fd)].
Proof.
  induction 1 as [|f0 fs fs' evs Ht Hd IH|f0 fs fs' evs Ht Hd IH
                 |f0 fs fs' evs c fd Ht Hc Hd IH];
    intros Hnd j f content Hj Hf Hne.
  - discriminate.
  - rewrite fmap_cons in Hnd. apply NoDup_cons in Hnd as [_ Hnd].
    destruct j as [|j]; [injection Hj as <-; congruence|].
    by eapply IH.
  - rewrite fmap_cons in Hnd. apply NoDup_cons in Hnd as [_ Hnd].
    destruct j as [|j]; [injection Hj as <-; congruence|].
    by eapply IH.
  - rewrite fmap_cons in Hnd. apply NoDup_cons in Hnd as [Hnotin Hnd].
    rewrite describe_replies_message, describe_replies_llm.
    destruct j as [|j].
    + injection Hj as <-. exists fd. split; [done|].
      rewrite decide_True by done. f_equal.
      eapply described_no_reply; [exact Hd|].
      intros g Hg Hp. exfalso. apply Hnotin.
      rewrite <- Hp. by apply list_elem_of_fmap_2.
    + simpl in Hj. rewrite decide_False.
      * by eapply IH.
      * intros Hp. apply Hnotin. rewrite Hp.
        apply list_elem_of_fmap_2. by eapply list_elem_of_lookup_2.
Qed.

Lemma to_describe_acc (fs : list File.t) :
  ∀ (d : gmap string string),
    (∀ p, p ∉ File.path <$> fs →
          foldl (λ d f, if lacks_description f
                        then <[File.path f := File.content f]> d else d)
            d fs !! p = d !! p)
    ∧ (NoDup (File.path <$> fs) →
       ∀ f, f ∈ fs →
            foldl (λ d f, if lacks_description f
                          then <[File.path f := File.content f]> d else d)
              d fs !! File.path f
            = if lacks_description f then Some (File.content f)
              else d !! File.path f).
Proof.
  induction fs as [|g rest IH]; intros d.
  - split; [done|]. intros _ f Hf. by apply elem_of_nil in Hf.
  - split.
    + intros p Hp. rewrite fmap_cons in Hp. apply not_elem_of_cons in Hp
        as [Hne Hp].
      simpl. rewrite (proj1 (IH _) p Hp).
      destruct (lacks_description g); [|done].
      by rewrite lookup_insert_ne.
    + intros Hnd f Hf. rewrite fmap_cons in Hnd.
      apply NoDup_cons in Hnd as [Hnotin Hnd]. simpl.
      apply elem_of_cons in Hf as [->|Hf].
      * rewrite (proj1 (IH _) _ Hnotin).
        destruct (lacks_description g); [|done].
        by rewrite lookup_insert_eq.
      * rewrite (proj2 (IH _) Hnd f Hf).
        destruct (lacks_description f); [done|].
        destruct (lacks_description g); [|done].
        rewrite lookup_insert_ne; [done|].
        intros Hp. apply Hnotin. rewrite Hp. by apply list_elem_of_fmap_2.
Qed.

(** With distinct paths, the dictionary holds exactly the files that lack a
    description, each with its own content. *)
Lemma to_describe_lookup (fs : list File.t) (f : File.t) :
  NoDup (File.path <$> fs) → f ∈ fs →
  to_describe fs !! File.path f
  = if lacks_description f then Some (File.content f) else None.
Proof.
  intros Hnd Hf. unfold to_describe.
  rewrite (proj2 (to_describe_acc fs ∅) Hnd f Hf).
  by destruct (lacks_description f).
Qed.

Lemma fmap_alter_set_meta {B} (proj : File.t → B) (m : gmap string MetaValue)
  (i : nat) (fs : list File.t) :
  (∀ f, proj (File.set_meta m f) = proj f) →
  proj <$> alter (File.set_meta m) i fs = proj <$> fs.
Proof.
  intros Hproj. rewrite (list_fmap_alter _ _ id).
  - by apply list_alter_id.
  - apply Forall_forall. intros f _. apply Hproj.
Qed.

(** Whatever happens in the loop -- it completes, or a model call raises --
    the committed snapshot, and the path and content of every file of the
    working snapshot, stay as they were; and the loop stops early only on an
    exception raised by a model call. *)
Lemma describe_loop_frame (env : Env) (todo : gmap string string)
  (fs : list File.t) :
  ∀ (i : nat) (w : World),
    current_state (snd (describe_loop env todo i fs w)) = current_state w
    ∧ File.path <$> next_files (snd (describe_loop env todo i fs w))
      = File.path <$> next_files w
    ∧ File.content <$> next_files (snd (describe_loop env todo i fs w))
      = File.content <$> next_files w
    ∧ (fst (describe_loop env todo i fs w) = Return tt
       ∨ ∃ e agent_name convo,
           fst (describe_loop env todo i fs w) = Raise e
           ∧ last (trace (snd (describe_loop env todo i fs w)))
             = Some (EvLLM agent_name convo (Raise e))).
Proof.
  induction fs as [|f rest IH]; intros i w.
  - simpl. repeat split. by left.
  - destruct (describe_loop env todo i (f :: rest) w) as [o w'] eqn:Hrun.
    cbn [fst snd]. cbn [describe_loop] in Hrun.
    unfold bind at 1 in Hrun. unfold describe_one in Hrun.
    destruct (todo !! File.path f) as [content|].
    + case_bool_decide.
      * unfold set_next_file_meta in Hrun.
        match type of Hrun with
        | describe_loop env todo (S i) rest ?w1 = _ =>
            destruct (IH (S i) w1) as (Hc & Hp & Hn & Ho)
        end.
        rewrite Hrun in Hc, Hp, Hn, Ho. cbn [fst snd] in *.
        rewrite Hc, Hp, Hn. unfold next_files. simpl.
        rewrite !fmap_alter_set_meta by done. done.
      * unfold bind at 1 in Hrun. unfold send_message, emit in Hrun.
        unfold bind at 1 in Hrun.
        unfold llm_call_file_description in Hrun. simpl in Hrun.
        match type of Hrun with
        | context [llm_file_description env ?h ?c] =>
            destruct (llm_file_description env h c) as [fd|e]
        end; simpl in Hrun.
        -- unfold set_next_file_meta in Hrun.
           match type of Hrun with
           | describe_loop env todo (S i) rest ?w1 = _ =>
               destruct (IH (S i) w1) as (Hc & Hp & Hn & Ho)
           end.
           rewrite Hrun in Hc, Hp, Hn, Ho. cbn [fst snd] in *.
           rewrite Hc, Hp, Hn. unfold next_files. simpl.
           rewrite !fmap_alter_set_meta by done. done.
        -- injection Hrun as <- <-. repeat split. right.
           do 3 eexists. split; [done|]. simpl. by rewrite last_snoc.
    + unfold ret in Hrun. specialize (IH (S i) w).
      rewrite Hrun in IH. exact IH.
Qed.

(** What [describe_files] does when it returns. *)
Lemma describe_files_returns (env : Env) (self : Agent.t) (w w' : World)
  (r : AgentResponse) :
  describe_files env self w = (Return r, w') →
  r = Done
  ∧ ∃ evs,
      trace w' = (trace w ++ evs)%list
      ∧ current_state w' = current_state w
      ∧ described (DESCRIBE_FILES_AGENT_NAME env)
          (to_describe (current_files w)) (next_files w) (next_files w') evs.
Proof.
  unfold describe_files, bind, get_world. intros Hrun.
  destruct (describe_loop env (to_describe (ProjectState.files
              (current_state w))) 0 (ProjectState.files (next_state w)) w)
    as [[[]|e] w1] eqn:Hloop; [|discriminate].
  injection Hrun as <- <-. split; [done|].
  apply describe_loop_described in Hloop
    as (fs' & evs & Hfs & Htr & Hcur & Hd); [|done].
  exists evs. simpl in Hfs. rewrite Hfs. done.
Qed.

(** Every file with an entry in the dictionary has had its metadata
    written. *)
Lemma described_written (agent_name : string) (todo : gmap string string)
  (fs fs' : list File.t) (evs : list Event) :
  described agent_name todo fs fs' evs →
  ∀ (i : nat) (f : File.t),
    fs !! i = Some f →
    is_Some (todo !! File.path f) →
    ∃ d refs,
      fs' !! i = Some (File.set_meta (described_meta (File.meta f) d refs) f).
Proof.
  induction 1 as [|f0 fs fs' evs Ht _ IH|f0 fs fs' evs Ht _ IH
                 |f0 fs fs' evs c fd Ht Hne _ IH];
    intros i f Hi [content Htodo].
  - discriminate.
  - destruct i as [|i]; [injection Hi as <-; congruence|].
    apply IH; [done|by eexists].
  - destruct i as [|i]; [injection Hi as <-; by do 2 eexists|].
    apply IH; [done|by eexists].
  - destruct i as [|i]; [injection Hi as <-; by do 2 eexists|].
    apply IH; [done|by eexists].
Qed.

(** C5. [describe_files] never changes the content (or the path) of a file of
    the working snapshot and never touches the committed snapshot, whether it
    completes or a model call raises; it answers once, with [done], after the
    loop over all files, and when it does every file that was pending has had
    its metadata written; the only way it does not answer is an exception
    raised by a model call. *)
Theorem describe_files_keeps_content (env : Env) (self : Agent.t) (w : World) :
  File.content <$> next_files (snd (describe_files env self w))
    = File.content <$> next_files w
  ∧ File.path <$> next_files (snd (describe_files env self w))
    = File.path <$> next_files w
  ∧ current_state (snd (describe_files env self w)) = current_state w
  ∧ ((fst (describe_files env self w) = Return Done
      ∧ ∀ i f,
          next_files w !! i = Some f →
          is_Some (to_describe (current_files w) !! File.path f) →
          ∃ d refs,
            next_files (snd (describe_files env self w)) !! i
            = Some (File.set_meta (described_meta (File.meta f) d refs) f))
     ∨ ∃ e agent_name convo,
         fst (describe_files env self w) = Raise e
         ∧ last (trace (snd (describe_files env self w)))
           = Some (EvLLM agent_name convo (Raise e))).
Proof.
  destruct (describe_files env self w) as [o w'] eqn:Hrun.
  pose proof (describe_loop_frame env (to_describe (current_files w)) 
                (next_files w) 0 w) as (Hc & Hp & Hn & Ho).
  unfold describe_files, bind, get_world in Hrun.
  fold (current_files w) in Hrun. fold (next_files w) in Hrun.
  destruct (describe_loop env (to_describe (current_files w)) 0
              (next_files w) w) as [[[]|e] w1] eqn:Hloop;
    injection Hrun as <- <-; simpl in *.
  - repeat split; try done. left. split; [done|].
    apply describe_loop_described in Hloop
      as (fs' & evs & Hfs & Htr & Hcur & Hd); [|done].
    simpl in Hfs. rewrite Hfs. intros i f Hi Htodo.
    by eapply described_written.
  - repeat split; try done. right.
    destruct Ho as [Ho|(e' & a & c & Ho & Hlast)]; [discriminate|].
    injection Ho as <-. eauto.
Qed.

(** C3. When [describe_files] returns, every file that lacks a description
    and whose content is the empty string has ["description"] set to
    ["Empty file"] and ["references"] to the empty list, every other metadata
    key (and its path and content) as before, and no model call was made for
    it.  The working snapshot is a fresh clone of the committed one and paths
    identify files, as the data model requires. *)
Theorem empty_file_gets_sentinel_without_model (env : Env) (self : Agent.t)
  (w w' : World) (r : AgentResponse) :
  describe_files env self w = (Return r, w') →
  next_files w = current_files w →
  NoDup (File.path <$> current_files w) →
  ∀ (i : nat) (f : File.t),
    next_files w !! i = Some f →
    lacks_description f = true →
    File.content f = "" →
    ∃ f',
      next_files w' !! i = Some f'
      ∧ File.path f' = File.path f
      ∧ File.content f' = File.content f
      ∧ File.meta f' !! "description" = Some (MStr "Empty file")
      ∧ File.meta f' !! "references" = Some (MList [])
      ∧ (∀ k, k ≠ "description" → k ≠ "references" →
              File.meta f' !! k = File.meta f !! k)
      ∧ describe_replies (File.path f) (events_since w w') = [].
Proof.
  intros Hrun Hclone Hnd i f Hi Hlacks Hempty.
  apply describe_files_returns in Hrun as (_ & evs & Htr & _ & Hd).
  assert (to_describe (current_files w) !! File.path f = Some "") as Htodo.
  { rewrite to_describe_lookup; [by rewrite Hlacks, Hempty|done|].
    rewrite <- Hclone. by eapply list_elem_of_lookup_2. }
  destruct (described_lookup _ _ _ _ _ Hd i f Hi)
    as (f' & Hi' & Hp & Hc & _ & Hsentinel).
  exists f'. rewrite (Hsentinel Htodo) in *. simpl.
  unfold described_meta. repeat split; try done.
  - rewrite lookup_insert_ne by done. by rewrite lookup_insert_eq.
  - by rewrite lookup_insert_eq.
  - intros k Hk1 Hk2. by rewrite !lookup_insert_ne.
  - rewrite (events_since_app _ _ _ Htr).
    eapply described_no_reply; [exact Hd|]. intros g _ _. by right.
Qed.

Lemma empty_file_witness :
  ∃ f',
    next_files
      (snd (describe_files (sample_env UIClosedError) describing_agent
              (sample_world [app_py]))) !! 0 = Some f'
    ∧ File.path f' = "app.py"
    ∧ File.content f' = ""
    ∧ File.meta f' !! "description" = Some (MStr "Empty file")
    ∧ File.meta f' !! "references" = Some (MList [])
    ∧ (∀ k, k ≠ "description" → k ≠ "references" →
            File.meta f' !! k = File.meta app_py !! k)
    ∧ describe_replies "app.py"
        (events_since (sample_world [app_py])
           (snd (describe_files (sample_env UIClosedError) describing_agent
                   (sample_world [app_py])))) = [].
Proof.
  destruct (describe_files (sample_env UIClosedError) describing_agent
              (sample_world [app_py])) as [[r|e] w'] eqn:Hrun.
  - apply (empty_file_gets_sentinel_without_model (sample_env UIClosedError)
             describing_agent (sample_world [app_py]) w' r Hrun eq_refl
             ltac:(simpl; apply NoDup_singleton) 0 app_py eq_refl eq_refl
             eq_refl).
  - vm_compute in Hrun. discriminate.
Defined.

Lemma str_truthy_nonempty (s : string) : s ≠ "" → str_truthy s = true.
Proof. by destruct s. Qed.

(** One model call per file whose entry in the dictionary is not empty. *)
Lemma described_count (agent_name : string) (todo : gmap string string)
  (fs fs' : list File.t) (evs : list Event) :
  described agent_name todo fs fs' evs →
  count_llm_calls evs
  = length (List.filter
              (λ f, match todo !! File.path f with
                    | Some content => str_truthy content
                    | None => false
                    end) fs).
Proof.
  unfold count_llm_calls.
  induction 1 as [|f0 fs fs' evs Ht _ IH|f0 fs fs' evs Ht _ IH
                 |f0 fs fs' evs c fd Ht Hne _ IH]; simpl.
  - reflexivity.
  - by rewrite Ht.
  - by rewrite Ht.
  - rewrite Ht, (str_truthy_nonempty _ Hne). simpl. by rewrite IH.
Qed.

(** C8. When [describe_files] returns, a file that lacks a description and is
    not empty has been described by exactly one model call, whose parsed
    summary and reference list are now its ["description"] and
    ["references"]; a file that already had a description is exactly as it
    was and no model call was made for it; and the model was called as many
    times as there are non-empty files lacking a description. *)
Theorem describe_files_calls_model_once_per_pending_file (env : Env)
  (self : Agent.t) (w w' : World) (r : AgentResponse) :
  describe_files env self w = (Return r, w') →
  next_files w = current_files w →
  NoDup (File.path <$> current_files w) →
  (∀ (i : nat) (f : File.t),
     next_files w !! i = Some f →
     lacks_description f = true →
     File.content f ≠ "" →
     ∃ fd f',
       describe_replies (File.path f) (events_since w w')
         = [Return (Described fd)]
       ∧ next_files w' !! i = Some f'
       ∧ File.path f' = File.path f
       ∧ File.content f' = File.content f
       ∧ File.meta f' !! "description"
         = Some (MStr (FileDescription.summary fd))
       ∧ File.meta f' !! "references"
         = Some (MList (FileDescription.references fd))
       ∧ (∀ k, k ≠ "description" → k ≠ "references" →
               File.meta f' !! k = File.meta f !! k))
  ∧ (∀ (i : nat) (f : File.t),
       next_files w !! i = Some f →
       lacks_description f = false →
       next_files w' !! i = Some f
       ∧ describe_replies (File.path f) (events_since w w') = [])
  ∧ count_llm_calls (events_since w w')
    = length (List.filter needs_model (next_files w)).
Proof.
  intros Hrun Hclone Hnd.
  apply describe_files_returns in Hrun as (_ & evs & Htr & _ & Hd).
  rewrite (events_since_app _ _ _ Htr).
  split; [|split]; [intros i f Hi Hlacks..|].
  3:{ rewrite (described_count _ _ _ _ _ Hd). f_equal.
      apply List.filter_ext_in. intros f Hf.
      rewrite to_describe_lookup; [|done|].
      - unfold needs_model. by destruct (lacks_description f).
      - rewrite <- Hclone. by apply list_elem_of_In. }
  - intros Hne.
    assert (to_describe (current_files w) !! File.path f
            = Some (File.content f)) as Htodo.
    { rewrite to_describe_lookup; [by rewrite Hlacks|done|].
      rewrite <- Hclone. by eapply list_elem_of_lookup_2. }
    destruct (described_llm_once _ _ _ _ _ Hd
                ltac:(by rewrite Hclone) i f _ Hi Htodo Hne)
      as (fd & Hi' & Hreplies).
    eexists fd, _. split; [exact Hreplies|]. split; [exact Hi'|].
    simpl. unfold described_meta. repeat split.
    + rewrite lookup_insert_ne by done. by rewrite lookup_insert_eq.
    + by rewrite lookup_insert_eq.
    + intros k Hk1 Hk2. by rewrite !lookup_insert_ne.
  - assert (to_describe (current_files w) !! File.path f = None) as Htodo.
    { rewrite to_describe_lookup; [by rewrite Hlacks|done|].
      rewrite <- Hclone. by eapply list_elem_of_lookup_2. }
    destruct (described_lookup _ _ _ _ _ Hd i f Hi)
      as (f' & Hi' & _ & _ & Hsame & _).
    rewrite (Hsame Htodo) in Hi'. split; [done|].
    eapply described_no_reply; [exact Hd|]. intros g _ _. by left.
Qed.

Lemma describe_files_witness :
  (∃ fd f',
     describe_replies "util.py"
       (events_since (sample_world [app_py; util_py; readme_md])
          (snd (describe_files (sample_env UIClosedError) describing_agent
                  (sample_world [app_py; util_py; readme_md]))))
       = [Return (Described fd)]
     ∧ next_files
         (snd (describe_files (sample_env UIClosedError) describing_agent
                 (sample_world [app_py; util_py; readme_md]))) !! 1
       = Some f'
     ∧ File.path f' = "util.py"
     ∧ File.content f' = File.content util_py
     ∧ File.meta f' !! "description"
       = Some (MStr (FileDescription.summary fd))
     ∧ File.meta f' !! "references"
       = Some (MList (FileDescription.references fd))
     ∧ (∀ k, k ≠ "description" → k ≠ "references" →
             File.meta f' !! k = File.meta util_py !! k))
  ∧ next_files
      (snd (describe_files (sample_env UIClosedError) describing_agent
              (sample_world [app_py; util_py; readme_md]))) !! 2
    = Some readme_md
  ∧ count_llm_calls
      (events_since (sample_world [app_py; util_py; readme_md])
         (snd (describe_files (sample_env UIClosedError) describing_agent
                 (sample_world [app_py; util_py; readme_md])))) = 1.
Proof.
  destruct (describe_files (sample_env UIClosedError) describing_agent
              (sample_world [app_py; util_py; readme_md]))
    as [[r|e] w'] eqn:Hrun.
  - destruct (describe_files_calls_model_once_per_pending_file
                (sample_env UIClosedError) describing_agent
                (sample_world [app_py; util_py; readme_md]) w' r Hrun eq_refl)
      as (Hpending & Hkept & Hcount).
    + apply (bool_decide_unpack _). vm_compute. exact I.
    + split; [|split].
      * apply (Hpending 1 util_py eq_refl eq_refl). discriminate.
      * apply (Hkept 2 readme_md eq_refl eq_refl).
      * exact Hcount.
  - vm_compute in Hrun. discriminate.
Defined.

(** ** The architect *)

Lemma count_llm_calls_app (evs1 evs2 : list Event) :
  count_llm_calls (evs1 ++ evs2)
  = count_llm_calls evs1 + count_llm_calls evs2.
Proof.
  unfold count_llm_calls. by rewrite List.filter_app, length_app.
Qed.

Lemma model_free_ret {A} (a : A) : model_free (ret a).
Proof. intros w. exists []. by rewrite app_nil_r. Qed.

Lemma model_free_raise {A} (e : exn) : model_free (@raise A e).
Proof. intros w. exists []. by rewrite app_nil_r. Qed.

Lemma model_free_bind {A B} (c : M A) (k : A → M B) :
  model_free c → (∀ a, model_free (k a)) → model_free (bind c k).
Proof.
  intros Hc Hk w. unfold bind.
  destruct (Hc w) as (evs1 & Ht1 & Hn1).
  destruct (c w) as [[a|e] w1]; simpl in *.
  - destruct (Hk a w1) as (evs2 & Ht2 & Hn2).
    exists (evs1 ++ evs2)%list. rewrite Ht2, Ht1, app_assoc.
    split; [done|]. rewrite count_llm_calls_app. lia.
  - by exists evs1.
Qed.

Lemma model_free_emit (e : Event) : is_llm_call e = false → model_free (emit e).
Proof.
  intros He w. exists [e]. split; [done|].
  unfold count_llm_calls. simpl. by rewrite He.
Qed.

Lemma model_free_ask_question (env : Env) (q : Question.t) :
  model_free (ask_question env q).
Proof.
  intros w. exists [EvAskQuestion q (ui_ask_question env (trace w) q)].
  unfold ask_question. by destruct (ui_ask_question env (trace w) q).
Qed.

Lemma model_free_run_command (env : Env) (command : option string) :
  model_free (run_command env command).
Proof.
  intros w.
  exists [EvRunCommand command (process_run_command env (trace w) command)].
  unfold run_command. by destruct (process_run_command env (trace w) command).
Qed.

Lemma model_free_lift_outcome {A} (o : Outcome A) :
  model_free (lift_outcome o).
Proof. destruct o; [apply model_free_ret|apply model_free_raise]. Qed.

Lemma model_free_check_dependencies_loop (env : Env) (deps : list SysDep.t) :
  model_free (check_dependencies_loop env deps).
Proof.
  induction deps as [|dep rest IH]; simpl.
  - apply model_free_ret.
  - apply model_free_bind.
    + unfold check_one_dependency.
      apply model_free_bind; [apply model_free_run_command|]. intros status.
      apply model_free_bind; [|intros; apply model_free_ret].
      destruct (negb _).
      * apply model_free_bind; [by apply model_free_emit|]. intros _.
        apply model_free_bind; [apply model_free_ask_question|].
        intros; apply model_free_ret.
      * by apply model_free_emit.
    + intros dep'. apply model_free_bind; [exact IH|].
      intros; apply model_free_ret.
Qed.

Lemma model_free_check_system_dependencies (env : Env)
  (spec : Specification.t) :
  model_free (check_system_dependencies env spec).
Proof.
  unfold check_system_dependencies.
  apply model_free_bind; [apply model_free_check_dependencies_loop|].
  intros deps. apply model_free_bind; [by apply model_free_emit|].
  intros; apply model_free_ret.
Qed.

Lemma model_free_prepare_example_project (env : Env)
  (spec : Specification.t) :
  model_free (prepare_example_project env spec).
Proof.
  unfold prepare_example_project.
  destruct (Specification.example_project spec) as [key|];
    [|apply model_free_raise].
  destruct (EXAMPLE_PROJECTS env !! key); [|apply model_free_raise].
  apply model_free_bind; [by apply model_free_emit|].
  intros; apply model_free_ret.
Qed.

Lemma model_free_check_compatibility (env : Env) (arch : Architecture.t) :
  model_free (check_compatibility env arch).
Proof.
  unfold check_compatibility, warn_about_dependencies.
  apply model_free_bind; [apply model_free_lift_outcome|].
  intros system_names.
  apply model_free_bind; [apply model_free_lift_outcome|].
  intros package_names.
  apply model_free_bind.
  { destruct system_names; [apply model_free_ret|].
    apply model_free_bind; [apply model_free_ask_question|].
    intros; apply model_free_ret. }
  intros _. apply model_free_bind; [|intros; apply model_free_ret].
  destruct package_names; [apply model_free_ret|].
  apply model_free_bind; [apply model_free_ask_question|].
  intros; apply model_free_ret.
Qed.

Lemma model_free_dump_all {D E} (dump : D → E) (deps : option (list D)) :
  model_free (dump_all dump deps).
Proof. destruct deps; [apply model_free_ret|apply model_free_raise]. Qed.

Lemma model_free_set_next_specification (spec : Specification.t) :
  model_free (set_next_specification spec).
Proof. intros w. exists []. by rewrite app_nil_r. Qed.

Lemma model_free_set_next_action (label : string) :
  model_free (set_next_action label).
Proof. intros w. exists []. by rewrite app_nil_r. Qed.

(** What follows the choice between the two paths in [Architect.run] never
    calls the model. *)
Lemma model_free_architect_tail (env : Env) (spec : Specification.t) :
  model_free
    (let* spec := check_system_dependencies env spec in
     set_next_specification spec ;;;
     telemetry_set "template" (TelOptStr (Specification.template spec)) ;;;
     set_next_action ARCHITECTURE_STEP_NAME ;;;
     ret Done).
Proof.
  apply model_free_bind; [apply model_free_check_system_dependencies|].
  intros spec'.
  apply model_free_bind; [apply model_free_set_next_specification|].
  intros _. apply model_free_bind; [by apply model_free_emit|].
  intros _. apply model_free_bind; [apply model_free_set_next_action|].
  intros; apply model_free_ret.
Qed.

(** With an operator who lets the step run, the loop over the system
    dependencies completes: it runs the test command of each dependency, in
    order, records whether the command exited with status 0, and asks for an
    acknowledgement after each failure. *)
Lemma check_dependencies_loop_ack (env : Env) :
  acknowledges env →
  ∀ (deps : list SysDep.t) (w : World),
    ∃ statuses evs w',
      check_dependencies_loop env deps w
        = (Return (record_installed deps statuses), w')
      ∧ length statuses = length deps
      ∧ trace w' = (trace w ++ evs)%list
      ∧ commands_run evs = zip (SysDep.test <$> deps) (Return <$> statuses)
      ∧ questions_asked evs = install_prompts deps statuses
      ∧ current_state w' = current_state w
      ∧ next_state w' = next_state w.
Proof.
  intros [Hack Hcommands]. induction deps as [|dep rest IH]; intros w.
  - exists [], [], w. simpl. unfold ret. by rewrite app_nil_r.
  - cbn [check_dependencies_loop]. unfold bind at 1.
    unfold check_one_dependency. unfold bind at 1. unfold run_command.
    destruct (Hcommands (trace w) (SysDep.test dep)) as [status Hcommand].
    rewrite Hcommand. cbn [lift_outcome]. unfold ret at 1.
    unfold bind at 1.
    destruct (Z.eqb status 0) eqn:Hstatus; cbn [negb].
    + unfold send_message, emit, ret, bind.
      match goal with
      | |- context [check_dependencies_loop env rest ?w1] =>
          destruct (IH w1)
            as (statuses & evs & w' & Hrun & Hlen & Htr & Hcmd & Hq & Hc & Hn)
      end.
      rewrite Hrun.
      eexists (status :: statuses),
        (EvRunCommand (SysDep.test dep) (Return status)
         :: EvSendMessage _
         :: evs), w'.
      repeat split.
      * unfold record_installed. simpl. by rewrite Hstatus.
      * simpl. by rewrite Hlen.
      * rewrite Htr. simpl. by rewrite <- !app_assoc.
      * simpl. by rewrite Hcmd.
      * unfold install_prompts in *. simpl. by rewrite Hstatus, Hq.
      * by rewrite Hc.
      * by rewrite Hn.
    + unfold bind at 1. unfold send_message, emit. unfold bind at 1.
      unfold ask_question. cbn [trace log_event].
      match goal with
      | |- context [ui_ask_question env ?h ?q] =>
          destruct (Hack h q) as [answer Hanswer]; rewrite Hanswer
      end.
      cbn [lift_outcome]. unfold ret, bind.
      match goal with
      | |- context [check_dependencies_loop env rest ?w1] =>
          destruct (IH w1)
            as (statuses & evs & w' & Hrun & Hlen & Htr & Hcmd & Hq & Hc & Hn)
      end.
      rewrite Hrun.
      eexists (status :: statuses),
        (EvRunCommand (SysDep.test dep) (Return status)
         :: EvSendMessage _
         :: EvAskQuestion (install_question dep) (Return answer)
         :: evs), w'.
      repeat split.
      * unfold record_installed. simpl. by rewrite Hstatus.
      * simpl. by rewrite Hlen.
      * rewrite Htr. simpl. by rewrite <- !app_assoc.
      * simpl. by rewrite Hcmd.
      * unfold install_prompts in *. simpl. by rewrite Hstatus, Hq.
      * by rewrite Hc.
      * by rewrite Hn.
Qed.

Lemma commands_run_app (evs1 evs2 : list Event) :
  commands_run (evs1 ++ evs2) = (commands_run evs1 ++ commands_run evs2)%list.
Proof. apply omap_app. Qed.

Lemma questions_asked_app (evs1 evs2 : list Event) :
  questions_asked (evs1 ++ evs2)
  = (questions_asked evs1 ++ questions_asked evs2)%list.
Proof. apply omap_app. Qed.

(** Once the architecture has been obtained, and with an operator who answers
    every prompt, [Architect.run] completes. *)
Lemma architect_run_after_obtain (env : Env) (self : Agent.t)
  (w w1 : World) (spec1 : Specification.t) :
  acknowledges env →
  obtain_architecture env (initial_specification w) (architecture_stage w)
    = (Return spec1, w1) →
  ∃ statuses evs w2,
    architect_run env self w = (Return Done, w2)
    ∧ length statuses = length (Specification.system_dependencies spec1)
    ∧ trace w2 = (trace w1 ++ evs)%list
    ∧ commands_run evs
      = zip (SysDep.test <$> Specification.system_dependencies spec1)
          (Return <$> statuses)
    ∧ ProjectState.specification (next_state w2)
      = with_system_dependencies
          (record_installed (Specification.system_dependencies spec1) statuses)
          spec1
    ∧ questions_asked evs
      = install_prompts (Specification.system_dependencies spec1) statuses
    ∧ current_state w2 = current_state w1.
Proof.
  intros Hack Hobtain.
  unfold architect_run, bind at 1, send_project_stage, emit.
  unfold bind at 1, get_world. unfold bind at 1.
  fold (architecture_stage w).
  change (ProjectState.specification (current_state (architecture_stage w)))
    with (initial_specification w).
  rewrite Hobtain. unfold bind at 1. unfold check_system_dependencies.
  unfold bind at 1.
  destruct (check_dependencies_loop_ack env Hack
              (Specification.system_dependencies spec1) w1)
    as (statuses & evs & w' & Hrun & Hlen & Htr & Hcmd & Hq & Hc & Hn).
  rewrite Hrun.
  unfold bind, telemetry_set, emit, ret, set_next_specification,
    set_next_action.
  eexists statuses, _, _. split; [reflexivity|]. simpl.
  split; [done|].
  split; [rewrite Htr, <- !app_assoc; reflexivity|].
  rewrite commands_run_app, questions_asked_app. simpl.
  by rewrite !app_nil_r.
Qed.

(** The dependency at a position, once the outcome of its test command is
    recorded. *)
Lemma record_installed_lookup (deps : list SysDep.t) (statuses : list Z)
  (i : nat) (dep : SysDep.t) (status : Z) :
  deps !! i = Some dep →
  statuses !! i = Some status →
  record_installed deps statuses !! i
  = Some (SysDep.set_installed (Z.eqb status 0) dep).
Proof.
  unfold record_installed. intros Hdep Hstatus.
  rewrite lookup_zip_with, Hdep. simpl. by rewrite Hstatus.
Qed.

Lemma record_installed_length (deps : list SysDep.t) (statuses : list Z) :
  length statuses = length deps →
  length (record_installed deps statuses) = length deps.
Proof.
  unfold record_installed. intros Hlen. rewrite length_zip_with. lia.
Qed.

(** The prompts of the loop are the install prompts, by name, of the
    dependencies whose command failed. *)
Lemma install_prompts_expected (deps : list SysDep.t) (statuses : list Z) :
  install_prompts deps statuses = expected_install_prompts deps statuses.
Proof.
  unfold install_prompts.
  revert statuses. induction deps as [|dep deps IH]; intros [|status statuses];
    try done.
  simpl. rewrite IH.
  destruct (Z.eqb_spec status 0) as [->|Hstatus].
  - by rewrite bool_decide_eq_true_2.
  - by rewrite bool_decide_eq_false_2.
Qed.

(** C4. Once the architecture has been obtained, and with an operator who
    lets the step run, [Architect.run] completes with [done].  It has run the
    test command of every declared system dependency exactly once, in order.
    In the specification of the working snapshot every dependency is the one
    declared, with [installed] recorded as [True] when its command exited
    with status 0 and as [False] otherwise.  It has asked for one
    acknowledgement, naming the dependency, after each command that failed,
    and for nothing else: a failing command is no error. *)
Theorem system_dependencies_are_probed (env : Env) (self : Agent.t)
  (w w1 : World) (spec1 : Specification.t) :
  acknowledges env →
  obtain_architecture env (initial_specification w) (architecture_stage w)
    = (Return spec1, w1) →
  ∃ statuses w2,
    architect_run env self w = (Return Done, w2)
    ∧ length statuses = length (Specification.system_dependencies spec1)
    ∧ commands_run (events_since w1 w2)
      = zip (SysDep.test <$> Specification.system_dependencies spec1)
          (Return <$> statuses)
    ∧ length (Specification.system_dependencies
                (ProjectState.specification (next_state w2)))
      = length (Specification.system_dependencies spec1)
    ∧ (∀ i dep status,
         Specification.system_dependencies spec1 !! i = Some dep →
         statuses !! i = Some status →
         ∃ dep',
           Specification.system_dependencies
             (ProjectState.specification (next_state w2)) !! i = Some dep'
           ∧ SysDep.installed dep' = Some (bool_decide (status = 0%Z))
           ∧ SysDep.name dep' = SysDep.name dep
           ∧ SysDep.description dep' = SysDep.description dep
           ∧ SysDep.test dep' = SysDep.test dep
           ∧ SysDep.required_locally dep' = SysDep.required_locally dep)
    ∧ questions_asked (events_since w1 w2)
      = expected_install_prompts (Specification.system_dependencies spec1)
          statuses.
Proof.
  intros Hack Hobtain.
  destruct (architect_run_after_obtain env self w w1 spec1 Hack Hobtain)
    as (statuses & evs & w2 & Hrun & Hlen & Htr & Hcmd & Hspec & Hq & _).
  exists statuses, w2. rewrite Hspec, (events_since_app _ _ _ Htr).
  cbn [Specification.system_dependencies with_system_dependencies].
  split; [done|]. split; [done|]. split; [done|].
  split; [by apply record_installed_length|].
  split; [|by rewrite Hq, install_prompts_expected].
  intros i dep status Hdep Hstatus.
  eexists. split; [by apply record_installed_lookup|].
  cbn. repeat split.
  destruct (Z.eqb_spec status 0) as [->|Hne].
  - by rewrite bool_decide_eq_true_2.
  - by rewrite bool_decide_eq_false_2.
Qed.

Lemma sample_env_acknowledges (failure : exn) :
  acknowledges (sample_env failure).
Proof. split; intros history q; by eexists. Qed.

Lemma system_dependencies_witness :
  ∃ statuses w2,
    architect_run (sample_env UIClosedError) first_draft_agent
      (sample_world []) = (Return Done, w2)
    ∧ length statuses = 2
    ∧ commands_run
        (events_since
           (snd (obtain_architecture (sample_env UIClosedError)
                   (initial_specification (sample_world []))
                   (architecture_stage (sample_world [])))) w2)
      = zip [Some "docker --version"; Some "python --version"]
          (Return <$> statuses)
    ∧ length (Specification.system_dependencies
                (ProjectState.specification (next_state w2))) = 2
    ∧ (∀ i dep status,
         planned_system_dependencies !! i = Some dep →
         statuses !! i = Some status →
         ∃ dep',
           Specification.system_dependencies
             (ProjectState.specification (next_state w2)) !! i = Some dep'
           ∧ SysDep.installed dep' = Some (bool_decide (status = 0%Z))
           ∧ SysDep.name dep' = SysDep.name dep
           ∧ SysDep.description dep' = SysDep.description dep
           ∧ SysDep.test dep' = SysDep.test dep
           ∧ SysDep.required_locally dep' = SysDep.required_locally dep)
    ∧ questions_asked
        (events_since
           (snd (obtain_architecture (sample_env UIClosedError)
                   (initial_specification (sample_world []))
                   (architecture_stage (sample_world [])))) w2)
      = expected_install_prompts planned_system_dependencies statuses.
Proof.
  apply (system_dependencies_are_probed (sample_env UIClosedError)
           first_draft_agent (sample_world [])
           (snd (obtain_architecture (sample_env UIClosedError)
                   (initial_specification (sample_world []))
                   (architecture_stage (sample_world []))))
           (spec_of_architecture sample_specification sample_architecture
              planned_system_dependencies planned_package_dependencies)
           (sample_env_acknowledges UIClosedError)).
  reflexivity.
Defined.

(** The scenario of the specification: the test command of Docker fails, the
    operator is asked once, the step completes, and [installed = false] is
    what the working snapshot holds for Docker. *)
Example docker_missing_scenario :
  fst (architect_run (sample_env UIClosedError) first_draft_agent
         (sample_world [])) = Return Done
  ∧ (λ d, (SysDep.name d, SysDep.installed d))
      <$> Specification.system_dependencies
            (ProjectState.specification
               (next_state
                  (snd (architect_run (sample_env UIClosedError)
                          first_draft_agent (sample_world [])))))
    = [(Some "Docker", Some false); (Some "Python", Some true)]
  ∧ questions_asked
      (trace (snd (architect_run (sample_env UIClosedError)
                     first_draft_agent (sample_world []))))
    = [advisory ["Docker"] "";
       advisory ["Vue"]
         " Visit https://github.com/Pythagora-io/gpt-pilot/wiki/Using-GPT-Pilot-with-frontend-frameworks for more information.";
       install_prompt (Some "Docker")].
Proof. repeat split; reflexivity. Qed.

(** [Architect.run] is: announce the stage, obtain the architecture for the
    committed specification, then probe the dependencies and store the
    result. *)
Lemma architect_run_unfold (env : Env) (self : Agent.t) (w : World) :
  architect_run env self w
  = bind (obtain_architecture env (initial_specification w))
      (λ spec,
         let* spec := check_system_dependencies env spec in
         set_next_specification spec ;;;
         telemetry_set "template" (TelOptStr (Specification.template spec)) ;;;
         set_next_action ARCHITECTURE_STEP_NAME ;;;
         ret Done)
      (architecture_stage w).
Proof. reflexivity. Qed.

Lemma architect_run_example_model_free (env : Env) (self : Agent.t)
  (w : World) :
  opt_str_truthy (Specification.example_project (initial_specification w))
    = true →
  count_llm_calls (events_since w (snd (architect_run env self w))) = 0.
Proof.
  intros Hexample. rewrite architect_run_unfold.
  unfold obtain_architecture. rewrite Hexample.
  destruct (model_free_bind _ _
              (model_free_prepare_example_project env
                 (initial_specification w))
              (λ spec, model_free_architect_tail env spec)
              (architecture_stage w)) as (evs & Htr & Hcount).
  erewrite events_since_app;
    [|rewrite Htr; unfold architecture_stage; simpl;
      rewrite <- ?app_assoc; reflexivity].
  rewrite count_llm_calls_app, Hcount. reflexivity.
Qed.

Lemma architect_run_novel_one_call (env : Env) (self : Agent.t) (w : World) :
  opt_str_truthy (Specification.example_project (initial_specification w))
    = false →
  count_llm_calls (events_since w (snd (architect_run env self w))) = 1.
Proof.
  intros Hnovel. rewrite architect_run_unfold.
  unfold obtain_architecture. rewrite Hnovel.
  unfold plan_architecture. unfold bind at 1 2.
  unfold send_message, emit. unfold bind at 1.
  unfold llm_call_architecture. cbn [trace log_event architecture_stage].
  match goal with
  | |- context [llm_architecture env ?h ?c] =>
      destruct (llm_architecture env h c) as [arch|e]
  end; cbn [lift_outcome].
  - unfold ret at 1.
    match goal with
    | |- context [bind (check_compatibility env arch) ?k ?w1] =>
        change (count_llm_calls
                  (events_since w
                     (snd (bind (bind (check_compatibility env arch) k)
                             (λ spec,
                                let* spec :=
                                  check_system_dependencies env spec in
                                set_next_specification spec ;;;
                                telemetry_set "template"
                                  (TelOptStr (Specification.template spec)) ;;;
                                set_next_action ARCHITECTURE_STEP_NAME ;;;
                                ret Done) w1))) = 1);
        destruct (model_free_bind _ _
                    (model_free_bind _ k
                       (model_free_check_compatibility env arch)
                       (λ _,
                          model_free_bind _ _
                            (model_free_dump_all _ _)
                            (λ _,
                               model_free_bind _ _
                                 (model_free_dump_all _ _)
                                 (λ _, model_free_ret _))))
                    (λ spec, model_free_architect_tail env spec) w1)
          as (evs & Htr & Hcount)
    end.
    erewrite events_since_app;
      [|rewrite Htr; simpl; rewrite <- !app_assoc; reflexivity].
    rewrite !count_llm_calls_app, Hcount. reflexivity.
  - unfold raise. simpl.
    erewrite events_since_app;
      [|unfold architecture_stage; simpl; rewrite <- !app_assoc;
        reflexivity].
    reflexivity.
Qed.

(** C6. For a specification marked as an example project, [Architect.run]
    never calls the model, whatever happens; the architecture it obtains is
    the entry of [EXAMPLE_PROJECTS] under that name, field by field, and with
    an operator who answers every prompt the step completes and stores it,
    the system dependencies with their [installed] flags recorded.  For any
    other specification the model is called exactly once. *)
Theorem example_project_is_a_lookup (env : Env) (self : Agent.t) (w : World) :
  (opt_str_truthy (Specification.example_project (initial_specification w))
     = true →
   count_llm_calls (events_since w (snd (architect_run env self w))) = 0
   ∧ ∀ key arch,
       Specification.example_project (initial_specification w) = Some key →
       EXAMPLE_PROJECTS env !! key = Some arch →
       fst (obtain_architecture env (initial_specification w)
              (architecture_stage w))
         = Return (spec_of_example (initial_specification w) arch)
       ∧ (acknowledges env →
          ∃ statuses w2,
            architect_run env self w = (Return Done, w2)
            ∧ length statuses
              = length (ExampleArchitecture.system_dependencies arch)
            ∧ Specification.architecture
                (ProjectState.specification (next_state w2))
              = ExampleArchitecture.architecture arch
            ∧ Specification.system_dependencies
                (ProjectState.specification (next_state w2))
              = record_installed
                  (ExampleArchitecture.system_dependencies arch) statuses
            ∧ Specification.package_dependencies
                (ProjectState.specification (next_state w2))
              = ExampleArchitecture.package_dependencies arch
            ∧ Specification.template
                (ProjectState.specification (next_state w2))
              = ExampleArchitecture.template arch))
  ∧ (opt_str_truthy (Specification.example_project (initial_specification w))
       = false →
     count_llm_calls (events_since w (snd (architect_run env self w))) = 1).
Proof.
  split; [|apply architect_run_novel_one_call].
  intros Hexample. split; [by apply architect_run_example_model_free|].
  intros key arch Hkey Harch.
  assert (obtain_architecture env (initial_specification w)
            (architecture_stage w)
          = (Return (spec_of_example (initial_specification w) arch),
             log_event
               (EvTelemetrySet "template"
                  (TelOptStr (ExampleArchitecture.template arch)))
               (architecture_stage w))) as Hobtain.
  { unfold obtain_architecture. rewrite Hexample.
    unfold prepare_example_project. by rewrite Hkey, Harch. }
  rewrite Hobtain. split; [done|]. intros Hack.
  destruct (architect_run_after_obtain env self w _ _ Hack Hobtain)
    as (statuses & evs & w2 & Hrun & Hlen & _ & _ & Hspec & _).
  exists statuses, w2. rewrite Hspec. done.
Qed.

Lemma example_project_witness :
  count_llm_calls
    (events_since example_world
       (snd (architect_run (sample_env UIClosedError) first_draft_agent
               example_world))) = 0
  ∧ ∃ statuses w2,
      architect_run (sample_env UIClosedError) first_draft_agent example_world
        = (Return Done, w2)
      ∧ length statuses = 1
      ∧ Specification.architecture
          (ProjectState.specification (next_state w2))
        = Some "Node and Express"
      ∧ Specification.system_dependencies
          (ProjectState.specification (next_state w2))
        = record_installed
            (ExampleArchitecture.system_dependencies
               sample_example_architecture) statuses
      ∧ Specification.package_dependencies
          (ProjectState.specification (next_state w2))
        = ExampleArchitecture.package_dependencies sample_example_architecture
      ∧ Specification.template
          (ProjectState.specification (next_state w2))
        = Some "node_express_mongoose".
Proof.
  destruct (example_project_is_a_lookup (sample_env UIClosedError)
              first_draft_agent example_world) as [Hexample _].
  destruct (Hexample eq_refl) as [Hcount Hlookup].
  split; [exact Hcount|].
  destruct (Hlookup "example" sample_example_architecture eq_refl eq_refl)
    as [_ Hrun].
  exact (Hrun (sample_env_acknowledges UIClosedError)).
Defined.

(** ** The compatibility check *)

Lemma append_assoc (a b c : string) : (a +:+ b) +:+ c = a +:+ (b +:+ c).
Proof.
  induction a as [|x a IH]; [reflexivity|].
  change (String x ((a +:+ b) +:+ c) = String x (a +:+ (b +:+ c))).
  by rewrite IH.
Qed.

(** The prompt [warn_about_dependencies] shows is the advisory that names
    the dependencies. *)
Lemma warning_message_advisory (names : list string) :
  continue_question (warning_message names None) = advisory names ""
  ∧ continue_question (warning_message names (Some WARN_FRAMEWORKS_URL))
    = advisory names
        " Visit https://github.com/Pythagora-io/gpt-pilot/wiki/Using-GPT-Pilot-with-frontend-frameworks for more information.".
Proof.
  unfold continue_question, advisory, acknowledgement_prompt, warning_message.
  assert ((if Nat.eqb (length names) 1 then "it" else "them")
          = match names with [_] => "it" | _ => "them" end) as ->
    by by destruct names as [|? [|? ?]].
  split; f_equal; cbn [str_truthy WARN_FRAMEWORKS_URL];
    rewrite !append_assoc; reflexivity.
Qed.

Lemma nat_of_ascii_inj (a b : ascii) :
  nat_of_ascii a = nat_of_ascii b → a = b.
Proof.
  intros H. rewrite <- (ascii_nat_embedding a), <- (ascii_nat_embedding b).
  by rewrite H.
Qed.

(** Lower-casing a character gives a character that is no capital exactly
    when the character is that one or its capital. *)
Lemma ascii_lower_capital (c d : ascii) :
  (nat_of_ascii d < 65 ∨ 90 < nat_of_ascii d) →
  bool_decide (ascii_lower c = d) = Ascii.eqb c d || capital_of c d.
Proof.
  intros Hd.
  pose proof (nat_ascii_bounded c) as Hc.
  pose proof (nat_ascii_bounded d) as Hdb.
  unfold ascii_lower, capital_of.
  destruct (Ascii.eqb_spec c d) as [->|Hne]; cbn [orb].
  - destruct (Nat.leb_spec 65 (nat_of_ascii d)),
      (Nat.leb_spec (nat_of_ascii d) 90); cbn [andb]; try lia;
      by rewrite bool_decide_eq_true_2.
  - destruct (Nat.leb_spec 65 (nat_of_ascii c)),
      (Nat.leb_spec (nat_of_ascii c) 90); cbn [andb].
    + destruct (decide (nat_of_ascii d = nat_of_ascii c + 32)) as [Heq|Hneq].
      * rewrite bool_decide_eq_true_2.
        2:{ apply nat_of_ascii_inj. rewrite nat_ascii_embedding by lia.
            done. }
        symmetry. rewrite !andb_true_iff, !Nat.leb_le, Nat.eqb_eq. lia.
      * rewrite bool_decide_eq_false_2.
        2:{ intros <-. rewrite nat_ascii_embedding in Hneq by lia. done. }
        symmetry. apply not_true_is_false.
        rewrite !andb_true_iff, !Nat.leb_le, Nat.eqb_eq. lia.
    + rewrite bool_decide_eq_false_2 by done.
      symmetry. apply not_true_is_false.
      rewrite !andb_true_iff, !Nat.leb_le, Nat.eqb_eq. lia.
    + rewrite bool_decide_eq_false_2 by done.
      symmetry. apply not_true_is_false.
      rewrite !andb_true_iff, !Nat.leb_le, Nat.eqb_eq. lia.
    + lia.
Qed.

(** On names of ASCII characters, the lower-cased name is an entry without
    capitals exactly when the name is a capitalisation of the entry. *)
Lemma lower_capitalisation (name entry : string) :
  has_no_capital entry = true →
  bool_decide (lower name = entry) = capitalisation_of name entry.
Proof.
  revert entry. induction name as [|c name IH]; intros [|d entry] Hentry;
    try done.
  unfold has_no_capital in Hentry. cbn [list_ascii_of_string forallb] in Hentry.
  apply andb_true_iff in Hentry as [Hd Hentry].
  cbn [lower capitalisation_of].
  rewrite <- (IH entry Hentry), <- ascii_lower_capital.
  2:{ apply orb_true_iff in Hd as [Hd|Hd]; apply Nat.ltb_lt in Hd; lia. }
  repeat case_bool_decide; naive_solver.
Qed.

Lemma denylisted_spec (env : Env) (denylist : list string) (name : string) :
  forallb has_no_capital denylist = true →
  bool_decide (str_lower env name ∈ denylist) = denylisted env denylist name.
Proof.
  intros Hentries. unfold str_lower, denylisted.
  destruct (is_ascii name); [|done].
  induction denylist as [|entry denylist IH].
  - by rewrite bool_decide_eq_false_2 by apply not_elem_of_nil.
  - cbn [forallb] in Hentries.
    apply andb_true_iff in Hentries as [Hentry Hentries].
    cbn [existsb].
    rewrite <- (IH Hentries), <- (lower_capitalisation _ _ Hentry).
    rewrite (bool_decide_ext _ (lower name = entry ∨ lower name ∈ denylist))
      by apply elem_of_cons.
    by rewrite bool_decide_or.
Qed.

(** When every dependency has its name, the comprehension keeps the names
    on the denylist, in order; when one has not, it raises. *)
Lemma names_to_warn_declared {D} (env : Env) (name : D → option string)
  (denylist : list string) (deps : list D) (names : list string) :
  mapM name deps = Some names →
  names_to_warn env name denylist deps
  = Return (List.filter (λ n, bool_decide (str_lower env n ∈ denylist))
              names).
Proof.
  revert names. induction deps as [|dep deps IH]; intros names Hnames.
  - by injection Hnames as <-.
  - apply mapM_Some_1 in Hnames.
    inversion Hnames as [|? n ? names' Hn Hrest]; subst.
    apply mapM_Some_2 in Hrest.
    cbn [names_to_warn List.filter]. rewrite Hn, (IH _ Hrest).
    by case_bool_decide.
Qed.

Lemma names_to_warn_undeclared {D} (env : Env) (name : D → option string)
  (denylist : list string) (deps : list D) :
  mapM name deps = None →
  ∃ message,
    names_to_warn env name denylist deps = Raise (AttributeError message).
Proof.
  induction deps as [|dep deps IH]; intros Hnames; [done|].
  cbn [names_to_warn].
  destruct (name dep) as [n|] eqn:Hn; [|by eexists].
  destruct (mapM name deps) as [names|] eqn:Hrest.
  - exfalso. revert Hnames. cbn. by rewrite Hn, Hrest.
  - destruct (IH eq_refl) as [message ->]. by eexists.
Qed.

Lemma warn_system_deps_declared (env : Env) (arch : Architecture.t)
  (names : list string) :
  declared_names SystemDependency.name (Architecture.system_dependencies arch)
    = Some names →
  warn_system_deps env arch = Return (unsupported_system env names).
Proof.
  unfold declared_names, warn_system_deps, unsupported_system.
  destruct (Architecture.system_dependencies arch) as [deps|]; [|done].
  cbn. intros Hnames. rewrite (names_to_warn_declared _ _ _ _ _ Hnames).
  f_equal. apply List.filter_ext. intros n. by apply denylisted_spec.
Qed.

Lemma warn_package_deps_declared (env : Env) (arch : Architecture.t)
  (names : list string) :
  declared_names PackageDependency.name
    (Architecture.package_dependencies arch) = Some names →
  warn_package_deps env arch = Return (unsupported_frameworks env names).
Proof.
  unfold declared_names, warn_package_deps, unsupported_frameworks.
  destruct (Architecture.package_dependencies arch) as [deps|]; [|done].
  cbn. intros Hnames. rewrite (names_to_warn_declared _ _ _ _ _ Hnames).
  f_equal. apply List.filter_ext. intros n. by apply denylisted_spec.
Qed.

Lemma warn_system_deps_undeclared (env : Env) (arch : Architecture.t) :
  declared_names SystemDependency.name (Architecture.system_dependencies arch)
    = None →
  ∃ e, warn_system_deps env arch = Raise e ∧ incomplete_reply e.
Proof.
  unfold declared_names, warn_system_deps, incomplete_reply.
  destruct (Architecture.system_dependencies arch) as [deps|];
    [|by eexists _; split; [|eexists; left]].
  cbn. intros Hnames.
  destruct (names_to_warn_undeclared env _ WARN_SYSTEM_DEPS _ Hnames)
    as [message ->].
  eexists. split; [done|]. eexists. by right.
Qed.

Lemma warn_package_deps_undeclared (env : Env) (arch : Architecture.t) :
  declared_names PackageDependency.name
    (Architecture.package_dependencies arch) = None →
  ∃ e, warn_package_deps env arch = Raise e ∧ incomplete_reply e.
Proof.
  unfold declared_names, warn_package_deps, incomplete_reply.
  destruct (Architecture.package_dependencies arch) as [deps|];
    [|by eexists _; split; [|eexists; left]].
  cbn. intros Hnames.
  destruct (names_to_warn_undeclared env _ WARN_FRAMEWORKS _ Hnames)
    as [message ->].
  eexists. split; [done|]. eexists. by right.
Qed.

(** On a reply that declares its dependencies by name, the check shows the
    advisories, and nothing else happens. *)
Lemma check_compatibility_declared (env : Env) (arch : Architecture.t)
  (system_names package_names : list string) (w : World) :
  declared_names SystemDependency.name (Architecture.system_dependencies arch)
    = Some system_names →
  declared_names PackageDependency.name
    (Architecture.package_dependencies arch) = Some package_names →
  check_compatibility env arch w
  = ((match unsupported_system env system_names with
      | [] => ret tt
      | _ :: _ =>
          ask_question env
            (advisory (unsupported_system env system_names) "") ;;;
          ret tt
      end) ;;;
     (match unsupported_frameworks env package_names with
      | [] => ret tt
      | _ :: _ =>
          ask_question env
            (advisory (unsupported_frameworks env package_names)
               " Visit https://github.com/Pythagora-io/gpt-pilot/wiki/Using-GPT-Pilot-with-frontend-frameworks for more information.") ;;;
          ret tt
      end) ;;;
     ret true) w.
Proof.
  intros Hsystem Hpackage. unfold check_compatibility.
  unfold bind at 1. rewrite (warn_system_deps_declared _ _ _ Hsystem).
  cbn [lift_outcome]. unfold ret at 1.
  unfold bind at 1. rewrite (warn_package_deps_declared _ _ _ Hpackage).
  cbn [lift_outcome]. unfold ret at 1.
  unfold warn_about_dependencies.
  destruct (warning_message_advisory (unsupported_system env system_names))
    as [-> _].
  destruct (warning_message_advisory
              (unsupported_frameworks env package_names)) as [_ ->].
  reflexivity.
Qed.

(** On a reply that lacks a list or a name, the check raises at once. *)
Lemma check_compatibility_incomplete (env : Env) (arch : Architecture.t)
  (w : World) :
  declared_names SystemDependency.name (Architecture.system_dependencies arch)
    = None
  ∨ declared_names PackageDependency.name
      (Architecture.package_dependencies arch) = None →
  ∃ e, check_compatibility env arch w = (Raise e, w) ∧ incomplete_reply e.
Proof.
  intros Hnone. unfold check_compatibility. unfold bind at 1.
  destruct (declared_names SystemDependency.name
              (Architecture.system_dependencies arch))
    as [system_names|] eqn:Hsystem.
  - destruct Hnone as [|Hpackage]; [done|].
    rewrite (warn_system_deps_declared _ _ _ Hsystem).
    cbn [lift_outcome]. unfold ret at 1. unfold bind at 1.
    destruct (warn_package_deps_undeclared env arch Hpackage)
      as (e & -> & He).
    by exists e.
  - destruct (warn_system_deps_undeclared env arch Hsystem) as (e & -> & He).
    by exists e.
Qed.

(** Whenever [check_compatibility] returns, it returns [True], the reply
    declared its dependencies by name, and the prompts shown are the
    advisories. *)
Lemma check_compatibility_returns (env : Env) (arch : Architecture.t)
  (w w' : World) (r : bool) :
  check_compatibility env arch w = (Return r, w') →
  r = true
  ∧ ∃ system_names package_names evs,
      declared_names SystemDependency.name
        (Architecture.system_dependencies arch) = Some system_names
      ∧ declared_names PackageDependency.name
          (Architecture.package_dependencies arch) = Some package_names
      ∧ trace w' = (trace w ++ evs)%list
      ∧ questions_asked evs = advisories env system_names package_names
      ∧ commands_run evs = []
      ∧ current_state w' = current_state w
      ∧ next_state w' = next_state w.
Proof.
  destruct (declared_names SystemDependency.name
              (Architecture.system_dependencies arch))
    as [system_names|] eqn:Hsystem.
  2:{ destruct (check_compatibility_incomplete env arch w (or_introl Hsystem))
        as (e & -> & _). discriminate. }
  destruct (declared_names PackageDependency.name
              (Architecture.package_dependencies arch))
    as [package_names|] eqn:Hpackage.
  2:{ destruct (check_compatibility_incomplete env arch w (or_intror Hpackage))
        as (e & -> & _). discriminate. }
  rewrite (check_compatibility_declared _ _ _ _ _ Hsystem Hpackage).
  unfold bind, ret, ask_question.
  intros Hrun. cut (r = true
    ∧ ∃ evs, trace w' = (trace w ++ evs)%list
             ∧ questions_asked evs
               = (match unsupported_system env system_names with
                  | [] => []
                  | _ :: _ =>
                      [advisory (unsupported_system env system_names) ""]
                  end
                  ++ match unsupported_frameworks env package_names with
                     | [] => []
                     | _ :: _ =>
                         [advisory
                            (unsupported_frameworks env package_names)
                            " Visit https://github.com/Pythagora-io/gpt-pilot/wiki/Using-GPT-Pilot-with-frontend-frameworks for more information."]
                     end)%list
             ∧ commands_run evs = []
             ∧ current_state w' = current_state w
             ∧ next_state w' = next_state w).
  { intros (-> & evs & Htr & Hq & Hcmd & Hc & Hn). split; [done|].
    exists system_names, package_names, evs. rewrite Hq.
    repeat split; try done. unfold advisories.
    by destruct (unsupported_system env system_names),
         (unsupported_frameworks env package_names). }
  revert Hrun.
  destruct (unsupported_system env system_names) as [|s1 ss];
    destruct (unsupported_frameworks env package_names) as [|p1 ps];
    cbn [app].
  - intros [= <- <-]. split; [done|]. exists []. by rewrite app_nil_r.
  - destruct (ui_ask_question env (trace w) _) as [answer|e];
      cbn [lift_outcome ret raise]; unfold ret, raise; [|discriminate].
    intros [= <- <-]. split; [done|]. by eexists [_].
  - destruct (ui_ask_question env (trace w) _) as [answer|e];
      cbn [lift_outcome ret raise]; unfold ret, raise; [|discriminate].
    intros [= <- <-]. split; [done|]. by eexists [_].
  - destruct (ui_ask_question env (trace w) _) as [answer|e];
      cbn [lift_outcome ret raise]; unfold ret, raise; [|discriminate].
    match goal with
    | |- context [ui_ask_question env ?h ?q] =>
        destruct (ui_ask_question env h q) as [answer2|e]
    end; cbn [lift_outcome ret raise]; unfold ret, raise; [|discriminate].
    intros [= <- <-]. split; [done|]. eexists [_; _].
    split; [simpl; by rewrite <- app_assoc|]. done.
Qed.

(** With an operator who answers, [check_compatibility] returns on every
    reply that declares its dependencies by name. *)
Lemma check_compatibility_ack (env : Env) (arch : Architecture.t)
  (system_names package_names : list string) (w : World) :
  acknowledges env →
  declared_names SystemDependency.name (Architecture.system_dependencies arch)
    = Some system_names →
  declared_names PackageDependency.name
    (Architecture.package_dependencies arch) = Some package_names →
  ∃ w', check_compatibility env arch w = (Return true, w').
Proof.
  intros [Hack _] Hsystem Hpackage.
  rewrite (check_compatibility_declared _ _ _ _ _ Hsystem Hpackage).
  unfold bind, ret, ask_question.
  destruct (unsupported_system env system_names) as [|s1 ss];
    destruct (unsupported_frameworks env package_names) as [|p1 ps];
    repeat match goal with
           | |- context [ui_ask_question env ?h ?q] =>
               destruct (Hack h q) as [? ->]; cbn [lift_outcome]; unfold ret
           end;
    by eexists.
Qed.

Lemma append_nil_r (a : string) : a +:+ "" = a.
Proof.
  induction a as [|x a IH]; [reflexivity|].
  change (String x (a +:+ "") = String x a). by rewrite IH.
Qed.

(** A joined list names each of its elements. *)
Lemma join_mentions (sep : string) (names : list string) (name : string) :
  name ∈ names → mentions (join sep names) name.
Proof.
  unfold mentions, join.
  induction names as [|x names IH]; intros Hin.
  - by apply elem_of_nil in Hin.
  - apply elem_of_cons in Hin as [->|Hin].
    + destruct names as [|y names].
      * exists "", "". cbn. by rewrite append_nil_r.
      * by exists "", (sep +:+ String.concat sep (y :: names)).
    + destruct (IH Hin) as (before & after & Heq).
      destruct names as [|y names]; [by apply elem_of_nil in Hin|].
      exists (x +:+ sep +:+ before), after.
      change (String.concat sep (x :: y :: names))
        with (x +:+ sep +:+ String.concat sep (y :: names)).
      by rewrite Heq, !append_assoc.
Qed.

(** An advisory names every dependency it is about, and asks for nothing
    but an acknowledgement. *)
Lemma advisory_mentions (names : list string) (link name : string) :
  name ∈ names →
  mentions (Question.question (advisory names link)) name.
Proof.
  intros Hin. destruct (join_mentions ", " names name Hin)
    as (before & after & Heq).
  unfold advisory, acknowledgement_prompt. cbn [Question.question].
  rewrite Heq.
  exists ("Warning: GPT Pilot doesn't officially support " +:+ before),
    (after +:+ ". You can try to use "
     +:+ match names with [_] => "it" | _ => "them" end
     +:+ ", but you may run into problems." +:+ link).
  by rewrite !append_assoc.
Qed.

Lemma elem_of_list_filter_bool {A} (f : A → bool) (l : list A) (x : A) :
  x ∈ List.filter f l ↔ x ∈ l ∧ f x = true.
Proof.
  rewrite !list_elem_of_In. rewrite List.filter_In. done.
Qed.

(** The names listed as unsupported are the declared names whose
    lower-casing is on the denylist. *)
Lemma unsupported_system_spec (env : Env) (system_names : list string)
  (name : string) :
  name ∈ unsupported_system env system_names
  ↔ name ∈ system_names
    ∧ str_lower env name ∈ ["docker"; "kubernetes"; "microservices"].
Proof.
  unfold unsupported_system. rewrite elem_of_list_filter_bool.
  rewrite <- denylisted_spec by reflexivity.
  by rewrite bool_decide_eq_true.
Qed.

Lemma unsupported_frameworks_spec (env : Env) (package_names : list string)
  (name : string) :
  name ∈ unsupported_frameworks env package_names
  ↔ name ∈ package_names
    ∧ str_lower env name ∈ ["next.js"; "vue"; "vue.js"; "svelte"; "angular"].
Proof.
  unfold unsupported_frameworks. rewrite elem_of_list_filter_bool.
  rewrite <- denylisted_spec by reflexivity.
  by rewrite bool_decide_eq_true.
Qed.



(** In the planning path, with a model whose reply [arch] declares its
    dependencies by name and an operator who answers, the architecture is
    obtained after the advisories have been shown. *)
Lemma obtain_planned_architecture (env : Env) (w : World)
  (arch : Architecture.t)
  (system : list SystemDependency.t) (package : list PackageDependency.t)
  (system_names package_names : list string) :
  acknowledges env →
  opt_str_truthy (Specification.example_project (initial_specification w))
    = false →
  llm_architecture env (planning_history w) technologies_convo = Return arch →
  Architecture.system_dependencies arch = Some system →
  Architecture.package_dependencies arch = Some package →
  mapM SystemDependency.name system = Some system_names →
  mapM PackageDependency.name package = Some package_names →
  ∃ evs w1,
    obtain_architecture env (initial_specification w) (architecture_stage w)
      = (Return (spec_of_architecture (initial_specification w) arch
                   (model_dump_system <$> system)
                   (model_dump_package <$> package)), w1)
    ∧ trace w1 = (trace w ++ evs)%list
    ∧ questions_asked evs = advisories env system_names package_names.
Proof.
  intros Hack Hnovel Hllm Hsystem Hpackage Hsn Hpn.
  assert (declared_names SystemDependency.name
            (Architecture.system_dependencies arch) = Some system_names)
    as Hds by by rewrite Hsystem.
  assert (declared_names PackageDependency.name
            (Architecture.package_dependencies arch) = Some package_names)
    as Hdp by by rewrite Hpackage.
  unfold obtain_architecture. rewrite Hnovel.
  unfold plan_architecture. unfold bind at 1. unfold send_message, emit.
  unfold bind at 1. unfold llm_call_architecture.
  fold (planning_history w). rewrite Hllm. cbn [lift_outcome].
  unfold ret at 1. unfold bind at 1.
  match goal with
  | |- context [check_compatibility env arch ?w0] =>
      destruct (check_compatibility_ack env arch _ _ w0 Hack Hds Hdp)
        as [w1 Hrun];
      rewrite Hrun;
      apply check_compatibility_returns in Hrun
        as (_ & sn & pn & evs & Hs & Hp & Htr & Hq & _)
  end.
  rewrite Hds in Hs. rewrite Hdp in Hp. injection Hs as <-. injection Hp as <-.
  rewrite Hsystem, Hpackage. unfold dump_all, bind, ret.
  eexists _, w1. split; [reflexivity|].
  split.
  - rewrite Htr. unfold architecture_stage. simpl.
    rewrite <- !app_assoc. reflexivity.
  - rewrite !questions_asked_app. simpl. exact Hq.
Qed.

(** In the planning path, a reply that lacks a list or a name makes the step
    raise right after the model call. *)
Lemma obtain_incomplete_architecture (env : Env) (w : World)
  (arch : Architecture.t) :
  opt_str_truthy (Specification.example_project (initial_specification w))
    = false →
  llm_architecture env (planning_history w) technologies_convo = Return arch →
  declared_names SystemDependency.name (Architecture.system_dependencies arch)
    = None
  ∨ declared_names PackageDependency.name
      (Architecture.package_dependencies arch) = None →
  ∃ e,
    obtain_architecture env (initial_specification w) (architecture_stage w)
    = (Raise e,
       log_event (EvLLM None technologies_convo (Return (Planned arch)))
         (log_event (EvSendMessage "Planning project architecture ...")
            (architecture_stage w)))
    ∧ incomplete_reply e.
Proof.
  intros Hnovel Hllm Hnone.
  unfold obtain_architecture. rewrite Hnovel.
  unfold plan_architecture. unfold bind at 1. unfold send_message, emit.
  unfold bind at 1. unfold llm_call_architecture.
  fold (planning_history w). rewrite Hllm. cbn [lift_outcome].
  unfold ret at 1. unfold bind at 1.
  match goal with
  | |- context [check_compatibility env arch ?w0] =>
      destruct (check_compatibility_incomplete env arch w0 Hnone)
        as (e & -> & He)
  end.
  by exists e.
Qed.

(** In the example path the architecture is obtained without any prompt. *)
Lemma obtain_example_architecture (env : Env) (w : World) (key : string)
  (arch : ExampleArchitecture.t) :
  opt_str_truthy (Specification.example_project (initial_specification w))
    = true →
  Specification.example_project (initial_specification w) = Some key →
  EXAMPLE_PROJECTS env !! key = Some arch →
  ∃ evs w1,
    obtain_architecture env (initial_specification w) (architecture_stage w)
      = (Return (spec_of_example (initial_specification w) arch), w1)
    ∧ trace w1 = (trace w ++ evs)%list
    ∧ questions_asked evs = [].
Proof.
  intros Hexample Hkey Harch.
  unfold obtain_architecture. rewrite Hexample.
  unfold prepare_example_project. rewrite Hkey, Harch.
  eexists _, _. split; [reflexivity|]. split.
  - unfold architecture_stage. simpl. rewrite <- !app_assoc. reflexivity.
  - reflexivity.
Qed.

(** C7 (as the code has it).  Take a project whose architecture the model
    plans.  When the reply carries both lists, with a name for every
    dependency, and the operator lets the step run, [Architect.run]
    completes with [done] after showing the advisories: one for the system
    dependencies whose lower-cased name is on the denylist, then one for
    such package dependencies, then the install prompts.  Every such
    dependency is named in a prompt shown, which asks for nothing but an
    acknowledgement.  The check itself never returns anything but [True].
    When the reply lacks a list or a name, the step raises a [TypeError] or
    an [AttributeError] right after the model call: nothing is shown, no
    command is run, nothing is written.  For an example project the check
    is not made: the only prompts are the install prompts. *)
Theorem compatibility_check_on_planned_architecture (env : Env)
  (self : Agent.t) (w : World) :
  (∀ arch system package system_names package_names,
     acknowledges env →
     opt_str_truthy (Specification.example_project (initial_specification w))
       = false →
     llm_architecture env (planning_history w) technologies_convo
       = Return arch →
     Architecture.system_dependencies arch = Some system →
     Architecture.package_dependencies arch = Some package →
     mapM SystemDependency.name system = Some system_names →
     mapM PackageDependency.name package = Some package_names →
     ∃ statuses w2,
       architect_run env self w = (Return Done, w2)
       ∧ questions_asked (events_since w w2)
         = (advisories env system_names package_names
            ++ expected_install_prompts (model_dump_system <$> system)
                 statuses)%list
       ∧ (∀ name,
            (name ∈ system_names
             ∧ str_lower env name ∈ ["docker"; "kubernetes"; "microservices"])
            ∨ (name ∈ package_names
               ∧ str_lower env name
                 ∈ ["next.js"; "vue"; "vue.js"; "svelte"; "angular"]) →
            ∃ q,
              q ∈ questions_asked (events_since w w2)
              ∧ mentions (Question.question q) name
              ∧ Question.buttons q = [("continue", "Continue")]
              ∧ Question.buttons_only q = true))
  ∧ (∀ arch w0 r w',
       check_compatibility env arch w0 = (Return r, w') → r = true)
  ∧ (∀ arch,
       opt_str_truthy
         (Specification.example_project (initial_specification w)) = false →
       llm_architecture env (planning_history w) technologies_convo
         = Return arch →
       declared_names SystemDependency.name
         (Architecture.system_dependencies arch) = None
       ∨ declared_names PackageDependency.name
           (Architecture.package_dependencies arch) = None →
       ∃ e w1,
         architect_run env self w = (Raise e, w1)
         ∧ incomplete_reply e
         ∧ last (trace w1)
           = Some (EvLLM None technologies_convo (Return (Planned arch)))
         ∧ questions_asked (events_since w w1) = []
         ∧ commands_run (events_since w w1) = []
         ∧ next_state w1 = next_state w)
  ∧ (∀ key arch,
       acknowledges env →
       opt_str_truthy
         (Specification.example_project (initial_specification w)) = true →
       Specification.example_project (initial_specification w) = Some key →
       EXAMPLE_PROJECTS env !! key = Some arch →
       ∃ statuses w2,
         architect_run env self w = (Return Done, w2)
         ∧ questions_asked (events_since w w2)
           = expected_install_prompts
               (ExampleArchitecture.system_dependencies arch) statuses).
Proof.
  split; [|split; [|split]].
  - intros arch system package system_names package_names
      Hack Hnovel Hllm Hsystem Hpackage Hsn Hpn.
    destruct (obtain_planned_architecture env w arch _ _ _ _ Hack Hnovel Hllm
                Hsystem Hpackage Hsn Hpn)
      as (evs1 & w1 & Hobtain & Htr1 & Hq1).
    destruct (architect_run_after_obtain env self w w1 _ Hack Hobtain)
      as (statuses & evs2 & w2 & Hrun & _ & Htr2 & _ & _ & Hq2 & _).
    exists statuses, w2. split; [exact Hrun|].
    cbn [spec_of_architecture Specification.system_dependencies] in Hq2.
    assert (questions_asked (events_since w w2)
            = (advisories env system_names package_names
               ++ expected_install_prompts (model_dump_system <$> system)
                    statuses)%list) as Hq.
    { erewrite events_since_app;
        [|rewrite Htr2, Htr1, <- app_assoc; reflexivity].
      by rewrite questions_asked_app, Hq1, Hq2, install_prompts_expected. }
    split; [exact Hq|]. rewrite Hq.
    intros name [Hname|Hname].
    + apply unsupported_system_spec in Hname.
      exists (advisory (unsupported_system env system_names) "").
      split; [|split; [by apply advisory_mentions|done]].
      apply elem_of_app. left. unfold advisories.
      destruct (unsupported_system env system_names);
        [by apply elem_of_nil in Hname|].
      apply elem_of_app. left. apply list_elem_of_here.
    + apply unsupported_frameworks_spec in Hname.
      eexists (advisory (unsupported_frameworks env package_names) _).
      split; [|split; [by apply advisory_mentions|done]].
      apply elem_of_app. left. unfold advisories.
      destruct (unsupported_frameworks env package_names);
        [by apply elem_of_nil in Hname|].
      apply elem_of_app. right. apply list_elem_of_here.
  - intros arch w0 r w' Hrun.
    by apply check_compatibility_returns in Hrun as [-> _].
  - intros arch Hnovel Hllm Hnone.
    destruct (obtain_incomplete_architecture env w arch Hnovel Hllm Hnone)
      as (e & Hobtain & He).
    eexists e, _. split.
    { rewrite architect_run_unfold. unfold bind at 1. by rewrite Hobtain. }
    split; [exact He|]. split; [simpl; by rewrite last_snoc|].
    erewrite events_since_app;
      [|unfold architecture_stage; simpl; rewrite <- !app_assoc; reflexivity].
    done.
  - intros key arch Hack Hexample Hkey Harch.
    destruct (obtain_example_architecture env w key arch Hexample Hkey Harch)
      as (evs1 & w1 & Hobtain & Htr1 & Hq1).
    destruct (architect_run_after_obtain env self w w1 _ Hack Hobtain)
      as (statuses & evs2 & w2 & Hrun & _ & Htr2 & _ & _ & Hq2 & _).
    exists statuses, w2. split; [exact Hrun|].
    erewrite events_since_app;
      [|rewrite Htr2, Htr1, <- app_assoc; reflexivity].
    by rewrite questions_asked_app, Hq1, Hq2, install_prompts_expected.
Qed.

Lemma compatibility_check_witness :
  ∃ statuses w2,
    architect_run (sample_env UIClosedError) first_draft_agent
      (sample_world []) = (Return Done, w2)
    ∧ questions_asked (events_since (sample_world []) w2)
      = ([advisory ["Docker"] "";
          advisory ["Vue"]
            " Visit https://github.com/Pythagora-io/gpt-pilot/wiki/Using-GPT-Pilot-with-frontend-frameworks for more information."]
         ++ expected_install_prompts planned_system_dependencies statuses)%list
    ∧ ∃ q,
        q ∈ questions_asked (events_since (sample_world []) w2)
        ∧ mentions (Question.question q) "Docker"
        ∧ Question.buttons q = [("continue", "Continue")]
        ∧ Question.buttons_only q = true.
Proof.
  destruct (compatibility_check_on_planned_architecture
              (sample_env UIClosedError) first_draft_agent (sample_world []))
    as (Hplanned & _ & _).
  destruct (Hplanned sample_architecture _ _ ["Docker"; "Python"] ["Vue"]
              (sample_env_acknowledges UIClosedError) eq_refl eq_refl
              eq_refl eq_refl eq_refl eq_refl)
    as (statuses & w2 & Hrun & Hq & Hnamed).
  exists statuses, w2. split; [exact Hrun|]. split; [exact Hq|].
  apply Hnamed. left. split.
  - apply list_elem_of_here.
  - apply list_elem_of_here.
Defined.

(** C7 as stated fails for example projects: the predefined bundle declares
    Docker, whose lower-cased name is on the denylist, the step completes,
    and the operator has been shown no prompt at all. *)
Lemma example_project_skips_compatibility_check :
  fst (architect_run (sample_env UIClosedError) first_draft_agent
         example_world) = Return Done
  ∧ (∃ d name,
       d ∈ Specification.system_dependencies
             (ProjectState.specification
                (next_state
                   (snd (architect_run (sample_env UIClosedError)
                           first_draft_agent example_world))))
       ∧ SysDep.name d = Some name
       ∧ str_lower (sample_env UIClosedError) name ∈ WARN_SYSTEM_DEPS)
  ∧ questions_asked
      (trace (snd (architect_run (sample_env UIClosedError)
                     first_draft_agent example_world))) = [].
Proof.
  split; [reflexivity|]. split; [|reflexivity].
  eexists _, _. split; [apply list_elem_of_here|]. split; [reflexivity|].
  apply (bool_decide_unpack _). vm_compute. exact I.
Qed.

(** ** The session *)

Lemma probe_events_neutral (evs : list Event) :
  forallb is_probe_event evs = true →
  project_loaded evs = false
  ∧ questions_asked evs = []
  ∧ count_orchestrator_runs evs = 0.
Proof.
  unfold project_loaded, count_orchestrator_runs.
  induction evs as [|e evs IH]; [done|].
  simpl. intros [He Hevs]%andb_true_iff.
  destruct (IH Hevs) as (Hl & Hq & Ho).
  destruct e; try discriminate; simpl; by rewrite ?Hl, ?Hq, ?Ho.
Qed.

(** The loop of [llm_api_check] logs probes, messages and telemetry only. *)
Lemma llm_api_check_loop_probes (env : Env) (llms : list string) :
  ∀ (checked : gset string) (success : bool) (w : World),
    ∃ evs,
      trace (snd (llm_api_check_loop env llms checked success w))
        = (trace w ++ evs)%list
      ∧ forallb is_probe_event evs = true.
Proof.
  induction llms as [|provider rest IH]; intros checked success w.
  - exists []. by rewrite app_nil_r.
  - cbn [llm_api_check_loop]. case_bool_decide; [apply IH|].
    unfold bind at 1. unfold try_except. unfold bind at 1.
    unfold api_check.
    destruct (llm_api_probe env (trace w) provider) as [resp|e] eqn:Hprobe;
      cbn [lift_outcome]; unfold ret at 1, raise at 1; cbn [fst snd].
    + unfold ret at 1.
      match goal with
      | |- context [llm_api_check_loop env rest checked ?s ?w1] =>
          destruct (IH checked s w1) as (evs & Htr & Hall)
      end.
      exists (EvApiCheck provider (Return resp) :: evs).
      rewrite Htr. simpl. rewrite <- app_assoc. by rewrite Hall.
    + destruct e; try (unfold raise; simpl; by eexists [_]).
      unfold bind at 1, send_message, emit, ret at 1.
      match goal with
      | |- context [llm_api_check_loop env rest checked ?s ?w1] =>
          destruct (IH checked s w1) as (evs & Htr & Hall)
      end.
      eexists (_ :: _ :: evs).
      rewrite Htr. simpl. rewrite <- !app_assoc. by rewrite Hall.
Qed.

Lemma llm_api_check_probes (env : Env) (w : World) :
  ∃ evs,
    trace (snd (llm_api_check env w)) = (trace w ++ evs)%list
    ∧ forallb is_probe_event evs = true.
Proof.
  unfold llm_api_check. unfold bind at 1.
  destruct (llm_api_check_loop_probes env (config_all_llms env) ∅ true w)
    as (evs & Htr & Hall).
  destruct (llm_api_check_loop env (config_all_llms env) ∅ true w)
    as [[[]|e] w1]; simpl in *.
  - exists evs. by rewrite Htr.
  - exists (evs ++ [EvTelemetrySet "end_result" (TelStr "failure:api-error")])%list.
    rewrite Htr, app_assoc. split; [done|].
    by rewrite forallb_app, Hall.
  - by exists evs.
Qed.

Lemma args_name_a_checkpoint_spec (args : Args.t) :
  args_name_a_checkpoint args
  = args_supplied args && negb (step_zero_alone args).
Proof.
  unfold args_name_a_checkpoint, args_supplied, step_zero_alone.
  destruct (Args.project args) as [p|], (Args.branch args) as [b|],
    (Args.step args) as [z|];
    try destruct (Z.eqb_spec z 0) as [->|Hz];
    repeat case_bool_decide;
    cbn [orb andb negb];
    try done;
    try (exfalso; by eauto using @is_Some_None);
    try (exfalso; naive_solver).
Qed.

(** [start_new_project] asks for the project name, and logs nothing else
    but the creation of the project. *)
Lemma start_new_project_events (env : Env) (w : World) :
  ∃ reply rest,
    trace (snd (start_new_project env w))
      = (trace w ++ EvAskQuestion project_name_question reply :: rest)%list
    ∧ forallb is_create_project rest = true.
Proof.
  unfold start_new_project. unfold bind at 1. unfold try_except.
  unfold bind at 1. unfold ask_question.
  destruct (ui_ask_question env (trace w) project_name_question)
    as [user_input|e] eqn:Hask; cbn [lift_outcome].
  - unfold ret at 1 2.
    destruct (UserInput.cancelled user_input).
    + eexists _, []. split; reflexivity.
    + unfold bind, create_project.
      destruct (created_project env (UserInput.text user_input));
        (eexists _, [_]; split; [simpl; rewrite <- app_assoc|]; reflexivity).
  - unfold raise at 1.
    destruct e; unfold ret, raise; (eexists _, []; split; reflexivity).
Qed.

Lemma created_events_neutral (evs : list Event) :
  forallb is_create_project evs = true →
  project_loaded evs = false
  ∧ questions_asked evs = []
  ∧ count_orchestrator_runs evs = 0.
Proof.
  unfold project_loaded, count_orchestrator_runs.
  induction evs as [|e evs IH]; [done|].
  simpl. intros [He Hevs]%andb_true_iff.
  destruct (IH Hevs) as (Hl & Hq & Ho).
  destruct e; try discriminate; simpl; by rewrite ?Hl, ?Hq, ?Ho.
Qed.

Lemma project_loaded_app (evs1 evs2 : list Event) :
  project_loaded (evs1 ++ evs2) = project_loaded evs1 || project_loaded evs2.
Proof. apply existsb_app. Qed.

Lemma count_orchestrator_runs_app (evs1 evs2 : list Event) :
  count_orchestrator_runs (evs1 ++ evs2)
  = count_orchestrator_runs evs1 + count_orchestrator_runs evs2.
Proof.
  unfold count_orchestrator_runs. by rewrite List.filter_app, length_app.
Qed.

(** C9 (as the code has it).  The LLM API check comes first.  When it fails,
    the session ends with [False] and no project is loaded or started.  Once
    it has passed, the session loads an existing project iff one of project
    id, branch and step was supplied -- a step of 0 given alone not
    counting, since the arguments are tested by truthiness -- and asks for
    the name of a new project otherwise; up to the point [w2] where the
    project is there or not, the orchestrator has not run; when the chosen
    path produced no project the session ends there, with [False] or with
    the exception the path raised, and when it produced one the session
    continues as [run_project]. *)
Theorem session_loads_iff_checkpoint_named (env : Env) (args : Args.t)
  (w : World) :
  (∀ w1,
     llm_api_check env w = (Return false, w1) →
     ∃ w2,
       run_pythagora_session env args w = (Return false, w2)
       ∧ project_loaded (events_since w w2) = false
       ∧ new_project_started (events_since w w2) = false
       ∧ count_orchestrator_runs (events_since w w2) = 0)
  ∧ (∀ w1,
       llm_api_check env w = (Return true, w1) →
       ∃ w2 chosen,
         match chosen with
         | Return true =>
             run_pythagora_session env args w = run_project env w2
         | Return false =>
             run_pythagora_session env args w = (Return false, w2)
         | Raise e => run_pythagora_session env args w = (Raise e, w2)
         end
         ∧ project_loaded (events_since w w2)
           = args_supplied args && negb (step_zero_alone args)
         ∧ new_project_started (events_since w w2)
           = negb (args_supplied args && negb (step_zero_alone args))
         ∧ count_orchestrator_runs (events_since w w2) = 0
         ∧ (args_supplied args && negb (step_zero_alone args) = true →
            chosen = checkpoint_exists env args)
         ∧ (args_supplied args && negb (step_zero_alone args) = false →
            chosen = fst (start_new_project env w1))).
Proof.
  split; intros w1 Hcheck;
    destruct (llm_api_check_probes env w) as (evs0 & Htr0 & Hprobe);
    rewrite Hcheck in Htr0; cbn [snd] in Htr0;
    apply probe_events_neutral in Hprobe as (Hl0 & Hq0 & Ho0).
  { (* the check failed *)
    unfold run_pythagora_session. unfold bind at 1. rewrite Hcheck.
    cbn [negb]. unfold bind, send_message, emit, ret.
    eexists. split; [reflexivity|].
    erewrite events_since_app; [|simpl; rewrite Htr0, <- app_assoc; done].
    unfold new_project_started.
    rewrite project_loaded_app, questions_asked_app,
      count_orchestrator_runs_app, Hl0, Hq0, Ho0.
    repeat split; done. }
  rewrite <- args_name_a_checkpoint_spec.
  assert (run_pythagora_session env args w
          = (if args_name_a_checkpoint args then
               telemetry_set "is_continuation" (TelBool true) ;;;
               let* success :=
                 load_project env (Args.project args) (Args.branch args)
                   (Args.step args) in
               if negb success then ret false else run_project env
             else
               let* success := start_new_project env in
               if negb success then ret false else run_project env) w1)
    as Hsession.
  { unfold run_pythagora_session. unfold bind at 1. by rewrite Hcheck. }
  destruct (args_name_a_checkpoint args) eqn:Hnamed.
  - (* a checkpoint is named: the project is loaded *)
    unfold bind at 1, telemetry_set, emit in Hsession.
    unfold bind at 1 in Hsession.
    unfold load_project in Hsession. unfold checkpoint_exists.
    destruct (stored_project env (Args.project args) (Args.branch args)
                (Args.step args)) as [[s|]|e] eqn:Hstored;
      cbn [negb] in Hsession;
      [eexists _, (Return true)|eexists _, (Return false)
      |eexists _, (Raise e)];
      (split; [exact Hsession|]);
      (erewrite events_since_app;
       [|simpl; rewrite Htr0, <- !app_assoc; reflexivity]);
      unfold new_project_started;
      rewrite project_loaded_app, count_orchestrator_runs_app,
        questions_asked_app, Hl0, Ho0, Hq0;
      repeat split; done.
  - (* nothing is named: a new project is started *)
    destruct (start_new_project_events env w1)
      as (reply & rest & Htr1 & Hrest).
    apply created_events_neutral in Hrest as (Hl1 & Hq1 & Ho1).
    unfold bind at 1 in Hsession.
    destruct (start_new_project env w1) as [chosen w2] eqn:Hstart.
    cbn [snd fst] in *.
    exists w2, chosen. split.
    { destruct chosen as [[]|e]; exact Hsession. }
    erewrite events_since_app;
      [|rewrite Htr1, Htr0, <- !app_assoc; reflexivity].
    unfold new_project_started.
    rewrite project_loaded_app, count_orchestrator_runs_app,
      questions_asked_app, Hl0, Ho0, Hq0.
    assert (project_loaded
              (EvAskQuestion project_name_question reply :: rest) = false)
      as -> by exact Hl1.
    assert (count_orchestrator_runs
              (EvAskQuestion project_name_question reply :: rest) = 0)
      as -> by exact Ho1.
    repeat split; done.
Qed.

(** A project id and a step, with the check passed: the project is loaded.
    A step of 0 next to a branch: the project is loaded too.  No argument:
    a new project is started.  The check failed: neither. *)
Lemma session_witness :
  (∃ w2,
     run_pythagora_session (sample_env UIClosedError) resume_args
       (sample_world []) = run_project (sample_env UIClosedError) w2
     ∧ project_loaded (events_since (sample_world []) w2) = true
     ∧ new_project_started (events_since (sample_world []) w2) = false
     ∧ count_orchestrator_runs (events_since (sample_world []) w2) = 0)
  ∧ (∃ w2,
       run_pythagora_session (sample_env UIClosedError) branch_step_zero_args
         (sample_world []) = run_project (sample_env UIClosedError) w2
       ∧ project_loaded (events_since (sample_world []) w2) = true
       ∧ new_project_started (events_since (sample_world []) w2) = false)
  ∧ (∃ w2,
       run_pythagora_session (sample_env UIClosedError) fresh_args
         (sample_world []) = run_project (sample_env UIClosedError) w2
       ∧ project_loaded (events_since (sample_world []) w2) = false
       ∧ new_project_started (events_since (sample_world []) w2) = true
       ∧ count_orchestrator_runs (events_since (sample_world []) w2) = 0)
  ∧ (∃ w2,
       run_pythagora_session api_down_env resume_args (sample_world [])
         = (Return false, w2)
       ∧ project_loaded (events_since (sample_world []) w2) = false
       ∧ new_project_started (events_since (sample_world []) w2) = false
       ∧ count_orchestrator_runs (events_since (sample_world []) w2) = 0).
Proof.
  split; [|split; [|split]].
  - destruct (session_loads_iff_checkpoint_named (sample_env UIClosedError)
                resume_args (sample_world [])) as [_ Hpassed].
    destruct (Hpassed (snd (llm_api_check (sample_env UIClosedError)
                              (sample_world []))) eq_refl)
      as (w2 & chosen & Hsession & Hloaded & Hnew & Hruns & Hchosen & _).
    rewrite (Hchosen eq_refl) in Hsession.
    exists w2. repeat split; assumption.
  - destruct (session_loads_iff_checkpoint_named (sample_env UIClosedError)
                branch_step_zero_args (sample_world [])) as [_ Hpassed].
    destruct (Hpassed (snd (llm_api_check (sample_env UIClosedError)
                              (sample_world []))) eq_refl)
      as (w2 & chosen & Hsession & Hloaded & Hnew & _ & Hchosen & _).
    rewrite (Hchosen eq_refl) in Hsession.
    exists w2. repeat split; assumption.
  - destruct (session_loads_iff_checkpoint_named (sample_env UIClosedError)
                fresh_args (sample_world [])) as [_ Hpassed].
    destruct (Hpassed (snd (llm_api_check (sample_env UIClosedError)
                              (sample_world []))) eq_refl)
      as (w2 & chosen & Hsession & Hloaded & Hnew & Hruns & _ & Hchosen).
    rewrite (Hchosen eq_refl) in Hsession.
    exists w2. repeat split; assumption.
  - destruct (session_loads_iff_checkpoint_named api_down_env resume_args
                (sample_world [])) as [Hfailed _].
    exact (Hfailed (snd (llm_api_check api_down_env (sample_world [])))
             eq_refl).
Defined.

(** C9 as stated fails when the LLM API check does not pass: a project id
    and a step are supplied, yet no project is loaded and the session ends
    with [False] before any path is chosen. *)
Lemma api_check_gates_project_choice :
  args_supplied resume_args = true
  ∧ fst (run_pythagora_session api_down_env resume_args (sample_world []))
    = Return false
  ∧ project_loaded
      (trace (snd (run_pythagora_session api_down_env resume_args
                     (sample_world [])))) = false
  ∧ new_project_started
      (trace (snd (run_pythagora_session api_down_env resume_args
                     (sample_world [])))) = false.
Proof. repeat split; reflexivity. Qed.

(** A step argument of 0 is falsy in [args.project or args.branch or
    args.step]: given alone, it starts a new project. *)
Example step_zero_starts_a_new_project :
  args_supplied {| Args.project := None; Args.branch := None;
                   Args.step := Some 0%Z |} = true
  ∧ project_loaded
      (trace (snd (run_pythagora_session (sample_env UIClosedError)
                     {| Args.project := None; Args.branch := None;
                        Args.step := Some 0%Z |} (sample_world []))))
    = false
  ∧ new_project_started
      (trace (snd (run_pythagora_session (sample_env UIClosedError)
                     {| Args.project := None; Args.branch := None;
                        Args.step := Some 0%Z |} (sample_world []))))
    = true.
Proof. repeat split; reflexivity. Qed.

(** * Further properties of the code *)

(** ** [run_project] *)

(** X1. When the orchestrator returns, [run_project] returns the same boolean
    and records it as the end result; it does not call [rollback()], not even
    when the orchestrator returned [False], and leaves both snapshots as the
    orchestrator left them. *)
Theorem run_project_returns_orchestrator_result (env : Env) (w w1 : World)
  (success : bool) :
  orchestrator_run env (orchestrator_entry w) = (Return success, w1) →
  ∃ w2,
    run_project env w = (Return success, w2)
    ∧ events_since w1 w2
      = [EvTelemetrySet "end_result"
           (TelStr (if success then "success:exit" else "failure:api-error"))]
    ∧ count_rollbacks (events_since w1 w2) = 0
    ∧ current_state w2 = current_state w1
    ∧ next_state w2 = next_state w1.
Proof.
  intros Hrun.
  unfold run_project, bind, try_except, orca_run, get_world, telemetry_set,
    emit, bind.
  fold (orchestrator_entry w). rewrite Hrun. unfold ret.
  eexists. split; [reflexivity|].
  erewrite events_since_app; [|reflexivity]. done.
Qed.

Lemma run_project_result_witness :
  ∃ w2,
    run_project succeeding_env (sample_world []) = (Return false, w2)
    ∧ events_since (orchestrator_entry (sample_world [])) w2
      = [EvTelemetrySet "end_result" (TelStr "failure:api-error")]
    ∧ count_rollbacks (events_since (orchestrator_entry (sample_world [])) w2)
      = 0
    ∧ current_state w2 = sample_state []
    ∧ next_state w2 = sample_state [].
Proof.
  apply (run_project_returns_orchestrator_result succeeding_env
           (sample_world []) (orchestrator_entry (sample_world [])) false).
  reflexivity.
Defined.

(** X2. [run_project] lets no [KeyboardInterrupt] and no [Exception] of the
    orchestrator escape.  Either it returns a boolean, [True] only when the
    orchestrator returned [True]; or the orchestrator raised an exception
    that is neither ([asyncio.CancelledError], [SystemExit]), and
    [run_project] passes it on as it is: no rollback, nothing recorded after
    the failure. *)
Theorem run_project_catches_exceptions (env : Env) (w : World) :
  (∃ b w2,
     run_project env w = (Return b, w2)
     ∧ (b = true →
        fst (orchestrator_run env (orchestrator_entry w)) = Return true))
  ∨ (∃ e w1,
       orchestrator_run env (orchestrator_entry w) = (Raise e, w1)
       ∧ is_Exception e = false
       ∧ e ≠ KeyboardInterrupt
       ∧ run_project env w = (Raise e, w1)).
Proof.
  unfold run_project, bind, try_except, orca_run, get_world, telemetry_set,
    emit, bind.
  fold (orchestrator_entry w).
  destruct (orchestrator_run env (orchestrator_entry w)) as [[b|e] w1].
  - left. unfold ret. exists b. eexists. split; [reflexivity|]. by intros ->.
  - destruct e; simpl;
      unfold bind, telemetry_set, send_message, record_crash, rollback, emit,
        bind, ret, raise;
      first [ left; exists false; eexists; split; [reflexivity|discriminate]
            | right; eexists _, w1; by repeat split ].
Qed.

(** ** [llm_api_check] *)

Lemma probe_replies_app (evs1 evs2 : list Event) :
  probe_replies (evs1 ++ evs2)
  = (probe_replies evs1 ++ probe_replies evs2)%list.
Proof. apply omap_app. Qed.

(** What the loop of [llm_api_check] has done when it returns. *)
Lemma llm_api_check_loop_returns (env : Env) (llms : list string) :
  ∀ (success b : bool) (w w' : World),
    llm_api_check_loop env llms ∅ success w = (Return b, w') →
    ∃ evs,
      trace w' = (trace w ++ evs)%list
      ∧ fst <$> probe_replies evs = llms
      ∧ b = success && forallb probe_passed (probe_replies evs)
      ∧ (b = true → evs = (λ p, EvApiCheck p (Return true)) <$> llms).
Proof.
  induction llms as [|provider rest IH]; intros success b w w' Hrun.
  - injection Hrun as <- <-. exists []. rewrite app_nil_r.
    by rewrite andb_true_r.
  - cbn [llm_api_check_loop] in Hrun.
    rewrite bool_decide_eq_false_2 in Hrun by set_solver.
    unfold bind at 1 in Hrun. unfold try_except in Hrun.
    unfold bind at 1 in Hrun. unfold api_check in Hrun.
    destruct (llm_api_probe env (trace w) provider) as [resp|e] eqn:Hprobe;
      cbn [lift_outcome] in Hrun; unfold ret at 1, raise at 1 in Hrun.
    + unfold ret at 1 in Hrun.
      apply IH in Hrun as (evs & Htr & Hnames & Hb & Hall).
      exists (EvApiCheck provider (Return resp) :: evs).
      rewrite Htr. simpl. rewrite <- app_assoc.
      split; [done|]. split; [f_equal; exact Hnames|]. split.
      * rewrite Hb. unfold probe_passed at 2. simpl.
        by destruct resp, success.
      * intros ->. symmetry in Hb. apply andb_true_iff in Hb as [Hs _].
        destruct resp; [|done]. by rewrite (Hall eq_refl).
    + destruct e; try (unfold raise in Hrun; discriminate).
      unfold bind at 1, send_message, emit, ret at 1 in Hrun.
      apply IH in Hrun as (evs & Htr & Hnames & Hb & Hall).
      eexists (EvApiCheck provider (Raise (APIError message)) :: _ :: evs).
      rewrite Htr. simpl. rewrite <- !app_assoc.
      split; [reflexivity|]. split; [f_equal; exact Hnames|]. split.
      * rewrite Hb. simpl. by rewrite andb_false_r.
      * intros ->. discriminate.
Qed.

Lemma llm_api_check_loop_raises (env : Env) (llms : list string) :
  ∀ (success : bool) (e : exn) (w w' : World),
    llm_api_check_loop env llms ∅ success w = (Raise e, w') →
    ∀ message, e ≠ APIError message.
Proof.
  induction llms as [|provider rest IH]; intros success e w w' Hrun.
  - discriminate.
  - cbn [llm_api_check_loop] in Hrun.
    rewrite bool_decide_eq_false_2 in Hrun by set_solver.
    unfold bind at 1 in Hrun. unfold try_except in Hrun.
    unfold bind at 1 in Hrun. unfold api_check in Hrun.
    destruct (llm_api_probe env (trace w) provider) as [resp|e0] eqn:Hprobe;
      cbn [lift_outcome] in Hrun; unfold ret at 1, raise at 1 in Hrun.
    + unfold ret at 1 in Hrun. by eapply IH.
    + destruct e0;
        try (unfold raise in Hrun; injection Hrun as <- _; discriminate).
      unfold bind at 1, send_message, emit, ret at 1 in Hrun.
      by eapply IH.
Qed.

(** X3. When [llm_api_check] returns, it has probed every entry of
    [config.all_llms()] once, in order -- an entry whose provider was already
    probed included, since nothing is ever added to [checked_llms] -- and its
    result is [True] iff every probe was answered with a truthy value.  A
    successful check has logged the probes and nothing else; a failed one
    ends by recording ["failure:api-error"] as the end result. *)
Theorem llm_api_check_probes_every_entry (env : Env) (w w' : World)
  (b : bool) :
  llm_api_check env w = (Return b, w') →
  fst <$> probe_replies (events_since w w') = config_all_llms env
  ∧ b = forallb probe_passed (probe_replies (events_since w w'))
  ∧ (b = true →
     events_since w w'
     = (λ p, EvApiCheck p (Return true)) <$> config_all_llms env)
  ∧ (b = false →
     last (events_since w w')
     = Some (EvTelemetrySet "end_result" (TelStr "failure:api-error"))).
Proof.
  unfold llm_api_check. unfold bind at 1. intros Hrun.
  destruct (llm_api_check_loop env (config_all_llms env) ∅ true w)
    as [[success|e] w1] eqn:Hloop; [|discriminate].
  apply llm_api_check_loop_returns in Hloop
    as (evs & Htr & Hnames & Hb & Hall).
  destruct success.
  - unfold bind, ret in Hrun. injection Hrun as <- <-.
    rewrite (events_since_app _ _ _ Htr). repeat split; done.
  - unfold bind, telemetry_set, emit, ret in Hrun. injection Hrun as <- <-.
    erewrite events_since_app;
      [|simpl; rewrite Htr, <- app_assoc; reflexivity].
    rewrite probe_replies_app. simpl. rewrite app_nil_r.
    repeat split; try done.
    intros _. by rewrite last_snoc.
Qed.

Lemma llm_api_check_witness :
  fst <$> probe_replies
            (events_since (sample_world [])
               (snd (llm_api_check succeeding_env (sample_world []))))
    = ["openai"; "anthropic"; "openai"]
  ∧ true
    = forallb probe_passed
        (probe_replies
           (events_since (sample_world [])
              (snd (llm_api_check succeeding_env (sample_world [])))))
  ∧ (true = true →
     events_since (sample_world [])
       (snd (llm_api_check succeeding_env (sample_world [])))
     = (λ p, EvApiCheck p (Return true)) <$> ["openai"; "anthropic"; "openai"])
  ∧ (true = false →
     last (events_since (sample_world [])
             (snd (llm_api_check succeeding_env (sample_world []))))
     = Some (EvTelemetrySet "end_result" (TelStr "failure:api-error"))).
Proof.
  apply (llm_api_check_probes_every_entry succeeding_env (sample_world [])
           (snd (llm_api_check succeeding_env (sample_world []))) true).
  reflexivity.
Defined.

(** X4. An [APIError] raised by a probe never escapes [llm_api_check]: the
    only exceptions it lets through are of other classes. *)
Theorem llm_api_check_catches_api_errors (env : Env) (w : World)
  (message : string) :
  fst (llm_api_check env w) ≠ Raise (APIError message).
Proof.
  unfold llm_api_check. unfold bind at 1.
  destruct (llm_api_check_loop env (config_all_llms env) ∅ true w)
    as [[success|e] w1] eqn:Hloop.
  - by destruct success.
  - simpl. intros [= ->].
    by eapply llm_api_check_loop_raises.
Qed.

(** ** [run_pythagora_session] and [start_new_project] *)

(** X5. When the API check fails, the session tells the operator that the LLM
    API is not reachable and ends with [False] at once: no project is loaded
    or created, nothing is asked, and the orchestrator does not run. *)
Theorem session_stops_when_api_unreachable (env : Env) (args : Args.t)
  (w w1 : World) :
  llm_api_check env w = (Return false, w1) →
  ∃ w2,
    run_pythagora_session env args w = (Return false, w2)
    ∧ last (events_since w w2)
      = Some (EvSendMessage
                "Pythagora cannot start because the LLM API is not reachable.")
    ∧ project_loaded (events_since w w2) = false
    ∧ projects_created (events_since w w2) = []
    ∧ questions_asked (events_since w w2) = []
    ∧ count_orchestrator_runs (events_since w w2) = 0.
Proof.
  intros Hcheck.
  destruct (llm_api_check_probes env w) as (evs0 & Htr0 & Hprobe).
  rewrite Hcheck in Htr0. cbn [snd] in Htr0.
  assert (projects_created evs0 = []) as Hcreated.
  { clear Htr0. induction evs0 as [|e evs IH]; [done|].
    simpl in Hprobe. apply andb_true_iff in Hprobe as [He Hevs].
    destruct e; try discriminate; simpl; by apply IH. }
  apply probe_events_neutral in Hprobe as (Hl0 & Hq0 & Ho0).
  unfold run_pythagora_session. unfold bind at 1. rewrite Hcheck.
  cbn [negb]. unfold bind, send_message, emit, ret.
  eexists. split; [reflexivity|].
  erewrite events_since_app; [|simpl; rewrite Htr0, <- app_assoc; done].
  rewrite last_snoc, project_loaded_app, questions_asked_app,
    count_orchestrator_runs_app, Hl0, Hq0, Ho0.
  unfold projects_created in *. rewrite omap_app, Hcreated. done.
Qed.

Lemma session_api_unreachable_witness :
  ∃ w2,
    run_pythagora_session api_down_env fresh_args (sample_world [])
      = (Return false, w2)
    ∧ last (events_since (sample_world []) w2)
      = Some (EvSendMessage
                "Pythagora cannot start because the LLM API is not reachable.")
    ∧ project_loaded (events_since (sample_world []) w2) = false
    ∧ projects_created (events_since (sample_world []) w2) = []
    ∧ questions_asked (events_since (sample_world []) w2) = []
    ∧ count_orchestrator_runs (events_since (sample_world []) w2) = 0.
Proof.
  apply (session_stops_when_api_unreachable api_down_env fresh_args
           (sample_world [])
           (snd (llm_api_check api_down_env (sample_world [])))).
  reflexivity.
Defined.

(** [start_new_project], case by case on the operator's reply. *)
Lemma start_new_project_cases (env : Env) (w : World) :
  start_new_project env w
  = let reply := ui_ask_question env (trace w) project_name_question in
    let w1 := log_event (EvAskQuestion project_name_question reply) w in
    match reply with
    | Return input =>
        if UserInput.cancelled input then (Return false, w1)
        else
          match created_project env (UserInput.text input) with
          | Some s =>
              (Return true,
               log_event (EvCreateProject (UserInput.text input) true)
                 (with_states s s w1))
          | None =>
              (Return false,
               log_event (EvCreateProject (UserInput.text input) false) w1)
          end
    | Raise KeyboardInterrupt | Raise UIClosedError => (Return false, w1)
    | Raise e => (Raise e, w1)
    end.
Proof.
  unfold start_new_project, bind, try_except, ask_question.
  destruct (ui_ask_question env (trace w) project_name_question)
    as [input|e]; cbn [lift_outcome].
  - unfold ret. destruct (UserInput.cancelled input); [done|].
    unfold create_project.
    destruct (created_project env (UserInput.text input)); [|done].
    by rewrite bool_decide_eq_true_2 by by eexists.
  - by destruct e.
Qed.

(** X6. [start_new_project] never raises [KeyboardInterrupt] or
    [UIClosedError]; it calls [create_project] at most once, and only with the
    text of an answer that was not cancelled; and it returns [True] exactly
    when that call gave a project. *)
Theorem start_new_project_creates_only_when_answered (env : Env)
  (w : World) :
  fst (start_new_project env w) ≠ Raise KeyboardInterrupt
  ∧ fst (start_new_project env w) ≠ Raise UIClosedError
  ∧ (fst (start_new_project env w) = Return true
     ↔ ∃ name,
         projects_created (events_since w (snd (start_new_project env w)))
         = [(name, true)])
  ∧ (∀ name created,
       (name, created)
       ∈ projects_created (events_since w (snd (start_new_project env w))) →
       projects_created (events_since w (snd (start_new_project env w)))
       = [(name, created)]
       ∧ ∃ input,
           ui_ask_question env (trace w) project_name_question = Return input
           ∧ UserInput.cancelled input = false
           ∧ UserInput.text input = name).
Proof.
  rewrite start_new_project_cases. cbv zeta.
  assert (∀ (o : Outcome bool) (w1 : World),
            o = Return false ∨ (∃ e, o = Raise e ∧ e ≠ KeyboardInterrupt
                                     ∧ e ≠ UIClosedError) →
            projects_created (events_since w w1) = [] →
            o ≠ Raise KeyboardInterrupt
            ∧ o ≠ Raise UIClosedError
            ∧ (o = Return true
               ↔ ∃ name, projects_created (events_since w w1) = [(name, true)])
            ∧ (∀ name created,
                 (name, created) ∈ projects_created (events_since w w1) →
                 projects_created (events_since w w1) = [(name, created)]
                 ∧ ∃ input,
                     ui_ask_question env (trace w) project_name_question
                       = Return input
                     ∧ UserInput.cancelled input = false
                     ∧ UserInput.text input = name)) as Hnone.
  { intros o w1 Ho Hcreated. rewrite Hcreated.
    split; [destruct Ho as [->|(e & -> & ? & ?)]; congruence|].
    split; [destruct Ho as [->|(e & -> & ? & ?)]; congruence|].
    split.
    - split; [|by intros [name [=]]].
      destruct Ho as [->|(e & -> & _)]; discriminate.
    - intros name created Hin. by apply elem_of_nil in Hin. }
  destruct (ui_ask_question env (trace w) project_name_question)
    as [input|e] eqn:Hask.
  - destruct (UserInput.cancelled input) eqn:Hcancelled.
    + cbn [fst snd]. apply Hnone; [by left|].
      erewrite events_since_app; [|reflexivity]. done.
    + destruct (created_project env (UserInput.text input)) as [s|];
        cbn [fst snd];
        (erewrite events_since_app;
         [|simpl; rewrite <- app_assoc; reflexivity]);
        cbn [projects_created omap list_omap].
      * split; [discriminate|]. split; [discriminate|]. split.
        -- split; [by eexists|done].
        -- intros name created Hin.
           apply list_elem_of_singleton in Hin as [= -> ->].
           split; [done|]. by exists input.
      * split; [discriminate|]. split; [discriminate|]. split.
        -- split; [discriminate|by intros [name [=]]].
        -- intros name created Hin.
           apply list_elem_of_singleton in Hin as [= -> ->].
           split; [done|]. by exists input.
  - destruct e; cbn [fst snd];
      (apply Hnone;
       [|erewrite events_since_app; [|reflexivity]; done]);
      first [by left | right; eexists; repeat split; discriminate].
Qed.

(** ** [CodeMonkey.implement_changes] *)

Ltac run_implement_changes env self :=
  unfold implement_changes, bind, get_file_by_path, get_world;
  unfold handle_previous_response;
  destruct (extract_iteration_data _ _) as [[? ?] ?] eqn:?;
  destruct (Agent.prev_response self) as [[| |? ? ? ? ?|? ? ? ?|?]|] eqn:?;
  unfold bind, send_message, set_next_action, emit, ret; simpl;
  unfold llm_call_code; simpl;
  match goal with
  | |- context [llm_code env ?h ?c] => destruct (llm_code env h c) eqn:?
  end; simpl.

(** X7. Whatever its outcome, [implement_changes] calls the model exactly
    once, leaves the committed snapshot as it is, and changes nothing of the
    working snapshot but its [action] label: no file is written by this
    agent. *)
Theorem implement_changes_only_proposes (env : Env) (self : Agent.t)
  (w : World) :
  count_llm_calls (events_since w (snd (implement_changes env self w))) = 1
  ∧ current_state (snd (implement_changes env self w)) = current_state w
  ∧ ∃ label,
      next_state (snd (implement_changes env self w))
      = ProjectState.set_action label (next_state w).
Proof.
  run_implement_changes env self;
    (split; [erewrite events_since_app;
               [|simpl; rewrite <- ?app_assoc; reflexivity]; reflexivity|]);
    (split; [reflexivity|]);
    first [ by eexists
          | exists (ProjectState.action (next_state w));
            by destruct (next_state w) ].
Qed.







(** X9. The response [implement_changes] returns proposes the model's reply
    as the new content of the file of the step, to be reviewed against the
    content the committed snapshot has for that path (the empty string when it
    has no such file) and against the instructions of the task -- also when
    the prompt was written from an iteration. *)
Theorem implement_changes_reviews_against_committed (env : Env)
  (self : Agent.t) (w w' : World) (r : AgentResponse) :
  implement_changes env self w = (Return r, w') →
  ∃ new_content attempt,
    r = CodeReview (Agent.step_save_file_path self)
          (Task.instructions (ProjectState.current_task (current_state w)))
          (committed_content w (Agent.step_save_file_path self))
          new_content attempt
    ∧ llm_replies (events_since w w') = [Return (CodeBlock new_content)].
Proof.
  unfold committed_content, current_files.
  run_implement_changes env self; intros [= <- <-];
    do 2 eexists; (split; [reflexivity|]);
    (erewrite events_since_app;
     [|simpl; rewrite <- ?app_assoc; reflexivity]); reflexivity.
Qed.

Lemma implement_changes_payload_witness :
  ∃ new_content attempt,
    fst (implement_changes (sample_env UIClosedError) nested_draft_agent
           (sample_world [util_py]))
    = Return (CodeReview "src/views/list.py" "Add the list view" ""
                new_content attempt).
Proof.
  destruct (implement_changes (sample_env UIClosedError) nested_draft_agent
              (sample_world [util_py])) as [[r|e] w'] eqn:Hrun.
  - destruct (implement_changes_reviews_against_committed
                (sample_env UIClosedError) nested_draft_agent
                (sample_world [util_py]) w' r Hrun)
      as (new_content & attempt & -> & _).
    by exists new_content, attempt.
  - vm_compute in Hrun. discriminate.
Defined.

(** X10. What the model is sent.  Every conversation starts with the
    [implement_changes] template, whose instructions are the description of
    the latest iteration when the task has iterations and the task's own
    instructions otherwise.  After [CODE_REVIEW_FEEDBACK] with a non-empty
    feedback, the previous proposal and the [review_feedback] template (the
    approved content, the committed content, the feedback) follow; after any
    other response, or a feedback that is the empty string, nothing
    follows. *)
Theorem implement_changes_prompt (env : Env) (self : Agent.t) (w : World) :
  (∀ new_content approved_content feedback attempt,
     Agent.prev_response self
       = Some (CodeReviewFeedback new_content approved_content feedback
                 attempt) →
     feedback ≠ "" →
     llm_convos (events_since w (snd (implement_changes env self w)))
     = [implement_template w (Agent.step_save_file_path self)
        :: review_items w (Agent.step_save_file_path self) new_content
             approved_content feedback])
  ∧ ((is_code_review_feedback (Agent.prev_response self) = false
      ∨ ∃ new_content approved_content attempt,
          Agent.prev_response self
          = Some (CodeReviewFeedback new_content approved_content "" attempt))
     →
     llm_convos (events_since w (snd (implement_changes env self w)))
     = [[implement_template w (Agent.step_save_file_path self)]]).
Proof.
  unfold implement_template, review_items, committed_content, current_files.
  split.
  - intros nc ac fb n Hprev Hfb.
    unfold implement_changes, bind, get_file_by_path, get_world.
    unfold handle_previous_response, extract_iteration_data.
    rewrite Hprev.
    destruct (last (ProjectState.iterations (current_state w))) as [it|];
      unfold bind, send_message, set_next_action, emit, ret; simpl;
      unfold llm_call_code, prepare_conversation; simpl; rewrite Hprev;
      rewrite (str_truthy_nonempty _ Hfb);
      match goal with
      | |- context [llm_code env ?h ?c] => destruct (llm_code env h c)
      end; simpl;
      (erewrite events_since_app;
       [|simpl; rewrite <- ?app_assoc; reflexivity]); reflexivity.
  - intros Hprev.
    unfold implement_changes, bind, get_file_by_path, get_world.
    unfold handle_previous_response, extract_iteration_data.
    destruct (last (ProjectState.iterations (current_state w))) as [it|];
      destruct Hprev as [Hprev|(nc & ac & n & Hprev)];
      try rewrite Hprev;
      try (destruct (Agent.prev_response self)
             as [[| |? ? ? ? ?|? ? ? ?|?]|] eqn:Hp; try discriminate);
      unfold bind, send_message, set_next_action, emit, ret; simpl;
      unfold llm_call_code, prepare_conversation; simpl;
      try rewrite Hp; try rewrite Hprev; simpl;
      match goal with
      | |- context [llm_code env ?h ?c] => destruct (llm_code env h c)
      end; simpl;
      (erewrite events_since_app;
       [|simpl; rewrite <- ?app_assoc; reflexivity]); reflexivity.
Qed.

Lemma implement_changes_prompt_witness :
  llm_convos
    (events_since (sample_world [util_py])
       (snd (implement_changes (sample_env UIClosedError) reworking_agent
               (sample_world [util_py]))))
  = [implement_template (sample_world [util_py]) "util.py"
     :: review_items (sample_world [util_py]) "util.py" "print(1)" "print(0)"
          "Use logging"].
Proof.
  destruct (implement_changes_prompt (sample_env UIClosedError)
              reworking_agent (sample_world [util_py])) as [Hrework _].
  apply (Hrework "print(1)" "print(0)" "Use logging" 1%Z);
    [reflexivity|discriminate].
Defined.

(** ** [CodeMonkey.describe_files], further *)

(** A pass of the loop that a model call interrupts has described the files
    before the one it was asking about, and has left that file and those
    after it alone. *)
Lemma describe_loop_interrupted (env : Env) (todo : gmap string string)
  (fs : list File.t) :
  ∀ (i : nat) (w w' : World) (e : exn),
    drop i (next_files w) = fs →
    describe_loop env todo i fs w = (Raise e, w') →
    ∃ pre f post pre' evs content,
      fs = (pre ++ f :: post)%list
      ∧ described (DESCRIBE_FILES_AGENT_NAME env) todo pre pre' evs
      ∧ next_files w' = (take i (next_files w) ++ pre' ++ f :: post)%list
      ∧ todo !! File.path f = Some content
      ∧ content ≠ ""
      ∧ trace w'
        = (trace w ++ evs
           ++ [describing_message f;
               EvLLM (Some (DESCRIBE_FILES_AGENT_NAME env))
                 (describe_file_convo (File.path f) content) (Raise e)])%list
      ∧ current_state w' = current_state w.
Proof.
  induction fs as [|f0 rest IH]; intros i w w' e Hdrop Hrun; [discriminate|].
  pose proof Hdrop as Hdrop0.
  apply drop_cons_lookup in Hdrop as [Hi Hrest].
  simpl in Hrun. unfold bind at 1 in Hrun. unfold describe_one in Hrun.
  destruct (todo !! File.path f0) as [content|] eqn:Htodo.
  - case_bool_decide as Hc.
    + subst content. unfold set_next_file_meta in Hrun.
      apply IH in Hrun
        as (pre & f & post & pre' & evs & c & -> & Hd & Hfs & Hf & Hne
            & Htr & Hcur).
      2:{ unfold next_files in *. simpl. rewrite drop_alter_lt by lia.
          exact Hrest. }
      unfold next_files in *. simpl in *.
      eexists (f0 :: pre), f, post, (_ :: pre'), evs, c.
      repeat split; [by apply described_empty| |done|done|done|done].
      rewrite Hfs.
      rewrite (take_S_r _ _ (File.set_meta
                 (described_meta (File.meta f0) "Empty file" []) f0)).
      * rewrite take_alter_ge by lia. by rewrite <- app_assoc.
      * by rewrite list_lookup_alter_eq, Hi.
    + unfold bind at 1 in Hrun. unfold send_message, emit in Hrun.
      unfold bind at 1 in Hrun. unfold llm_call_file_description in Hrun.
      simpl in Hrun.
      match type of Hrun with
      | context [llm_file_description env ?h ?c] =>
          destruct (llm_file_description env h c) as [fd|e0] eqn:Hl
      end; simpl in Hrun.
      * unfold set_next_file_meta in Hrun.
        apply IH in Hrun
          as (pre & f & post & pre' & evs & c & -> & Hd & Hfs & Hf & Hne
              & Htr & Hcur).
        2:{ unfold next_files in *. simpl. rewrite drop_alter_lt by lia.
            exact Hrest. }
        unfold next_files in *. simpl in *.
        eexists (f0 :: pre), f, post, (_ :: pre'), (_ :: _ :: evs), c.
        repeat split;
          [by apply described_llm| |done|done| |done].
        -- rewrite Hfs.
           rewrite (take_S_r _ _ (File.set_meta
                      (described_meta (File.meta f0)
                         (FileDescription.summary fd)
                         (FileDescription.references fd)) f0)).
           ++ rewrite take_alter_ge by lia. by rewrite <- app_assoc.
           ++ by rewrite list_lookup_alter_eq, Hi.
        -- rewrite Htr. simpl. by rewrite <- !app_assoc.
      * injection Hrun as <- <-.
        exists [], f0, rest, [], [], content.
        repeat split; [constructor| |done|done|].
        -- unfold next_files in *. simpl.
           rewrite <- Hdrop0. by rewrite take_drop.
        -- simpl. by rewrite <- app_assoc.
  - unfold ret in Hrun.
    apply IH in Hrun
      as (pre & f & post & pre' & evs & c & -> & Hd & Hfs & Hf & Hne
          & Htr & Hcur); [|exact Hrest].
    exists (f0 :: pre), f, post, (f0 :: pre'), evs, c.
    repeat split; [by apply described_skip| |done|done|done|done].
    rewrite Hfs, (take_S_r _ _ f0) by done. by rewrite <- app_assoc.
Qed.

(** X11. When a model call raises in the middle of [describe_files], the
    exception escapes, the files before the one being described keep the
    metadata already written to the working snapshot, and that file and every
    file after it are exactly as they were; the committed snapshot is
    untouched. *)
Theorem describe_files_keeps_partial_progress (env : Env) (self : Agent.t)
  (w w' : World) (e : exn) :
  describe_files env self w = (Raise e, w') →
  ∃ pre f post pre' evs agent_name convo,
    next_files w = (pre ++ f :: post)%list
    ∧ next_files w' = (pre' ++ f :: post)%list
    ∧ described (DESCRIBE_FILES_AGENT_NAME env)
        (to_describe (current_files w)) pre pre' evs
    ∧ sent_to_model (to_describe (current_files w)) f = true
    ∧ last (trace w') = Some (EvLLM agent_name convo (Raise e))
    ∧ current_state w' = current_state w.
Proof.
  unfold describe_files, bind, get_world. intros Hrun.
  destruct (describe_loop env (to_describe (ProjectState.files
              (current_state w))) 0 (ProjectState.files (next_state w)) w)
    as [[[]|e0] w1] eqn:Hloop; [discriminate|].
  injection Hrun as <- <-.
  apply describe_loop_interrupted in Hloop
    as (pre & f & post & pre' & evs & c & Hfs & Hd & Hfs' & Hf & Hne
        & Htr & Hcur); [|done].
  exists pre, f, post, pre', evs. do 2 eexists.
  split; [exact Hfs|]. split; [exact Hfs'|]. split; [exact Hd|].
  split; [|split; [|exact Hcur]].
  - unfold sent_to_model, current_files. rewrite Hf.
    by apply str_truthy_nonempty.
  - rewrite Htr, app_assoc.
    match goal with
    | |- last (?l ++ [?a; ?b]) = _ =>
        change (l ++ [a; b])%list with (l ++ ([a] ++ [b]))%list
    end.
    rewrite app_assoc. apply last_snoc.
Qed.

Lemma describe_files_partial_progress_witness :
  ∃ pre f post pre' evs agent_name convo,
    next_files (sample_world [app_py; util_py; readme_md])
      = (pre ++ f :: post)%list
    ∧ next_files
        (snd (describe_files failing_model_env describing_agent
                (sample_world [app_py; util_py; readme_md])))
      = (pre' ++ f :: post)%list
    ∧ described (DESCRIBE_FILES_AGENT_NAME failing_model_env)
        (to_describe
           (current_files (sample_world [app_py; util_py; readme_md])))
        pre pre' evs
    ∧ sent_to_model
        (to_describe
           (current_files (sample_world [app_py; util_py; readme_md]))) f
      = true
    ∧ last (trace
              (snd (describe_files failing_model_env describing_agent
                      (sample_world [app_py; util_py; readme_md]))))
      = Some (EvLLM agent_name convo (Raise (APIError "overloaded")))
    ∧ current_state
        (snd (describe_files failing_model_env describing_agent
                (sample_world [app_py; util_py; readme_md])))
      = current_state (sample_world [app_py; util_py; readme_md]).
Proof.
  apply (describe_files_keeps_partial_progress failing_model_env
           describing_agent (sample_world [app_py; util_py; readme_md])
           (snd (describe_files failing_model_env describing_agent
                   (sample_world [app_py; util_py; readme_md])))
           (APIError "overloaded")).
  reflexivity.
Defined.

(** The dictionary has no entry for a path unless some committed file with
    this path lacks a description. *)
Lemma to_describe_absent (fs : list File.t) (p : string) :
  (∀ g, g ∈ fs → File.path g = p → lacks_description g = false) →
  to_describe fs !! p = None.
Proof.
  unfold to_describe.
  assert (∀ d : gmap string string,
            (∀ g, g ∈ fs → File.path g = p → lacks_description g = false) →
            foldl (λ d f, if lacks_description f
                          then <[File.path f := File.content f]> d else d)
              d fs !! p = d !! p) as Hacc.
  { induction fs as [|g rest IH]; intros d Hfs; [done|]. simpl.
    rewrite IH by (intros g' Hg'; apply Hfs; by right).
    destruct (lacks_description g) eqn:Hg; [|done].
    rewrite lookup_insert_ne; [done|].
    intros Hp. specialize (Hfs g (list_elem_of_here _ _) Hp). congruence. }
  intros Hfs. by rewrite Hacc.
Qed.

(** X12. [describe_files] decides from the committed snapshot which files to
    describe: a file of the working snapshot whose path belongs to no
    committed file lacking a description -- a file added in this step, for
    one -- keeps its metadata and is not sent to the model, even if it has no
    description itself. *)
Theorem describe_files_skips_files_not_pending_in_committed (env : Env)
  (self : Agent.t) (w w' : World) (r : AgentResponse) :
  describe_files env self w = (Return r, w') →
  ∀ (i : nat) (f : File.t),
    next_files w !! i = Some f →
    (∀ g, g ∈ current_files w → File.path g = File.path f →
          lacks_description g = false) →
    next_files w' !! i = Some f
    ∧ describe_replies (File.path f) (events_since w w') = [].
Proof.
  intros Hrun i f Hi Hcommitted.
  apply describe_files_returns in Hrun as (_ & evs & Htr & _ & Hd).
  rewrite (events_since_app _ _ _ Htr).
  pose proof (to_describe_absent _ _ Hcommitted) as Htodo.
  destruct (described_lookup _ _ _ _ _ Hd i f Hi)
    as (f' & Hi' & _ & _ & Hsame & _).
  rewrite (Hsame Htodo) in Hi'. split; [done|].
  eapply described_no_reply; [exact Hd|]. intros g _ _. by left.
Qed.

Lemma describe_files_skips_witness :
  next_files
    (snd (describe_files (sample_env UIClosedError) describing_agent
            drifted_world)) !! 1 = Some notes_txt
  ∧ describe_replies "notes.txt"
      (events_since drifted_world
         (snd (describe_files (sample_env UIClosedError) describing_agent
                 drifted_world))) = [].
Proof.
  destruct (describe_files (sample_env UIClosedError) describing_agent
              drifted_world) as [[r|e] w'] eqn:Hrun.
  - apply (describe_files_skips_files_not_pending_in_committed
             (sample_env UIClosedError) describing_agent drifted_world w' r
             Hrun 1 notes_txt eq_refl).
    intros g Hg Hpath. apply list_elem_of_singleton in Hg as ->.
    reflexivity.
  - vm_compute in Hrun. discriminate.
Defined.

(** X13. After a completed [describe_files] (working snapshot cloned from the
    committed one, distinct paths), a file still lacks a description exactly
    when the model was asked about it and answered with an empty summary:
    empty files and files that had a description are settled, and a file
    described with an empty summary will be pending again. *)
Theorem describe_files_leaves_pending_only_empty_summaries (env : Env)
  (self : Agent.t) (w w' : World) (r : AgentResponse) :
  describe_files env self w = (Return r, w') →
  next_files w = current_files w →
  NoDup (File.path <$> current_files w) →
  ∀ (i : nat) (f f' : File.t),
    next_files w !! i = Some f →
    next_files w' !! i = Some f' →
    lacks_description f' = true
    ↔ ∃ fd,
        describe_replies (File.path f) (events_since w w')
          = [Return (Described fd)]
        ∧ FileDescription.summary fd = "".
Proof.
  intros Hrun Hclone Hnd i f f' Hi Hi'.
  apply describe_files_returns in Hrun as (_ & evs & Htr & _ & Hd).
  rewrite (events_since_app _ _ _ Htr).
  assert (to_describe (current_files w) !! File.path f
          = if lacks_description f then Some (File.content f) else None)
    as Htodo.
  { apply to_describe_lookup; [done|].
    rewrite <- Hclone. by eapply list_elem_of_lookup_2. }
  destruct (lacks_description f) eqn:Hlacks.
  - destruct (decide (File.content f = "")) as [Hempty|Hne].
    + (* the sentinel is a description *)
      rewrite Hempty in Htodo.
      destruct (described_lookup _ _ _ _ _ Hd i f Hi)
        as (f0 & Hi0 & _ & _ & _ & Hsentinel).
      rewrite Hi' in Hi0. injection Hi0 as <-.
      rewrite (Hsentinel Htodo).
      rewrite (described_no_reply _ _ _ _ _ (File.path f) Hd)
        by (intros; by right).
      split; [|by intros (fd & [=] & _)].
      unfold lacks_description, described_meta. simpl.
      rewrite lookup_insert_ne by done. rewrite lookup_insert_eq.
      discriminate.
    + destruct (described_llm_once _ _ _ _ _ Hd
                  ltac:(by rewrite Hclone) i f _ Hi Htodo Hne)
        as (fd & Hi0 & Hreplies).
      rewrite Hi' in Hi0. injection Hi0 as ->. rewrite Hreplies.
      unfold lacks_description, described_meta. simpl.
      rewrite lookup_insert_ne by done. rewrite lookup_insert_eq. simpl.
      split.
      * intros Hs. exists fd. split; [done|].
        by destruct (FileDescription.summary fd).
      * intros (fd' & [= <-] & ->). done.
  - destruct (described_lookup _ _ _ _ _ Hd i f Hi)
      as (f0 & Hi0 & _ & _ & Hsame & _).
    rewrite Hi' in Hi0. injection Hi0 as <-. rewrite (Hsame Htodo), Hlacks.
    rewrite (described_no_reply _ _ _ _ _ (File.path f) Hd)
      by (intros; by left).
    split; [discriminate|by intros (fd & [=] & _)].
Qed.

Lemma describe_files_pending_witness :
  lacks_description
    (File.set_meta (described_meta ∅ "" []) util_py) = true
  ↔ ∃ fd,
      describe_replies "util.py"
        (events_since (sample_world [app_py; util_py; readme_md])
           (snd (describe_files terse_model_env describing_agent
                   (sample_world [app_py; util_py; readme_md]))))
        = [Return (Described fd)]
      ∧ FileDescription.summary fd = "".
Proof.
  destruct (describe_files terse_model_env describing_agent
              (sample_world [app_py; util_py; readme_md]))
    as [[r|e] w'] eqn:Hrun.
  - apply (describe_files_leaves_pending_only_empty_summaries
             terse_model_env describing_agent
             (sample_world [app_py; util_py; readme_md]) w' r Hrun eq_refl
             ltac:(apply (bool_decide_unpack _); vm_compute; exact I)
             1 util_py).
    + reflexivity.
    + vm_compute in Hrun. injection Hrun as _ <-. reflexivity.
  - vm_compute in Hrun. discriminate.
Defined.

Lemma described_paths_of_described (agent_name : string)
  (todo : gmap string string) (fs fs' : list File.t) (evs : list Event) :
  described agent_name todo fs fs' evs →
  described_paths evs = File.path <$> List.filter (sent_to_model todo) fs.
Proof.
  unfold sent_to_model.
  induction 1 as [|f0 fs fs' evs Ht _ IH|f0 fs fs' evs Ht _ IH
                 |f0 fs fs' evs c fd Ht Hne _ IH]; simpl.
  - reflexivity.
  - by rewrite Ht.
  - by rewrite Ht.
  - rewrite Ht, (str_truthy_nonempty _ Hne).
    unfold described_paths in *. simpl. by rewrite IH.
Qed.

(** X14. A completed [describe_files] (working snapshot cloned from the
    committed one, distinct paths) has asked the model about the non-empty
    files lacking a description in the order in which the working snapshot
    lists them, once each, and about no other file. *)
Theorem describe_files_asks_in_file_order (env : Env) (self : Agent.t)
  (w w' : World) (r : AgentResponse) :
  describe_files env self w = (Return r, w') →
  next_files w = current_files w →
  NoDup (File.path <$> current_files w) →
  described_paths (events_since w w')
  = File.path <$> List.filter needs_model (next_files w).
Proof.
  intros Hrun Hclone Hnd.
  apply describe_files_returns in Hrun as (_ & evs & Htr & _ & Hd).
  rewrite (events_since_app _ _ _ Htr).
  rewrite (described_paths_of_described _ _ _ _ _ Hd). f_equal.
  apply List.filter_ext_in. intros f Hf. unfold sent_to_model.
  rewrite to_describe_lookup; [|done|].
  - unfold needs_model. by destruct (lacks_description f).
  - rewrite <- Hclone. by apply list_elem_of_In.
Qed.

Lemma describe_files_order_witness :
  described_paths
    (events_since (sample_world [util_py; app_py; readme_md; main_py])
       (snd (describe_files (sample_env UIClosedError) describing_agent
               (sample_world [util_py; app_py; readme_md; main_py]))))
  = ["util.py"; "main.py"].
Proof.
  destruct (describe_files (sample_env UIClosedError) describing_agent
              (sample_world [util_py; app_py; readme_md; main_py]))
    as [[r|e] w'] eqn:Hrun.
  - apply (describe_files_asks_in_file_order (sample_env UIClosedError)
             describing_agent
             (sample_world [util_py; app_py; readme_md; main_py]) w' r Hrun
             eq_refl).
    apply (bool_decide_unpack _). vm_compute. exact I.
  - vm_compute in Hrun. discriminate.
Defined.

(** ** [CodeMonkey.run] *)

(** X15. The tag of the previous response alone decides what
    [CodeMonkey.run] does.  After [DESCRIBE_FILES] it answers [done], and
    every model call it made was a request to describe a file; after any
    other response, or none, it answers with a [CODE_REVIEW] proposal for the
    file of the step, and never with [done]. *)
Theorem code_monkey_run_dispatches_on_previous_tag (env : Env)
  (self : Agent.t) (w w' : World) (r : AgentResponse) :
  code_monkey_run env self w = (Return r, w') →
  (r = Done ↔ Agent.prev_response self = Some DescribeFiles)
  ∧ (Agent.prev_response self = Some DescribeFiles →
     count_llm_calls (events_since w w')
     = length (described_paths (events_since w w')))
  ∧ (Agent.prev_response self ≠ Some DescribeFiles →
     ∃ instructions old new attempt,
       r = CodeReview (Agent.step_save_file_path self) instructions old new
             attempt).
Proof.
  unfold code_monkey_run. intros Hrun.
  assert (Agent.prev_response self = Some DescribeFiles
          ∨ (Agent.prev_response self ≠ Some DescribeFiles
             ∧ implement_changes env self w = (Return r, w'))) as [Hp|[Hp Hi]].
  { destruct (Agent.prev_response self) as [[| |? ? ? ? ?|? ? ? ?|?]|];
      first [by left | by right]. }
  - rewrite Hp in Hrun.
    apply describe_files_returns in Hrun as (-> & evs & Htr & _ & Hd).
    rewrite (events_since_app _ _ _ Htr).
    rewrite (described_count _ _ _ _ _ Hd),
      (described_paths_of_described _ _ _ _ _ Hd), length_fmap.
    done.
  - destruct (implement_changes_outcome env self w)
      as [(i & old & new & a & w1 & Hi' & _)|(e & w1 & an & c & Hi' & _)];
      rewrite Hi' in Hi; [|discriminate].
    injection Hi as <- <-.
    split; [split; [discriminate|done]|].
    split; [done|]. intros _. by exists i, old, new, a.
Qed.

Lemma code_monkey_run_witness :
  (fst (code_monkey_run (sample_env UIClosedError) describing_agent
          (sample_world [util_py])) = Return Done
   ↔ Agent.prev_response describing_agent = Some DescribeFiles)
  ∧ ∃ instructions old new attempt,
      fst (code_monkey_run (sample_env UIClosedError) first_draft_agent
             (sample_world [util_py]))
      = Return (CodeReview "src/app.py" instructions old new attempt).
Proof.
  split.
  - destruct (code_monkey_run (sample_env UIClosedError) describing_agent
                (sample_world [util_py])) as [[r|e] w'] eqn:Hrun.
    + destruct (code_monkey_run_dispatches_on_previous_tag
                  (sample_env UIClosedError) describing_agent
                  (sample_world [util_py]) w' r Hrun) as (Hdone & _ & _).
      simpl. split.
      * intros [= ->]. by apply Hdone.
      * intros Hp. f_equal. by apply Hdone.
    + vm_compute in Hrun. discriminate.
  - destruct (code_monkey_run (sample_env UIClosedError) first_draft_agent
                (sample_world [util_py])) as [[r|e] w'] eqn:Hrun.
    + destruct (code_monkey_run_dispatches_on_previous_tag
                  (sample_env UIClosedError) first_draft_agent
                  (sample_world [util_py]) w' r Hrun) as (_ & _ & Hreview).
      destruct (Hreview ltac:(discriminate))
        as (i & old & new & a & ->).
      by exists i, old, new, a.
    + vm_compute in Hrun. discriminate.
Defined.

(** ** [Architect.run], further *)

Lemma keeps_snapshots_ret {A} (a : A) : keeps_snapshots (ret a).
Proof. by intros w. Qed.

Lemma keeps_snapshots_raise {A} (e : exn) : keeps_snapshots (@raise A e).
Proof. by intros w. Qed.

Lemma keeps_snapshots_bind {A B} (c : M A) (k : A → M B) :
  keeps_snapshots c → (∀ a, keeps_snapshots (k a)) →
  keeps_snapshots (bind c k).
Proof.
  intros Hc Hk w. unfold bind.
  destruct (Hc w) as [Hc1 Hc2].
  destruct (c w) as [[a|e] w1]; simpl in *; [|done].
  destruct (Hk a w1) as [Hk1 Hk2]. by rewrite Hk1, Hk2.
Qed.

Lemma keeps_snapshots_emit (e : Event) : keeps_snapshots (emit e).
Proof. by intros w. Qed.

Lemma keeps_snapshots_ask_question (env : Env) (q : Question.t) :
  keeps_snapshots (ask_question env q).
Proof.
  intros w. unfold ask_question.
  by destruct (ui_ask_question env (trace w) q).
Qed.

Lemma keeps_snapshots_lift_outcome {A} (o : Outcome A) :
  keeps_snapshots (lift_outcome o).
Proof. intros w. by destruct o. Qed.

Lemma keeps_snapshots_run_command (env : Env) (command : option string) :
  keeps_snapshots (run_command env command).
Proof.
  intros w. unfold run_command.
  by destruct (process_run_command env (trace w) command).
Qed.

Lemma keeps_snapshots_check_dependencies_loop (env : Env)
  (deps : list SysDep.t) :
  keeps_snapshots (check_dependencies_loop env deps).
Proof.
  induction deps as [|dep rest IH]; simpl.
  - apply keeps_snapshots_ret.
  - apply keeps_snapshots_bind.
    + unfold check_one_dependency.
      apply keeps_snapshots_bind; [apply keeps_snapshots_run_command|].
      intros status.
      apply keeps_snapshots_bind; [|intros; apply keeps_snapshots_ret].
      destruct (negb _).
      * apply keeps_snapshots_bind; [apply keeps_snapshots_emit|]. intros _.
        apply keeps_snapshots_bind; [apply keeps_snapshots_ask_question|].
        intros; apply keeps_snapshots_ret.
      * apply keeps_snapshots_emit.
    + intros dep'. apply keeps_snapshots_bind; [exact IH|].
      intros; apply keeps_snapshots_ret.
Qed.

Lemma keeps_snapshots_check_system_dependencies (env : Env)
  (spec : Specification.t) :
  keeps_snapshots (check_system_dependencies env spec).
Proof.
  unfold check_system_dependencies.
  apply keeps_snapshots_bind;
    [apply keeps_snapshots_check_dependencies_loop|].
  intros deps. apply keeps_snapshots_bind; [apply keeps_snapshots_emit|].
  intros; apply keeps_snapshots_ret.
Qed.

Lemma keeps_snapshots_check_compatibility (env : Env)
  (arch : Architecture.t) :
  keeps_snapshots (check_compatibility env arch).
Proof.
  unfold check_compatibility, warn_about_dependencies.
  apply keeps_snapshots_bind; [apply keeps_snapshots_lift_outcome|].
  intros system_names.
  apply keeps_snapshots_bind; [apply keeps_snapshots_lift_outcome|].
  intros package_names.
  apply keeps_snapshots_bind.
  { destruct system_names; [apply keeps_snapshots_ret|].
    apply keeps_snapshots_bind; [apply keeps_snapshots_ask_question|].
    intros; apply keeps_snapshots_ret. }
  intros _. apply keeps_snapshots_bind; [|intros; apply keeps_snapshots_ret].
  destruct package_names; [apply keeps_snapshots_ret|].
  apply keeps_snapshots_bind; [apply keeps_snapshots_ask_question|].
  intros; apply keeps_snapshots_ret.
Qed.

Lemma keeps_snapshots_dump_all {D E} (dump : D → E)
  (deps : option (list D)) :
  keeps_snapshots (dump_all dump deps).
Proof.
  destruct deps; [apply keeps_snapshots_ret|apply keeps_snapshots_raise].
Qed.

Lemma keeps_snapshots_obtain_architecture (env : Env)
  (spec : Specification.t) :
  keeps_snapshots (obtain_architecture env spec).
Proof.
  unfold obtain_architecture.
  destruct (opt_str_truthy _).
  - unfold prepare_example_project.
    destruct (Specification.example_project spec) as [key|];
      [|apply keeps_snapshots_raise].
    destruct (EXAMPLE_PROJECTS env !! key); [|apply keeps_snapshots_raise].
    apply keeps_snapshots_bind; [apply keeps_snapshots_emit|].
    intros; apply keeps_snapshots_ret.
  - unfold plan_architecture.
    apply keeps_snapshots_bind; [apply keeps_snapshots_emit|]. intros _.
    apply keeps_snapshots_bind.
    + intros w. unfold llm_call_architecture.
      by destruct (llm_architecture env (trace w) technologies_convo).
    + intros arch.
      apply keeps_snapshots_bind; [apply keeps_snapshots_check_compatibility|].
      intros _.
      apply keeps_snapshots_bind; [apply keeps_snapshots_dump_all|].
      intros system.
      apply keeps_snapshots_bind; [apply keeps_snapshots_dump_all|].
      intros; apply keeps_snapshots_ret.
Qed.

(** X16. [Architect.run] writes to the working snapshot only when everything
    else is done.  If it raises -- the model fails, the example is unknown,
    the operator closes a prompt -- the working snapshot is exactly as it
    was; if it returns, it answers [done] and the working snapshot differs
    only in its specification and in its action label, which is
    ["Project architecture"].  The committed snapshot is never touched. *)
Theorem architect_run_writes_only_on_completion (env : Env) (self : Agent.t)
  (w : World) :
  current_state (snd (architect_run env self w)) = current_state w
  ∧ match fst (architect_run env self w) with
    | Raise _ => next_state (snd (architect_run env self w)) = next_state w
    | Return r =>
        r = Done
        ∧ ∃ spec,
            next_state (snd (architect_run env self w))
            = ProjectState.set_action ARCHITECTURE_STEP_NAME
                (ProjectState.set_specification spec (next_state w))
    end.
Proof.
  destruct (architect_run env self w) as [o w'] eqn:Hrun. cbn [fst snd].
  rewrite architect_run_unfold in Hrun. unfold bind at 1 in Hrun.
  destruct (keeps_snapshots_obtain_architecture env
              (initial_specification w) (architecture_stage w)) as [Hc1 Hn1].
  change (current_state (architecture_stage w)) with (current_state w) in Hc1.
  change (next_state (architecture_stage w)) with (next_state w) in Hn1.
  destruct (obtain_architecture env (initial_specification w)
              (architecture_stage w)) as [[spec1|e] w1]; cbn [fst snd] in *.
  2:{ by injection Hrun as <- <-. }
  unfold bind at 1 in Hrun.
  destruct (keeps_snapshots_check_system_dependencies env spec1 w1)
    as [Hc2 Hn2].
  destruct (check_system_dependencies env spec1 w1) as [[spec2|e] w2];
    cbn [fst snd] in *.
  - unfold bind, set_next_specification, telemetry_set, emit,
      set_next_action, ret in Hrun. injection Hrun as <- <-. simpl.
    split; [by rewrite Hc2, Hc1|]. split; [done|].
    exists spec2. by rewrite Hn2, Hn1.
  - injection Hrun as <- <-.
    split; [by rewrite Hc2, Hc1|]. by rewrite Hn2, Hn1.
Qed.

(** X17. A specification marked with an example name that
    [EXAMPLE_PROJECTS] does not have makes [Architect.run] raise [KeyError]
    for that name right after announcing the stage: nothing is planned,
    probed or asked, and no snapshot changes. *)
Theorem architect_run_unknown_example (env : Env) (self : Agent.t)
  (w : World) (key : string) :
  Specification.example_project (initial_specification w) = Some key →
  key ≠ "" →
  EXAMPLE_PROJECTS env !! key = None →
  architect_run env self w = (Raise (KeyError key), architecture_stage w).
Proof.
  intros Hkey Hne Hmissing. rewrite architect_run_unfold.
  unfold bind, obtain_architecture. rewrite Hkey. simpl.
  rewrite (str_truthy_nonempty _ Hne).
  unfold prepare_example_project. by rewrite Hkey, Hmissing.
Qed.

Lemma architect_run_unknown_example_witness :
  architect_run succeeding_env first_draft_agent example_world
  = (Raise (KeyError "example"), architecture_stage example_world).
Proof.
  apply (architect_run_unknown_example succeeding_env first_draft_agent
           example_world "example"); [reflexivity|discriminate|reflexivity].
Defined.

(** The prompt the code builds for a dependency is the install prompt for its
    name. *)
Lemma install_question_prompt (dep : SysDep.t) :
  install_question dep = install_prompt (SysDep.name dep).
Proof. unfold install_question, install_prompt. by destruct (SysDep.name dep). Qed.

Lemma bind_run_command {A} (env : Env) (command : option string)
  (k : Z → M A) (w : World) :
  (let* status := run_command env command in k status) w
  = match process_run_command env (trace w) command with
    | Return status =>
        k status (log_event (EvRunCommand command (Return status)) w)
    | Raise e => (Raise e, log_event (EvRunCommand command (Raise e)) w)
    end.
Proof.
  unfold bind, run_command.
  by destruct (process_run_command env (trace w) command).
Qed.

(** One dependency check, case by case: the test command is awaited and
    logged; if the wait raises, so does the check; a zero status is followed
    by the confirmation message, any other status by the warning and the
    install prompt, whose failure is the failure of the check. *)
Lemma check_one_dependency_cases (env : Env) (dep : SysDep.t) (w : World) :
  let reply := process_run_command env (trace w) (SysDep.test dep) in
  let probed := log_event (EvRunCommand (SysDep.test dep) reply) w in
  match reply with
  | Raise e => check_one_dependency env dep w = (Raise e, probed)
  | Return status =>
      ∃ message,
        (status = 0%Z
         ∧ check_one_dependency env dep w
           = (Return (SysDep.set_installed true dep),
              log_event (EvSendMessage message) probed))
        ∨ (status ≠ 0%Z
           ∧ ∃ answer,
               check_one_dependency env dep w
               = (match answer with
                  | Return _ => Return (SysDep.set_installed false dep)
                  | Raise e => Raise e
                  end,
                  log_event (EvAskQuestion (install_question dep) answer)
                    (log_event (EvSendMessage message) probed)))
  end.
Proof.
  cbn zeta. unfold check_one_dependency. rewrite bind_run_command.
  destruct (process_run_command env (trace w) (SysDep.test dep))
    as [status|e]; [|done].
  destruct (Z.eqb_spec status 0) as [Hzero|Hnonzero]; cbn [negb].
  - eexists. left. split; [done|]. by rewrite Hzero.
  - eexists. right. split; [done|].
    unfold bind, send_message, emit, ask_question. cbn [fst snd].
    match goal with
    | |- context [ui_ask_question env ?h ?q] =>
        exists (ui_ask_question env h q);
        destruct (ui_ask_question env h q)
    end; done.
Qed.

(** An interrupted dependency loop: the dependencies before the one at which
    it stopped were all probed, and none after it was touched; it stopped
    either because the wait for that dependency's test command raised, or
    because the command exited with a status other than 0 and the install
    prompt raised. *)
Lemma check_dependencies_loop_raises (env : Env) (deps : list SysDep.t) :
  ∀ (w w' : World) (e : exn),
    check_dependencies_loop env deps w = (Raise e, w') →
    ∃ checked dep rest statuses evs,
      deps = (checked ++ dep :: rest)%list
      ∧ length statuses = length checked
      ∧ trace w' = (trace w ++ evs)%list
      ∧ ((commands_run evs
          = (zip (SysDep.test <$> checked) (Return <$> statuses)
             ++ [(SysDep.test dep, Raise e)])%list
          ∧ last evs = Some (EvRunCommand (SysDep.test dep) (Raise e)))
         ∨ (∃ status,
              status ≠ 0%Z
              ∧ commands_run evs
                = (zip (SysDep.test <$> checked) (Return <$> statuses)
                   ++ [(SysDep.test dep, Return status)])%list
              ∧ last evs
                = Some (EvAskQuestion (install_question dep) (Raise e)))).
Proof.
  induction deps as [|dep rest IH]; intros w w' e Hrun; [discriminate|].
  cbn [check_dependencies_loop] in Hrun. unfold bind at 1 in Hrun.
  pose proof (check_one_dependency_cases env dep w) as Hone.
  cbn zeta in Hone.
  destruct (process_run_command env (trace w) (SysDep.test dep))
    as [status|e0] eqn:Hreply.
  2:{ rewrite Hone in Hrun. injection Hrun as <- <-.
      exists [], dep, rest, [], [EvRunCommand (SysDep.test dep) (Raise e0)].
      repeat split. left. by split. }
  assert (∀ (more : list Event) w1,
            check_dependencies_loop env rest w1 = (Raise e, w') →
            trace w1
            = (trace w ++ EvRunCommand (SysDep.test dep) (Return status)
                 :: more)%list →
            commands_run more = [] →
            ∃ checked dep0 rest0 statuses evs,
              dep :: rest = (checked ++ dep0 :: rest0)%list
              ∧ length statuses = length checked
              ∧ trace w' = (trace w ++ evs)%list
              ∧ ((commands_run evs
                  = (zip (SysDep.test <$> checked) (Return <$> statuses)
                     ++ [(SysDep.test dep0, Raise e)])%list
                  ∧ last evs
                    = Some (EvRunCommand (SysDep.test dep0) (Raise e)))
                 ∨ (∃ status0,
                      status0 ≠ 0%Z
                      ∧ commands_run evs
                        = (zip (SysDep.test <$> checked)
                             (Return <$> statuses)
                           ++ [(SysDep.test dep0, Return status0)])%list
                      ∧ last evs
                        = Some (EvAskQuestion (install_question dep0)
                                  (Raise e))))) as Hrest.
  { intros more w1 Hloop Htr1 Hmore.
    apply IH in Hloop
      as (checked & dep' & rest' & statuses & evs & -> & Hlen & Htr & Hcases).
    assert (evs ≠ []) as Hevs.
    { intros ->. destruct Hcases as [[_ ?]|(? & _ & _ & ?)]; discriminate. }
    exists (dep :: checked), dep', rest', (status :: statuses),
      (EvRunCommand (SysDep.test dep) (Return status) :: more ++ evs)%list.
    split; [done|]. split; [simpl; by rewrite Hlen|].
    split; [rewrite Htr, Htr1, <- app_assoc; reflexivity|].
    assert (∀ ev, last evs = Some ev →
                  last (EvRunCommand (SysDep.test dep) (Return status)
                        :: more ++ evs)%list = Some ev) as Hlast.
    { intros ev Hev.
      change (last ((EvRunCommand (SysDep.test dep) (Return status) :: more)
                    ++ evs)%list = Some ev).
      rewrite last_app, Hev. done. }
    assert (∀ tail,
              commands_run evs = tail →
              commands_run
                (EvRunCommand (SysDep.test dep) (Return status)
                 :: more ++ evs)%list
              = ((SysDep.test dep, Return status) :: tail)) as Hcmd.
    { intros tail <-.
      change (commands_run
                ([EvRunCommand (SysDep.test dep) (Return status)] ++ more
                 ++ evs)%list
              = (SysDep.test dep, Return status) :: commands_run evs).
      rewrite !commands_run_app, Hmore. reflexivity. }
    destruct Hcases as [[Hc Hl]|(status0 & Hs & Hc & Hl)].
    - left. split; [by apply Hcmd|by apply Hlast].
    - right. exists status0. split; [done|].
      split; [by apply Hcmd|by apply Hlast]. }
  destruct Hone as (message & [(Hzero & Hone)|(Hnonzero & answer & Hone)]);
    rewrite Hone in Hrun; clear Hone; cbn [fst snd] in Hrun.
  - unfold bind at 1 in Hrun.
    destruct (check_dependencies_loop env rest _) as [[rest'|e'] w2] eqn:Hloop;
      [discriminate|].
    injection Hrun as <- <-.
    apply (Hrest [EvSendMessage message] _ Hloop); [|done].
    simpl. by rewrite <- !app_assoc.
  - destruct answer as [answer|e'].
    + unfold bind at 1 in Hrun.
      destruct (check_dependencies_loop env rest _)
        as [[rest'|e''] w2] eqn:Hloop; [discriminate|].
      injection Hrun as <- <-.
      apply (Hrest [EvSendMessage message;
                    EvAskQuestion (install_question dep) (Return answer)]
               _ Hloop); [|done].
      simpl. by rewrite <- !app_assoc.
    + injection Hrun as <- <-.
      exists [], dep, rest, [],
        [EvRunCommand (SysDep.test dep) (Return status);
         EvSendMessage message;
         EvAskQuestion (install_question dep) (Raise e')].
      split; [done|]. split; [done|].
      split; [simpl; by rewrite <- !app_assoc|].
      right. by exists status.
Qed.

(** X18. When [Architect.check_system_dependencies] is interrupted, every
    dependency declared before the one at which it stopped has been probed,
    in order, with a test command that completed, and none declared after it
    has been.  It stopped in one of two places: at the wait for that
    dependency's test command, which raised, or at the install prompt of
    that dependency, whose test command had just exited with a status other
    than 0. *)
Theorem check_system_dependencies_stops_where_interrupted (env : Env)
  (spec : Specification.t) (w w' : World) (e : exn) :
  check_system_dependencies env spec w = (Raise e, w') →
  ∃ checked dep rest statuses,
    Specification.system_dependencies spec = (checked ++ dep :: rest)%list
    ∧ length statuses = length checked
    ∧ ((commands_run (events_since w w')
        = (zip (SysDep.test <$> checked) (Return <$> statuses)
           ++ [(SysDep.test dep, Raise e)])%list
        ∧ last (trace w') = Some (EvRunCommand (SysDep.test dep) (Raise e)))
       ∨ (∃ status,
            status ≠ 0%Z
            ∧ commands_run (events_since w w')
              = (zip (SysDep.test <$> checked) (Return <$> statuses)
                 ++ [(SysDep.test dep, Return status)])%list
            ∧ last (trace w')
              = Some (EvAskQuestion (install_prompt (SysDep.name dep))
                        (Raise e)))).
Proof.
  unfold check_system_dependencies. unfold bind at 1. intros Hrun.
  destruct (check_dependencies_loop env _ w) as [[deps'|e'] w1] eqn:Hloop.
  { revert Hrun. unfold bind, telemetry_set, emit, ret. discriminate. }
  injection Hrun as <- <-.
  apply check_dependencies_loop_raises in Hloop
    as (checked & dep & rest & statuses & evs & Hdeps & Hlen & Htr & Hcases).
  exists checked, dep, rest, statuses.
  rewrite (events_since_app _ _ _ Htr), Htr.
  split; [done|]. split; [done|].
  assert (∀ ev, last evs = Some ev → last (trace w ++ evs)%list = Some ev)
    as Hlast.
  { intros ev Hev. by rewrite last_app, Hev. }
  destruct Hcases as [[Hc Hl]|(status & Hs & Hc & Hl)].
  - left. split; [done|by apply Hlast].
  - right. exists status. split; [done|]. split; [done|].
    rewrite <- install_question_prompt. by apply Hlast.
Qed.

Lemma check_system_dependencies_interrupted_witness :
  ∃ checked dep rest statuses,
    Specification.system_dependencies layered_specification
      = (checked ++ dep :: rest)%list
    ∧ length statuses = length checked
    ∧ ((commands_run
          (events_since (sample_world [])
             (snd (check_system_dependencies closing_operator_env
                     layered_specification (sample_world []))))
        = (zip (SysDep.test <$> checked) (Return <$> statuses)
           ++ [(SysDep.test dep, Raise UIClosedError)])%list
        ∧ last (trace
                  (snd (check_system_dependencies closing_operator_env
                          layered_specification (sample_world []))))
          = Some (EvRunCommand (SysDep.test dep) (Raise UIClosedError)))
       ∨ (∃ status,
            status ≠ 0%Z
            ∧ commands_run
                (events_since (sample_world [])
                   (snd (check_system_dependencies closing_operator_env
                           layered_specification (sample_world []))))
              = (zip (SysDep.test <$> checked) (Return <$> statuses)
                 ++ [(SysDep.test dep, Return status)])%list
            ∧ last (trace
                      (snd (check_system_dependencies closing_operator_env
                              layered_specification (sample_world []))))
              = Some (EvAskQuestion (install_prompt (SysDep.name dep))
                        (Raise UIClosedError)))).
Proof.
  apply (check_system_dependencies_stops_where_interrupted
           closing_operator_env layered_specification (sample_world [])
           (snd (check_system_dependencies closing_operator_env
                   layered_specification (sample_world [])))
           UIClosedError).
  reflexivity.
Defined.

(** What it takes for every dependency of a reply to be declared by name. *)
Lemma declared_names_lists {D} (name : D → option string)
  (deps : option (list D)) (names : list string) :
  declared_names name deps = Some names →
  ∃ l, deps = Some l ∧ mapM name l = Some names.
Proof. destruct deps as [l|]; [|discriminate]. intros Hl. by exists l. Qed.

Lemma declared_names_missing {D} (name : D → option string)
  (deps : option (list D)) :
  declared_names name deps = None →
  deps = None ∨ ∃ dep l, deps = Some l ∧ dep ∈ l ∧ name dep = None.
Proof.
  destruct deps as [l|]; [|by left]. simpl. intros Hl. right.
  induction l as [|dep l IH]; [discriminate|].
  destruct (name dep) as [n|] eqn:Hname.
  - destruct (mapM name l) as [names|] eqn:Hrest.
    + exfalso. revert Hl. cbn. rewrite Hname. cbn. rewrite Hrest. discriminate.
    + destruct (IH eq_refl) as (dep' & l' & [= <-] & Hin & Hnone).
      exists dep', (dep :: l). split; [done|].
      split; [by apply list_elem_of_further|done].
  - exists dep, (dep :: l). split; [done|]. split; [apply list_elem_of_here|done].
Qed.

(** An interrupted compatibility check either found the reply incomplete and
    raised at once, or stopped at one of its advisories; either way it ran no
    command. *)
Lemma check_compatibility_raises (env : Env) (arch : Architecture.t)
  (w w' : World) (e : exn) :
  check_compatibility env arch w = (Raise e, w') →
  (w' = w ∧ incomplete_reply e
   ∧ (declared_names SystemDependency.name
        (Architecture.system_dependencies arch) = None
      ∨ declared_names PackageDependency.name
          (Architecture.package_dependencies arch) = None))
  ∨ (∃ system_names package_names q evs,
       declared_names SystemDependency.name
         (Architecture.system_dependencies arch) = Some system_names
       ∧ declared_names PackageDependency.name
           (Architecture.package_dependencies arch) = Some package_names
       ∧ q ∈ advisories env system_names package_names
       ∧ trace w' = (trace w ++ evs)%list
       ∧ last evs = Some (EvAskQuestion q (Raise e))
       ∧ commands_run evs = []
       ∧ count_llm_calls evs = 0
       ∧ questions_asked evs
         `prefix_of` advisories env system_names package_names).
Proof.
  intros Hrun.
  destruct (declared_names SystemDependency.name
              (Architecture.system_dependencies arch))
    as [system_names|] eqn:Hsystem.
  2:{ left.
      destruct (check_compatibility_incomplete env arch w (or_introl Hsystem))
        as (e' & Hraise & He).
      rewrite Hraise in Hrun. injection Hrun as <- <-. by repeat split; [|left]. }
  destruct (declared_names PackageDependency.name
              (Architecture.package_dependencies arch))
    as [package_names|] eqn:Hpackage.
  2:{ left.
      destruct (check_compatibility_incomplete env arch w (or_intror Hpackage))
        as (e' & Hraise & He).
      rewrite Hraise in Hrun. injection Hrun as <- <-.
      by repeat split; [|right]. }
  right. exists system_names, package_names.
  rewrite (check_compatibility_declared env arch _ _ w Hsystem Hpackage)
    in Hrun.
  revert Hrun. unfold advisories, bind, ret, ask_question.
  destruct (unsupported_system env system_names) as [|s1 ss];
    destruct (unsupported_frameworks env package_names) as [|p1 ps];
    cbn [app fst snd].
  - discriminate.
  - destruct (ui_ask_question env _ _) as [a|e1] eqn:Hask; cbn [lift_outcome];
      unfold ret, raise; cbn [fst snd]; [discriminate|].
    intros [= <- <-]. eexists _, [_]. split; [done|]. split; [done|].
    split; [apply list_elem_of_here|].
    split; [reflexivity|]. repeat split. simpl. done.
  - destruct (ui_ask_question env _ _) as [a|e1] eqn:Hask; cbn [lift_outcome];
      unfold ret, raise; cbn [fst snd]; [discriminate|].
    intros [= <- <-]. eexists _, [_]. split; [done|]. split; [done|].
    split; [apply list_elem_of_here|].
    split; [reflexivity|]. repeat split. simpl. done.
  - destruct (ui_ask_question env (trace w) _) as [a|e1] eqn:Hask;
      cbn [lift_outcome]; unfold ret, raise; cbn [fst snd].
    + match goal with
      | |- context [lift_outcome (ui_ask_question env ?h ?q)] =>
          destruct (ui_ask_question env h q) as [a2|e2] eqn:Hask2
      end; cbn [lift_outcome]; unfold ret, raise; cbn [fst snd];
        [discriminate|].
      intros [= <- <-]. eexists _, [_; _]. split; [done|]. split; [done|].
      split; [apply list_elem_of_further, list_elem_of_here|].
      split; [simpl; by rewrite <- app_assoc|]. repeat split. simpl. done.
    + intros [= <- <-]. eexists _, [_]. split; [done|]. split; [done|].
      split; [apply list_elem_of_here|].
      split; [reflexivity|]. repeat split. simpl.
      by eexists [_].
Qed.

(** X19. When obtaining the architecture fails, [Architect.run] fails with
    the same exception before any test command has been run, and the failure
    is one of four: the example named by the specification is unknown; the
    model call raised; the model's reply lacks a dependency list or the name
    of a dependency, and the compatibility check raised a [TypeError] or an
    [AttributeError] on it before showing anything; or the operator's reply
    to an advisory about the planned architecture raised. *)
Theorem architect_run_fails_before_probing (env : Env) (self : Agent.t)
  (w w1 : World) (e : exn) :
  obtain_architecture env (initial_specification w) (architecture_stage w)
    = (Raise e, w1) →
  architect_run env self w = (Raise e, w1)
  ∧ commands_run (events_since w w1) = []
  ∧ ((∃ key, e = KeyError key ∧ EXAMPLE_PROJECTS env !! key = None
             ∧ w1 = architecture_stage w)
     ∨ (last (trace w1) = Some (EvLLM None technologies_convo (Raise e))
        ∧ questions_asked (events_since w w1) = [])
     ∨ (∃ arch,
          llm_architecture env (planning_history w) technologies_convo
            = Return arch
          ∧ (Architecture.system_dependencies arch = None
             ∨ Architecture.package_dependencies arch = None
             ∨ (∃ dep deps,
                  Architecture.system_dependencies arch = Some deps
                  ∧ dep ∈ deps ∧ SystemDependency.name dep = None)
             ∨ (∃ dep deps,
                  Architecture.package_dependencies arch = Some deps
                  ∧ dep ∈ deps ∧ PackageDependency.name dep = None))
          ∧ incomplete_reply e
          ∧ last (trace w1)
            = Some (EvLLM None technologies_convo (Return (Planned arch)))
          ∧ questions_asked (events_since w w1) = []
          ∧ count_llm_calls (events_since w w1) = 1)
     ∨ (∃ arch system_names package_names q,
          llm_architecture env (planning_history w) technologies_convo
            = Return arch
          ∧ declared_names SystemDependency.name
              (Architecture.system_dependencies arch) = Some system_names
          ∧ declared_names PackageDependency.name
              (Architecture.package_dependencies arch) = Some package_names
          ∧ q ∈ advisories env system_names package_names
          ∧ last (trace w1) = Some (EvAskQuestion q (Raise e))
          ∧ count_llm_calls (events_since w w1) = 1)).
Proof.
  intros Hobtain. split.
  { rewrite architect_run_unfold. unfold bind at 1. by rewrite Hobtain. }
  revert Hobtain. unfold obtain_architecture.
  destruct (opt_str_truthy _) eqn:Hexample.
  - unfold prepare_example_project.
    destruct (Specification.example_project (initial_specification w))
      as [key|]; [|discriminate].
    destruct (EXAMPLE_PROJECTS env !! key) as [arch|] eqn:Hkey;
      [discriminate|].
    intros [= <- <-]. split.
    + by rewrite (events_since_app w (architecture_stage w)
                    [EvSendProjectStage ARCHITECTURE]).
    + left. by exists key.
  - unfold plan_architecture. unfold bind at 1. unfold send_message, emit.
    cbn [fst snd]. unfold bind at 1. unfold llm_call_architecture.
    fold (planning_history w).
    destruct (llm_architecture env (planning_history w) technologies_convo)
      as [arch|e1] eqn:Hllm; cbn [lift_outcome].
    + unfold ret at 1. cbn [fst snd]. unfold bind at 1.
      destruct (check_compatibility env arch _) as [[r|e2] w2] eqn:Hcheck.
      { apply check_compatibility_returns in Hcheck
          as (_ & sn & pn & evs & Hs & Hp & _).
        apply declared_names_lists in Hs as (system & -> & _).
        apply declared_names_lists in Hp as (package & -> & _).
        unfold dump_all, bind, ret. discriminate. }
      intros [= <- <-].
      apply check_compatibility_raises in Hcheck
        as [(-> & He & Hnone)
           |(sn & pn & q & evs & Hs & Hp & Hq & Htr & Hlast & Hcmd & Hllms
             & _)].
      * erewrite events_since_app;
          [|unfold architecture_stage; simpl; rewrite <- !app_assoc;
            reflexivity].
        split; [done|]. right. right. left. exists arch.
        split; [done|]. split.
        { destruct Hnone as [Hnone|Hnone];
            apply declared_names_missing in Hnone
              as [Hnone|(dep & deps & Hdeps & Hdep & Hname)].
          - by left.
          - right. right. left. by exists dep, deps.
          - right. by left.
          - right. right. right. by exists dep, deps. }
        split; [done|]. split; [simpl; by rewrite last_snoc|]. done.
      * revert Htr. unfold architecture_stage. simpl.
        rewrite <- !app_assoc. intros Htr.
        rewrite (events_since_app _ _ _ Htr). split.
        -- simpl. exact Hcmd.
        -- right. right. right. exists arch, sn, pn, q.
           split; [done|]. split; [exact Hs|]. split; [exact Hp|].
           split; [exact Hq|]. split.
           ++ by rewrite Htr, !last_app, Hlast.
           ++ simpl. unfold count_llm_calls in *. simpl. by rewrite Hllms.
    + unfold raise. intros [= <- <-].
      unfold architecture_stage. simpl.
      erewrite events_since_app; [|simpl; by rewrite <- !app_assoc].
      split; [done|]. right. left. split; [|done].
      by rewrite last_snoc.
Qed.

Lemma architect_run_closed_warning_witness :
  architect_run closing_operator_env first_draft_agent (sample_world [])
  = (Raise UIClosedError,
     snd (obtain_architecture closing_operator_env
            (initial_specification (sample_world []))
            (architecture_stage (sample_world []))))
  ∧ commands_run
      (events_since (sample_world [])
         (snd (obtain_architecture closing_operator_env
                 (initial_specification (sample_world []))
                 (architecture_stage (sample_world []))))) = [].
Proof.
  destruct (architect_run_fails_before_probing closing_operator_env
              first_draft_agent (sample_world [])
              (snd (obtain_architecture closing_operator_env
                      (initial_specification (sample_world []))
                      (architecture_stage (sample_world []))))
              UIClosedError) as (Hrun & Hcmd & _); [reflexivity|].
  split; [exact Hrun|exact Hcmd].
Defined.

(** ** The session as a whole *)

(** [run_project] returns -- [True] only as the orchestrator's own [True],
    recorded as the end result -- or passes on an exception of the
    orchestrator that no [except] clause catches. *)
Lemma run_project_outcome (env : Env) (w : World) :
  (∃ b w2,
     run_project env w = (Return b, w2)
     ∧ (b = true →
        ∃ w1,
          orchestrator_run env (orchestrator_entry w) = (Return true, w1)
          ∧ w2 = log_event
                   (EvTelemetrySet "end_result" (TelStr "success:exit")) w1))
  ∨ (∃ e w1,
       orchestrator_run env (orchestrator_entry w) = (Raise e, w1)
       ∧ is_Exception e = false
       ∧ e ≠ KeyboardInterrupt
       ∧ run_project env w = (Raise e, w1)).
Proof.
  unfold run_project, bind, try_except, orca_run, get_world, telemetry_set,
    emit, bind.
  fold (orchestrator_entry w).
  destruct (orchestrator_run env (orchestrator_entry w)) as [[b|e] w1].
  - left. unfold ret. exists b. eexists. split; [reflexivity|].
    intros ->. by exists w1.
  - destruct e; simpl;
      unfold bind, telemetry_set, send_message, record_crash, rollback, emit,
        bind, ret, raise;
      first [ left; exists false; eexists; split; [reflexivity|discriminate]
            | right; eexists _, w1; by repeat split ].
Qed.

Lemma run_project_success (env : Env) (w w' : World) :
  run_project env w = (Return true, w') →
  ∃ w1,
    orchestrator_run env (orchestrator_entry w) = (Return true, w1)
    ∧ w' = log_event (EvTelemetrySet "end_result" (TelStr "success:exit")) w1.
Proof.
  intros Hrun.
  destruct (run_project_outcome env w)
    as [(b & w2 & Hreturns & Hb)|(e & w1 & _ & _ & _ & Hraises)].
  - rewrite Hreturns in Hrun. injection Hrun as -> <-. by apply Hb.
  - rewrite Hraises in Hrun. discriminate.
Qed.

Lemma probe_events_create_nothing (evs : list Event) :
  forallb is_probe_event evs = true → projects_created evs = [].
Proof.
  induction evs as [|e evs IH]; [done|].
  simpl. intros [He Hevs]%andb_true_iff.
  destruct e; try discriminate; simpl; by apply IH.
Qed.

(** Where the loop of [llm_api_check] stops when it raises: at a probe that
    raised something other than [APIError]. *)
Lemma llm_api_check_loop_raises_at (env : Env) (llms : list string) :
  ∀ (success : bool) (e : exn) (w w' : World),
    llm_api_check_loop env llms ∅ success w = (Raise e, w') →
    ∃ evs provider,
      trace w' = (trace w ++ evs)%list
      ∧ last evs = Some (EvApiCheck provider (Raise e))
      ∧ forallb is_probe_event evs = true.
Proof.
  induction llms as [|provider rest IH]; intros success e w w' Hrun.
  - discriminate.
  - cbn [llm_api_check_loop] in Hrun.
    rewrite bool_decide_eq_false_2 in Hrun by set_solver.
    unfold bind at 1 in Hrun. unfold try_except in Hrun.
    unfold bind at 1 in Hrun. unfold api_check in Hrun.
    destruct (llm_api_probe env (trace w) provider) as [resp|e0] eqn:Hprobe;
      cbn [lift_outcome] in Hrun; unfold ret at 1, raise at 1 in Hrun.
    + unfold ret at 1 in Hrun.
      apply IH in Hrun as (evs & p & Htr & Hlast & Hall).
      exists (EvApiCheck provider (Return resp) :: evs), p.
      rewrite Htr. simpl. rewrite <- app_assoc.
      split; [done|]. split; [|done].
      destruct evs; [discriminate|done].
    + destruct e0;
        try (unfold raise in Hrun; injection Hrun as <- <-;
             eexists [_], provider; by repeat split).
      unfold bind at 1, send_message, emit, ret at 1 in Hrun.
      apply IH in Hrun as (evs & p & Htr & Hlast & Hall).
      eexists (EvApiCheck provider (Raise (APIError message)) :: _ :: evs), p.
      rewrite Htr. simpl. rewrite <- !app_assoc.
      split; [reflexivity|]. split; [|done].
      destruct evs; [discriminate|done].
Qed.

(** X20. The session raises in four situations only: a probe of the API
    check raised something other than [APIError]; loading the project the
    arguments name raised; the question for the name of a new project raised
    something other than [KeyboardInterrupt] and [UIClosedError]; or the
    orchestrator, run on the project, raised an exception that is neither a
    [KeyboardInterrupt] nor an [Exception].  In the first three no project
    has been created and the orchestrator has not run; in the last the
    session ends in the world the orchestrator left, with no rollback. *)
Theorem session_raises_in_four_situations (env : Env) (args : Args.t)
  (w w' : World) (e : exn) :
  run_pythagora_session env args w = (Raise e, w') →
  (count_orchestrator_runs (events_since w w') = 0
   ∧ projects_created (events_since w w') = []
   ∧ ((∃ provider,
         last (trace w') = Some (EvApiCheck provider (Raise e))
         ∧ ∀ message, e ≠ APIError message)
      ∨ (args_name_a_checkpoint args = true
         ∧ last (trace w')
           = Some (EvLoadProject (Args.project args) (Args.branch args)
                     (Args.step args) (Raise e)))
      ∨ (args_name_a_checkpoint args = false
         ∧ last (trace w')
           = Some (EvAskQuestion project_name_question (Raise e))
         ∧ e ≠ KeyboardInterrupt ∧ e ≠ UIClosedError)))
  ∨ (∃ w2,
       orchestrator_run env (orchestrator_entry w2) = (Raise e, w')
       ∧ is_Exception e = false
       ∧ e ≠ KeyboardInterrupt).
Proof.
  unfold run_pythagora_session. unfold bind at 1. intros Hrun.
  destruct (llm_api_check_probes env w) as (evs0 & Htr0 & Hprobe).
  destruct (llm_api_check env w) as [[reachable|e0] w1] eqn:Hcheck;
    cbn [snd] in Htr0.
  - destruct reachable; cbn [negb] in Hrun.
    2:{ revert Hrun. unfold bind, send_message, emit, ret. discriminate. }
    pose proof (probe_events_neutral _ Hprobe) as (Hl0 & _ & Ho0).
    pose proof (probe_events_create_nothing _ Hprobe) as Hc0.
    destruct (args_name_a_checkpoint args) eqn:Hargs.
    + revert Hrun. unfold bind at 1. unfold telemetry_set, emit.
      unfold bind at 1. unfold load_project.
      destruct (stored_project env _ _ _) as [[s|]|e1]; cbn [negb];
        [|discriminate|].
      * match goal with
        | |- context [run_project env ?w0] =>
            destruct (run_project_outcome env w0)
              as [(b & w2 & -> & _)|(e2 & w2 & Horca & He2 & Hki & ->)];
              [discriminate|intros [= <- <-]; right; by exists w0]
        end.
      * intros [= <- <-]. left.
        erewrite events_since_app;
          [|simpl; rewrite Htr0, <- !app_assoc; reflexivity].
        rewrite count_orchestrator_runs_app, Ho0.
        unfold projects_created in *. rewrite omap_app, Hc0.
        split; [done|]. split; [done|]. right. left. split; [done|].
        simpl. by rewrite last_snoc.
    + revert Hrun. unfold bind at 1. rewrite start_new_project_cases.
      cbv zeta.
      destruct (ui_ask_question env (trace w1) project_name_question)
        as [input|e1] eqn:Hask.
      * destruct (UserInput.cancelled input); [discriminate|].
        destruct (created_project env (UserInput.text input));
          cbn [negb]; [|discriminate].
        match goal with
        | |- context [run_project env ?w0] =>
            destruct (run_project_outcome env w0)
              as [(b & w2 & -> & _)|(e2 & w2 & Horca & He2 & Hki & ->)];
              [discriminate|intros [= <- <-]; right; by exists w0]
        end.
      * destruct e1; try discriminate; intros [= <- <-]; left;
          (erewrite events_since_app;
           [|simpl; rewrite Htr0, <- app_assoc; reflexivity]);
          rewrite count_orchestrator_runs_app, Ho0;
          unfold projects_created in *; rewrite omap_app, Hc0;
          (split; [done|]); (split; [done|]);
          right; right; simpl; rewrite last_snoc; by repeat split.
  - injection Hrun as <- <-. left.
    revert Hcheck. unfold llm_api_check. unfold bind at 1.
    destruct (llm_api_check_loop env (config_all_llms env) ∅ true w)
      as [[success|e1] w2] eqn:Hloop.
    { destruct success; unfold bind, telemetry_set, emit, ret; discriminate. }
    intros [= <- <-].
    pose proof (llm_api_check_loop_raises _ _ _ _ _ _ Hloop) as Hclass.
    apply llm_api_check_loop_raises_at in Hloop
      as (evs & provider & Htr & Hlast & Hall).
    rewrite (events_since_app _ _ _ Htr).
    pose proof (probe_events_neutral _ Hall) as (Hl & _ & Ho).
    rewrite Ho, (probe_events_create_nothing _ Hall).
    repeat split. left. exists provider. split; [|done].
    by rewrite Htr, last_app, Hlast.
Qed.

Lemma session_raises_witness :
  (count_orchestrator_runs
     (events_since (sample_world [])
        (snd (run_pythagora_session cancelled_run_env resume_args
                (sample_world [])))) = 0
   ∧ projects_created
       (events_since (sample_world [])
          (snd (run_pythagora_session cancelled_run_env resume_args
                  (sample_world [])))) = []
   ∧ ((∃ provider,
         last (trace (snd (run_pythagora_session cancelled_run_env
                             resume_args (sample_world []))))
         = Some (EvApiCheck provider
                   (Raise (OtherBaseException "CancelledError()")))
         ∧ ∀ message,
             OtherBaseException "CancelledError()" ≠ APIError message)
      ∨ (args_name_a_checkpoint resume_args = true
         ∧ last (trace (snd (run_pythagora_session cancelled_run_env
                               resume_args (sample_world []))))
           = Some (EvLoadProject (Args.project resume_args)
                     (Args.branch resume_args) (Args.step resume_args)
                     (Raise (OtherBaseException "CancelledError()"))))
      ∨ (args_name_a_checkpoint resume_args = false
         ∧ last (trace (snd (run_pythagora_session cancelled_run_env
                               resume_args (sample_world []))))
           = Some (EvAskQuestion project_name_question
                     (Raise (OtherBaseException "CancelledError()")))
         ∧ OtherBaseException "CancelledError()" ≠ KeyboardInterrupt
         ∧ OtherBaseException "CancelledError()" ≠ UIClosedError)))
  ∨ (∃ w2,
       orchestrator_run cancelled_run_env (orchestrator_entry w2)
       = (Raise (OtherBaseException "CancelledError()"),
          snd (run_pythagora_session cancelled_run_env resume_args
                 (sample_world [])))
       ∧ is_Exception (OtherBaseException "CancelledError()") = false
       ∧ OtherBaseException "CancelledError()" ≠ KeyboardInterrupt).
Proof.
  apply (session_raises_in_four_situations cancelled_run_env resume_args
           (sample_world [])
           (snd (run_pythagora_session cancelled_run_env resume_args
                   (sample_world [])))
           (OtherBaseException "CancelledError()")).
  reflexivity.
Defined.

(** A session that returns [True] has passed the API check, has its project,
    and ends as [run_project] on it. *)
Lemma session_success_path (env : Env) (args : Args.t) (w w' : World) :
  run_pythagora_session env args w = (Return true, w') →
  ∃ w1 w2,
    llm_api_check env w = (Return true, w1)
    ∧ (if args_name_a_checkpoint args
       then load_project env (Args.project args) (Args.branch args)
              (Args.step args)
              (log_event (EvTelemetrySet "is_continuation" (TelBool true)) w1)
            = (Return true, w2)
       else start_new_project env w1 = (Return true, w2))
    ∧ run_project env w2 = (Return true, w').
Proof.
  unfold run_pythagora_session. unfold bind at 1. intros Hrun.
  destruct (llm_api_check env w) as [[reachable|e0] w1] eqn:Hcheck;
    [|discriminate].
  destruct reachable; cbn [negb] in Hrun.
  2:{ revert Hrun. unfold bind, send_message, emit, ret. discriminate. }
  exists w1.
  destruct (args_name_a_checkpoint args) eqn:Hargs.
  - revert Hrun. unfold bind at 1. unfold telemetry_set, emit.
    unfold bind at 1.
    destruct (load_project env _ _ _ _) as [[success|e1] w2] eqn:Hload;
      [|discriminate].
    destruct success; cbn [negb]; [|discriminate].
    intros Hproject. by exists w2.
  - revert Hrun. unfold bind at 1.
    destruct (start_new_project env w1) as [[success|e1] w2] eqn:Hnew;
      [|discriminate].
    destruct success; cbn [negb]; [|discriminate].
    intros Hproject. by exists w2.
Qed.

(** X21. The session returns [True] only along one path: the API check
    passed, then the project named by the arguments was loaded or a new one
    was created, then the orchestrator ran on it and returned [True], which
    was recorded as the end result. *)
Theorem session_success_is_orchestrator_success (env : Env) (args : Args.t)
  (w w' : World) :
  run_pythagora_session env args w = (Return true, w') →
  ∃ w1 w2 w3,
    llm_api_check env w = (Return true, w1)
    ∧ (if args_name_a_checkpoint args
       then load_project env (Args.project args) (Args.branch args)
              (Args.step args)
              (log_event (EvTelemetrySet "is_continuation" (TelBool true)) w1)
            = (Return true, w2)
       else start_new_project env w1 = (Return true, w2))
    ∧ orchestrator_run env (orchestrator_entry w2) = (Return true, w3)
    ∧ w' = log_event (EvTelemetrySet "end_result" (TelStr "success:exit")) w3.
Proof.
  intros Hrun.
  apply session_success_path in Hrun as (w1 & w2 & Hcheck & Hproject & Hrun).
  apply run_project_success in Hrun as (w3 & Horca & ->).
  by exists w1, w2, w3.
Qed.

Lemma session_success_witness :
  ∃ w1 w2 w3,
    llm_api_check completing_env (sample_world []) = (Return true, w1)
    ∧ (if args_name_a_checkpoint resume_args
       then load_project completing_env (Args.project resume_args)
              (Args.branch resume_args) (Args.step resume_args)
              (log_event (EvTelemetrySet "is_continuation" (TelBool true)) w1)
            = (Return true, w2)
       else start_new_project completing_env w1 = (Return true, w2))
    ∧ orchestrator_run completing_env (orchestrator_entry w2)
      = (Return true, w3)
    ∧ snd (run_pythagora_session completing_env resume_args (sample_world []))
      = log_event (EvTelemetrySet "end_result" (TelStr "success:exit")) w3.
Proof.
  apply (session_success_is_orchestrator_success completing_env resume_args
           (sample_world [])
           (snd (run_pythagora_session completing_env resume_args
                   (sample_world [])))).
  reflexivity.
Defined.

(** ** [async_main] and [run_pythagora] *)

Lemma actions_since_after_calls (calls : list (nat * CliAction)) (w : World)
  (cw : CliWorld) :
  actions_since cw (after_calls calls w cw) = snd <$> calls.
Proof.
  unfold actions_since, after_calls. simpl.
  by rewrite drop_app_length.
Qed.

(** [async_main] without a management request, case by case on what the
    collaborators answer. *)
Lemma async_main_session_cases (cenv : CliEnv) (env : Env)
  (args : CliArgs.t) (cw : CliWorld) :
  management_requested args = false →
  async_main cenv env args cw
  = let w0 := session_start args (core cw) in
    let n0 := length (trace w0) in
    match ui_start cenv w0 with
    | Raise e => (Raise e, after_calls [(n0, UiStart)] w0 cw)
    | Return false => (Return false, after_calls [(n0, UiStart)] w0 cw)
    | Return true =>
        match telemetry_start cenv w0 with
        | Raise e =>
            (Raise e,
             after_calls [(n0, UiStart); (n0, TelemetryStart)] w0 cw)
        | Return _ =>
            match run_pythagora_session env (CliArgs.session args) w0 with
            | (Raise e, w1) =>
                (Raise e,
                 after_calls [(n0, UiStart); (n0, TelemetryStart)] w1 cw)
            | (Return success, w1) =>
                let n1 := length (trace w1) in
                match telemetry_send cenv w1 with
                | Raise e =>
                    (Raise e,
                     after_calls
                       [(n0, UiStart); (n0, TelemetryStart);
                        (n1, TelemetrySend)] w1 cw)
                | Return _ =>
                    (match ui_stop cenv w1 with
                     | Raise e => Raise e
                     | Return _ => Return success
                     end,
                     after_calls
                       [(n0, UiStart); (n0, TelemetryStart);
                        (n1, TelemetrySend); (n1, UiStop)] w1 cw)
                end
            end
        end
    end.
Proof.
  unfold management_requested. intros Hflags.
  repeat (apply orb_false_iff in Hflags as [Hflags ?]).
  unfold async_main, session_start, after_calls.
  rewrite Hflags. repeat match goal with H : _ = false |- _ => rewrite H end.
  cbv zeta.
  destruct (opt_str_truthy (CliArgs.extension_version args));
    unfold cli_bind, in_session, cli_call, cli_ret, telemetry_set, emit;
    cbn [core console fst snd];
    (match goal with
     | |- context [ui_start cenv ?w] => set (w0 := w)
     end);
    (destruct (ui_start cenv w0) as [[]|e];
       cbn [core console fst snd negb]; [|done|done]);
    (destruct (telemetry_start cenv w0) as [[]|e];
       cbn [core console fst snd]; [|by rewrite <- ?app_assoc]);
    (destruct (run_pythagora_session env (CliArgs.session args) w0)
       as [[success|e] w1];
       cbn [core console fst snd]; [|by rewrite <- ?app_assoc]);
    (destruct (telemetry_send cenv w1) as [[]|e];
       cbn [core console fst snd]; [|by rewrite <- ?app_assoc]);
    (destruct (ui_stop cenv w1) as [[]|e];
       cbn [core console fst snd]; by rewrite <- ?app_assoc).
Qed.

(** X22. A management request is served by exactly one call -- listing wins
    over everything else, deletion is reached only when nothing else was
    asked for -- and by nothing more: the user interface is not started, no
    telemetry is recorded or sent, and the session's world is untouched.
    The result is [True], except for a deletion, whose own result it is. *)
Theorem management_request_runs_one_action (cenv : CliEnv) (env : Env)
  (args : CliArgs.t) (cw : CliWorld) :
  management_requested args = true →
  core (snd (async_main cenv env args cw)) = core cw
  ∧ ∃ a,
      actions_since cw (snd (async_main cenv env args cw)) = [a]
      ∧ (a ∉ [UiStart; TelemetryStart; TelemetrySend; UiStop])
      ∧ (CliArgs.list args = true → a = ListProjects)
      ∧ (∀ p, a = DeleteProject p →
              CliArgs.list args = false
              ∧ CliArgs.list_json args = false
              ∧ CliArgs.show_config args = false
              ∧ opt_str_truthy (CliArgs.import_v0 args) = false)
      ∧ (∀ b, fst (async_main cenv env args cw) = Return b →
              b = true
              ∨ (a = DeleteProject (CliArgs.delete args)
                 ∧ delete_project cenv (CliArgs.delete args) = Return b)).
Proof.
  unfold management_requested, async_main. intros Hflags.
  assert (∀ calls w,
            actions_since cw
              {| console := (console cw ++ calls)%list; core := w |}
            = snd <$> calls) as Hactions.
  { intros calls w. apply (actions_since_after_calls calls w cw). }
  destruct (CliArgs.list args).
  { unfold cli_bind, cli_call, cli_ret.
    destruct (list_projects cenv) as [[]|e]; cbn [fst snd core];
      (split; [done|]); exists ListProjects; rewrite Hactions;
      (split; [done|]); (split; [by repeat (apply not_elem_of_cons; split; [done|]);
                 apply not_elem_of_nil|]);
      (split; [done|]); (split; [discriminate|]); intros b [= <-];
      by left. }
  destruct (CliArgs.list_json args).
  { unfold cli_bind, cli_call, cli_ret.
    destruct (list_projects_json cenv) as [[]|e]; cbn [fst snd core];
      (split; [done|]); exists ListProjectsJson; rewrite Hactions;
      (split; [done|]); (split; [by repeat (apply not_elem_of_cons; split; [done|]);
                 apply not_elem_of_nil|]);
      (split; [done|]); (split; [discriminate|]); intros b [= <-];
      by left. }
  destruct (CliArgs.show_config args).
  { unfold cli_bind, cli_call, cli_ret.
    destruct (show_config cenv) as [[]|e]; cbn [fst snd core];
      (split; [done|]); exists ShowConfig; rewrite Hactions;
      (split; [done|]); (split; [by repeat (apply not_elem_of_cons; split; [done|]);
                 apply not_elem_of_nil|]);
      (split; [done|]); (split; [discriminate|]); intros b [= <-];
      by left. }
  destruct (opt_str_truthy (CliArgs.import_v0 args)).
  { unfold cli_bind, cli_call, cli_ret.
    destruct (import_database cenv _) as [[]|e]; cbn [fst snd core];
      (split; [done|]); exists (ImportDatabase (CliArgs.import_v0 args));
      rewrite Hactions;
      (split; [done|]); (split; [by repeat (apply not_elem_of_cons; split; [done|]);
                 apply not_elem_of_nil|]);
      (split; [done|]); (split; [discriminate|]); intros b [= <-];
      by left. }
  destruct (opt_str_truthy (CliArgs.delete args)); [|discriminate].
  unfold cli_bind, cli_call, cli_ret.
  destruct (delete_project cenv _) as [success|e] eqn:Hdelete;
    cbn [fst snd core];
    (split; [done|]); exists (DeleteProject (CliArgs.delete args));
    rewrite Hactions;
    (split; [done|]); (split; [by repeat (apply not_elem_of_cons; split; [done|]);
                 apply not_elem_of_nil|]);
    (split; [done|]); (split; [done|]); intros b [= <-].
  by right.
Qed.

Lemma management_request_witness :
  core (snd (async_main (sample_cli_env list_and_delete_args) succeeding_env
               list_and_delete_args sample_cli_world))
  = core sample_cli_world
  ∧ ∃ a,
      actions_since sample_cli_world
        (snd (async_main (sample_cli_env list_and_delete_args) succeeding_env
                list_and_delete_args sample_cli_world)) = [a]
      ∧ a = ListProjects.
Proof.
  destruct (management_request_runs_one_action
              (sample_cli_env list_and_delete_args) succeeding_env
              list_and_delete_args sample_cli_world)
    as (Hcore & a & Hactions & _ & Hlist & _); [reflexivity|].
  split; [exact Hcore|]. exists a. split; [exact Hactions|].
  apply Hlist. reflexivity.
Defined.

(** X23. [async_main] has no cleanup for a session that raises: the
    exception escapes, and neither [telemetry.send()] nor [ui.stop()] is
    called, although the user interface and the telemetry were started. *)
Theorem async_main_skips_cleanup_when_session_raises (cenv : CliEnv)
  (env : Env) (args : CliArgs.t) (cw : CliWorld) (e : exn) (w1 : World) :
  management_requested args = false →
  ui_start cenv (session_start args (core cw)) = Return true →
  telemetry_start cenv (session_start args (core cw)) = Return tt →
  run_pythagora_session env (CliArgs.session args)
    (session_start args (core cw)) = (Raise e, w1) →
  fst (async_main cenv env args cw) = Raise e
  ∧ actions_since cw (snd (async_main cenv env args cw))
    = [UiStart; TelemetryStart]
  ∧ core (snd (async_main cenv env args cw)) = w1.
Proof.
  intros Hflags Hstart Htelemetry Hsession.
  rewrite (async_main_session_cases _ _ _ _ Hflags). cbv zeta.
  rewrite Hstart, Htelemetry, Hsession. cbn [fst snd].
  by rewrite actions_since_after_calls.
Qed.

Lemma async_main_skips_cleanup_witness :
  fst (async_main (sample_cli_env plain_cli_args) broken_client_env
         plain_cli_args sample_cli_world)
  = Raise (OtherException "ValueError('no key')")
  ∧ actions_since sample_cli_world
      (snd (async_main (sample_cli_env plain_cli_args) broken_client_env
              plain_cli_args sample_cli_world))
    = [UiStart; TelemetryStart]
  ∧ core (snd (async_main (sample_cli_env plain_cli_args) broken_client_env
                 plain_cli_args sample_cli_world))
    = snd (run_pythagora_session broken_client_env
             (CliArgs.session plain_cli_args)
             (session_start plain_cli_args (core sample_cli_world))).
Proof.
  apply (async_main_skips_cleanup_when_session_raises
           (sample_cli_env plain_cli_args) broken_client_env plain_cli_args
           sample_cli_world);
    reflexivity.
Defined.

(** X24. Without a management request, [async_main] returns in two ways
    only.  Either the user interface did not start: the result is [False]
    and nothing has happened but the recording of the contact (and of the
    extension's version).  Or the
    session ran and returned: the result is the session's, and telemetry was
    sent and the user interface stopped, in this order, after the last
    event of the session. *)
Theorem async_main_returns_after_cleanup (cenv : CliEnv) (env : Env)
  (args : CliArgs.t) (cw cw' : CliWorld) (b : bool) :
  management_requested args = false →
  async_main cenv env args cw = (Return b, cw') →
  (b = false
   ∧ ui_start cenv (session_start args (core cw)) = Return false
   ∧ core cw' = session_start args (core cw)
   ∧ actions_since cw cw' = [UiStart])
  ∨ (run_pythagora_session env (CliArgs.session args)
       (session_start args (core cw)) = (Return b, core cw')
     ∧ console cw'
       = (console cw
          ++ [(length (trace (session_start args (core cw))), UiStart);
              (length (trace (session_start args (core cw))),
               TelemetryStart);
              (length (trace (core cw')), TelemetrySend);
              (length (trace (core cw')), UiStop)])%list).
Proof.
  intros Hflags. rewrite (async_main_session_cases _ _ _ _ Hflags). cbv zeta.
  destruct (ui_start cenv _) as [[]|e] eqn:Hstart; [|intros [= <- <-]|done].
  2:{ left. by rewrite actions_since_after_calls. }
  destruct (telemetry_start cenv _) as [[]|e]; [|done].
  destruct (run_pythagora_session env _ _) as [[success|e] w1]; [|done].
  destruct (telemetry_send cenv w1) as [[]|e]; [|done].
  destruct (ui_stop cenv w1) as [[]|e]; [|done].
  intros [= <- <-]. by right.
Qed.

Lemma async_main_returns_witness :
  (true = false
   ∧ ui_start (sample_cli_env plain_cli_args)
       (session_start plain_cli_args (core sample_cli_world)) = Return false
   ∧ core (snd (async_main (sample_cli_env plain_cli_args) completing_env
                  plain_cli_args sample_cli_world))
     = session_start plain_cli_args (core sample_cli_world)
   ∧ actions_since sample_cli_world
       (snd (async_main (sample_cli_env plain_cli_args) completing_env
               plain_cli_args sample_cli_world)) = [UiStart])
  ∨ (run_pythagora_session completing_env (CliArgs.session plain_cli_args)
       (session_start plain_cli_args (core sample_cli_world))
     = (Return true,
        core (snd (async_main (sample_cli_env plain_cli_args) completing_env
                     plain_cli_args sample_cli_world)))
     ∧ console (snd (async_main (sample_cli_env plain_cli_args)
                       completing_env plain_cli_args sample_cli_world))
       = (console sample_cli_world
          ++ [(length (trace (session_start plain_cli_args
                                (core sample_cli_world))), UiStart);
              (length (trace (session_start plain_cli_args
                                (core sample_cli_world))), TelemetryStart);
              (length (trace (core (snd (async_main
                                           (sample_cli_env plain_cli_args)
                                           completing_env plain_cli_args
                                           sample_cli_world)))),
               TelemetrySend);
              (length (trace (core (snd (async_main
                                           (sample_cli_env plain_cli_args)
                                           completing_env plain_cli_args
                                           sample_cli_world)))),
               UiStop)])%list).
Proof.
  apply (async_main_returns_after_cleanup (sample_cli_env plain_cli_args)
           completing_env plain_cli_args sample_cli_world
           (snd (async_main (sample_cli_env plain_cli_args) completing_env
                   plain_cli_args sample_cli_world)) true);
    reflexivity.
Defined.

(** X25. When [run_pythagora] returns, the exit status is [0] or [-1], and
    [0] has one of two meanings: a management request was served, or the
    orchestrator ran on the project and returned [True], after which the
    user interface was stopped. *)
Theorem exit_status_zero_is_success (cenv : CliEnv) (env : Env)
  (cw cw' : CliWorld) (status : Z) :
  run_pythagora cenv env cw = (Return status, cw') →
  (status = 0%Z ∨ status = (-1)%Z)
  ∧ (status = 0%Z →
     ∃ args,
       init cenv = Return (true, true, args)
       ∧ (management_requested args = true
          ∨ (UiStop ∈ actions_since cw cw'
             ∧ ∃ w2 w3,
                 orchestrator_run env (orchestrator_entry w2)
                   = (Return true, w3)
                 ∧ core cw'
                   = log_event
                       (EvTelemetrySet "end_result" (TelStr "success:exit"))
                       w3))).
Proof.
  unfold run_pythagora.
  destruct (init cenv) as [[[ui db] args]|e]; [|discriminate].
  destruct ui, db; cbn [negb orb];
    try (intros [= <- <-]; split; [by right|discriminate]).
  unfold cli_bind at 1.
  destruct (async_main cenv env args cw) as [[success|e] cw1] eqn:Hmain;
    [|discriminate].
  unfold cli_ret. intros [= <- <-].
  destruct success; [|split; [by right|discriminate]].
  split; [by left|]. intros _. exists args. split; [done|].
  destruct (management_requested args) eqn:Hflags; [by left|]. right.
  revert Hmain. rewrite (async_main_session_cases _ _ _ _ Hflags). cbv zeta.
  destruct (ui_start cenv _) as [[]|e]; [|done|done].
  destruct (telemetry_start cenv _) as [[]|e]; [|done].
  destruct (run_pythagora_session env _ _) as [[success|e] w1] eqn:Hsession;
    [|done].
  destruct (telemetry_send cenv w1) as [[]|e]; [|done].
  destruct (ui_stop cenv w1) as [[]|e]; [|done].
  intros [= -> <-]. rewrite actions_since_after_calls.
  split; [cbn; do 3 apply list_elem_of_further; apply list_elem_of_here|].
  apply session_success_path in Hsession as (w1' & w2 & _ & _ & Hproject).
  apply run_project_success in Hproject as (w3 & Horca & ->).
  by exists w2, w3.
Qed.

Lemma exit_status_witness :
  (0%Z = 0%Z ∨ 0%Z = (-1)%Z)
  ∧ (0%Z = 0%Z →
     ∃ args,
       init (sample_cli_env plain_cli_args) = Return (true, true, args)
       ∧ (management_requested args = true
          ∨ (UiStop ∈ actions_since sample_cli_world
                         (snd (run_pythagora (sample_cli_env plain_cli_args)
                                 completing_env sample_cli_world))
             ∧ ∃ w2 w3,
                 orchestrator_run completing_env (orchestrator_entry w2)
                   = (Return true, w3)
                 ∧ core (snd (run_pythagora (sample_cli_env plain_cli_args)
                                completing_env sample_cli_world))
                   = log_event
                       (EvTelemetrySet "end_result" (TelStr "success:exit"))
                       w3))).
Proof.
  apply (exit_status_zero_is_success (sample_cli_env plain_cli_args)
           completing_env sample_cli_world
           (snd (run_pythagora (sample_cli_env plain_cli_args)
                   completing_env sample_cli_world)) 0%Z).
  reflexivity.
Defined.
